(** * SocketHub wire protocol: header codec, framing and transports

    A shallow embedding of the Go package [protocol] of sockethub
    (constants.go, header.go, checksum.go, header_encoder.go and
    connection.go) together with the properties of its
    specification.

    Conventions of the embedding:
    - Go's fixed-width unsigned integers are [Z] values; every
      conversion or arithmetic step that can wrap is written out with
      [mod].
    - a byte slice handed to a function is a [slice]: the bytes below
      its length plus the bytes between length and capacity, so that a
      slice expression [s[lo:hi]] is checked against the capacity and an
      index expression [s[i]] against the length, as the Go runtime does.
    - a function that can return an [error] or panic returns a
      [result]; a function that mutates the header behind its pointer
      returns the header it leaves behind. *)

From Stdlib Require Import ZArith Lia.
From stdpp Require Import base tactics option list numbers strings.

Local Open Scope Z_scope.

(** ** Machine integers *)

Definition byte := Z.

Definition is_byte (b : Z) : Prop := 0 ≤ b < 256.
Definition wf_bytes (l : list byte) : Prop := Forall is_byte l.

Definition is_uint32 (v : Z) : Prop := 0 ≤ v < 2 ^ 32.
Definition is_uint64 (v : Z) : Prop := 0 ≤ v < 2 ^ 64.

(** Conversions [byte(x)], [uint8(x)], [uint32(x)], [uint64(x)]: truncation. *)
Definition to_byte (x : Z) : byte := x mod 2 ^ 8.
Definition to_uint32 (x : Z) : Z := x mod 2 ^ 32.
Definition to_uint64 (x : Z) : Z := x mod 2 ^ 64.

(** ** Errors, panics and results *)

(** One constructor per error the package builds; an error wrapped with
    [%w] carries the error it wraps. *)
Inductive error : Type :=
  | ErrNilHeader                                   (* "protohub: header is nil" *)
  | ErrInvalidHeaderSize (got min max : nat)       (* "protohub: invalid header size" *)
  | ErrHeaderSizeMismatch (got : Z) (expected : nat) (* "protohub: header size mismatch" *)
  | ErrIO                                          (* failure of the underlying channel *)
  | ErrTCPNilHeader                                (* "TCP: header cannot be nil" *)
  | ErrTCPEncode (e : error)                       (* "TCP: header encode error" *)
  | ErrTCPReadPrefix (e : error)                   (* "TCP: failed to read header size prefix" *)
  | ErrTCPReadHeader (e : error)                   (* "TCP: failed to read header" *)
  | ErrTCPDecode (e : error)                       (* "TCP: decode header error" *)
  | ErrTCPReadPayload (e : error)                  (* "TCP: failed to read payload" *)
  | ErrTCPChecksumMismatch                         (* "TCP: checksum mismatch" *)
  | ErrUDPNilHeader                                (* "UDP: header cannot be nil" *)
  | ErrUDPEncode (e : error)                       (* "UDP: header encode error" *)
  | ErrUDPMessageTooLarge (size max : Z)           (* "UDP: message size %d exceeds maximum %d" *)
  | ErrUDPWrite (e : error).                       (* "UDP: write error" *)

(** The two errors [HeaderDecode] builds. *)
Definition is_DecodeError (e : error) : Prop :=
  match e with
  | ErrInvalidHeaderSize _ _ _ | ErrHeaderSizeMismatch _ _ => True
  | _ => False
  end.

(** Run-time panics of the Go runtime. *)
Inductive panic : Type :=
  | PanicSliceBounds     (* slice bounds out of range *)
  | PanicIndex           (* index out of range *)
  | PanicMakeslice.      (* makeslice: len out of range *)

Inductive result (A : Type) : Type :=
  | Ok (a : A)
  | Err (e : error)
  | Panic (p : panic).
Arguments Ok {A} a.
Arguments Err {A} e.
Arguments Panic {A} p.

Definition result_bind {A B} (f : A → result B) (m : result A) : result B :=
  match m with
  | Ok a => f a
  | Err e => Err e
  | Panic p => Panic p
  end.

#[global] Instance result_mret : MRet result := @Ok.
#[global] Instance result_mbind : MBind result := @result_bind.

(** [fmt.Errorf("...: %w", err)] on the error branch of a call. *)
Definition wrap_err {A} (w : error → error) (m : result A) : result A :=
  match m with
  | Err e => Err (w e)
  | _ => m
  end.

Definition is_Ok {A} (m : result A) : Prop :=
  match m with Ok _ => True | _ => False end.
Definition fails_with {A} (P : error → Prop) (m : result A) : Prop :=
  match m with Err e => P e | _ => False end.

(** ** Byte slices and buffers *)

(** [elems] are the bytes below [len], [spare] the bytes of the backing
    array between [len] and [cap]. *)
Record slice : Type := mkSlice { elems : list byte; spare : list byte }.

Definition len (s : slice) : nat := length (elems s).
Definition cap (s : slice) : nat := length (elems s) + length (spare s).
Definition backing (s : slice) : list byte := elems s ++ spare s.

(** [make([]byte, n)] followed by filling it: length and capacity agree. *)
Definition slice_of (l : list byte) : slice := mkSlice l [].

(** The bytes of [s[lo:hi]]; the bounds are checked against the
    capacity, so the bytes may come from beyond the length. *)
Definition slice_sub (s : slice) (lo hi : nat) : result (list byte) :=
  if decide (lo ≤ hi ∧ hi ≤ cap s)%nat
  then Ok (take (hi - lo) (drop lo (backing s)))
  else Panic PanicSliceBounds.

(** [s[i]]: checked against the length. *)
Definition slice_index (s : slice) (i : nat) : result byte :=
  match elems s !! i with
  | Some b => Ok b
  | None => Panic PanicIndex
  end.

(** [make([]byte, n)]. *)
Definition make (n : nat) : list byte := replicate n 0.

(** [copy(dst, src)] into a whole array or slice [dst]. *)
Definition copy (dst src : list byte) : list byte :=
  list_inserts 0 (take (length dst) src) dst.

(** [copy(buf[offset:], src)] on a buffer whose length is its capacity. *)
Definition buf_copy (buf : list byte) (offset : nat) (src : list byte)
  : result (list byte) :=
  if decide (offset ≤ length buf)%nat
  then Ok (list_inserts offset (take (length buf - offset) src) buf)
  else Panic PanicSliceBounds.

(** [buf[i] = b]. *)
Definition buf_set (buf : list byte) (i : nat) (b : byte) : result (list byte) :=
  if decide (i < length buf)%nat then Ok (<[i:=b]> buf) else Panic PanicIndex.

(** ** encoding/binary, big endian *)

Module BigEndian.

(** The bytes [PutUint64] stores at [b[0..7]]. *)
Definition bytes64 (v : Z) : list byte :=
  [ to_byte (v ≫ 56); to_byte (v ≫ 48); to_byte (v ≫ 40); to_byte (v ≫ 32);
    to_byte (v ≫ 24); to_byte (v ≫ 16); to_byte (v ≫ 8); to_byte v ].

(** The bytes [PutUint32] stores at [b[0..3]]. *)
Definition bytes32 (v : Z) : list byte :=
  [ to_byte (v ≫ 24); to_byte (v ≫ 16); to_byte (v ≫ 8); to_byte v ].

(** [binary.BigEndian.PutUint64(buf[offset:], v)]: the slice expression,
    the early bounds check [_ = b[7]], then the eight stores. *)
Definition PutUint64 (buf : list byte) (offset : nat) (v : Z) : result (list byte) :=
  if decide (offset ≤ length buf)%nat then
    if decide (7 < length buf - offset)%nat
    then Ok (list_inserts offset (bytes64 v) buf)
    else Panic PanicIndex
  else Panic PanicSliceBounds.

(** [binary.BigEndian.PutUint32(buf[offset:], v)]. *)
Definition PutUint32 (buf : list byte) (offset : nat) (v : Z) : result (list byte) :=
  if decide (offset ≤ length buf)%nat then
    if decide (3 < length buf - offset)%nat
    then Ok (list_inserts offset (bytes32 v) buf)
    else Panic PanicIndex
  else Panic PanicSliceBounds.

(** [binary.BigEndian.Uint64(b)]: [_ = b[7]], then
    [uint64(b[7]) | uint64(b[6])<<8 | ... | uint64(b[0])<<56]. *)
Definition Uint64 (b : list byte) : result Z :=
  match b with
  | b0 :: b1 :: b2 :: b3 :: b4 :: b5 :: b6 :: b7 :: _ =>
      Ok (Z.lor (Z.lor (Z.lor (Z.lor (Z.lor (Z.lor (Z.lor
            b7 (b6 ≪ 8)) (b5 ≪ 16)) (b4 ≪ 24)) (b3 ≪ 32))
            (b2 ≪ 40)) (b1 ≪ 48)) (b0 ≪ 56))
  | _ => Panic PanicIndex
  end.

(** [binary.BigEndian.Uint32(b)]: [_ = b[3]], then
    [uint32(b[3]) | uint32(b[2])<<8 | uint32(b[1])<<16 | uint32(b[0])<<24]. *)
Definition Uint32 (b : list byte) : result Z :=
  match b with
  | b0 :: b1 :: b2 :: b3 :: _ =>
      Ok (Z.lor (Z.lor (Z.lor b3 (b2 ≪ 8)) (b1 ≪ 16)) (b0 ≪ 24))
  | _ => Panic PanicIndex
  end.

End BigEndian.

(** ** constants.go *)

Definition MessageType := Z.   (* uint8 *)
Definition MessageTypeUnknown : MessageType := 0.
Definition MessageTypeData : MessageType := 1.
Definition MessageTypeBroadcast : MessageType := 2.
Definition MessageTypeHeartbeat : MessageType := 3.

Definition MessageType_IsValid (m : MessageType) : bool :=
  bool_decide (m ≤ MessageTypeHeartbeat).

Definition Flag := Z.          (* uint8 *)
Definition FlagNone : Flag := 0.
Definition FlagACK : Flag := 1.
Definition FlagError : Flag := 2.
Definition FlagCompressed : Flag := 3.
Definition FlagEncrypted : Flag := 4.

Definition Flag_IsValid (f : Flag) : bool := bool_decide (f ≤ FlagEncrypted).

(** [flags&flag != 0] *)
Definition HasFlag (flags flag : Flag) : bool :=
  negb (Z.land flags flag =? 0).

(** [flags | flag] *)
Definition SetFlag (flags flag : Flag) : Flag := Z.lor flags flag.

(** [flags &^ flag] *)
Definition ClearFlag (flags flag : Flag) : Flag := Z.ldiff flags flag.

Definition ProtocolType := Z.  (* uint8 *)
Definition ProtocolTCP : ProtocolType := 0.
Definition ProtocolUDP : ProtocolType := 1.

Definition ProtocolType_IsValid (p : ProtocolType) : bool :=
  bool_decide (p = ProtocolTCP) || bool_decide (p = ProtocolUDP).

(** ** header.go *)

(** [uuid.UUID] is [[16]byte]. *)
Definition UUID := list byte.
Definition uuid_Nil : UUID := replicate 16%nat 0.

Record SocketHeader : Type := mkHeader {
  ID : UUID;
  Sender : UUID;
  Receiver : UUID;
  Timestamp : Z;          (* uint64 *)
  Length : Z;             (* uint64 *)
  Sequence : Z;           (* uint32 *)
  Protocol : ProtocolType;
  Flags : Flag;
  MessageType_ : MessageType;
  Router : Z              (* uint8 *)
}.

(** [&SocketHeader{}] *)
Definition zero_header : SocketHeader :=
  mkHeader uuid_Nil uuid_Nil uuid_Nil 0 0 0 0 0 0 0.

Definition set_ID (v : UUID) (h : SocketHeader) : SocketHeader :=
  mkHeader v (Sender h) (Receiver h) (Timestamp h) (Length h) (Sequence h)
           (Protocol h) (Flags h) (MessageType_ h) (Router h).
Definition set_Sender (v : UUID) (h : SocketHeader) : SocketHeader :=
  mkHeader (ID h) v (Receiver h) (Timestamp h) (Length h) (Sequence h)
           (Protocol h) (Flags h) (MessageType_ h) (Router h).
Definition set_Receiver (v : UUID) (h : SocketHeader) : SocketHeader :=
  mkHeader (ID h) (Sender h) v (Timestamp h) (Length h) (Sequence h)
           (Protocol h) (Flags h) (MessageType_ h) (Router h).
Definition set_Timestamp (v : Z) (h : SocketHeader) : SocketHeader :=
  mkHeader (ID h) (Sender h) (Receiver h) v (Length h) (Sequence h)
           (Protocol h) (Flags h) (MessageType_ h) (Router h).
Definition set_Length (v : Z) (h : SocketHeader) : SocketHeader :=
  mkHeader (ID h) (Sender h) (Receiver h) (Timestamp h) v (Sequence h)
           (Protocol h) (Flags h) (MessageType_ h) (Router h).
Definition set_Sequence (v : Z) (h : SocketHeader) : SocketHeader :=
  mkHeader (ID h) (Sender h) (Receiver h) (Timestamp h) (Length h) v
           (Protocol h) (Flags h) (MessageType_ h) (Router h).
Definition set_Protocol (v : ProtocolType) (h : SocketHeader) : SocketHeader :=
  mkHeader (ID h) (Sender h) (Receiver h) (Timestamp h) (Length h) (Sequence h)
           v (Flags h) (MessageType_ h) (Router h).
Definition set_Flags (v : Flag) (h : SocketHeader) : SocketHeader :=
  mkHeader (ID h) (Sender h) (Receiver h) (Timestamp h) (Length h) (Sequence h)
           (Protocol h) v (MessageType_ h) (Router h).
Definition set_MessageType (v : MessageType) (h : SocketHeader) : SocketHeader :=
  mkHeader (ID h) (Sender h) (Receiver h) (Timestamp h) (Length h) (Sequence h)
           (Protocol h) (Flags h) v (Router h).
Definition set_Router (v : Z) (h : SocketHeader) : SocketHeader :=
  mkHeader (ID h) (Sender h) (Receiver h) (Timestamp h) (Length h) (Sequence h)
           (Protocol h) (Flags h) (MessageType_ h) v.

(** [h.MessageType == MessageTypeBroadcast && h.Receiver != uuid.Nil] *)
Definition IsBroadcast (h : SocketHeader) : bool :=
  bool_decide (MessageType_ h = MessageTypeBroadcast)
  && negb (bool_decide (Receiver h = uuid_Nil)).

(** [now] is the reading [time.Now().UnixMilli()] of the clock, an int64. *)
Definition SetTimestampIfZero (now : Z) (h : SocketHeader) : SocketHeader :=
  if decide (Timestamp h = 0) then set_Timestamp (to_uint64 now) h else h.

Definition HeaderSize (h : SocketHeader) : nat :=
  let size := (16 + 16 + 8 + 8 + 1 + 1 + 1 + 1)%nat in
  let size := if IsBroadcast h then (size + 16)%nat else size in
  let size := if decide (Protocol h = ProtocolUDP) then (size + 4)%nat else size in
  size.

(** ** header_encoder.go: the encoder *)

(** The header is passed by pointer: [None] is the nil pointer, and the
    header returned next to the bytes is the one left behind the
    pointer. *)
Definition HeaderEncode (now : Z) (hp : option SocketHeader)
  : result (SocketHeader * list byte) :=
  match hp with
  | None => Err ErrNilHeader
  | Some h =>
      let h := SetTimestampIfZero now h in
      let headerSize := HeaderSize h in
      let buf := make headerSize in
      let offset := 0%nat in
      buf ← buf_copy buf offset (ID h);
      let offset := (offset + 16)%nat in
      buf ← buf_copy buf offset (Sender h);
      let offset := (offset + 16)%nat in
      buf ← BigEndian.PutUint64 buf offset (Timestamp h);
      let offset := (offset + 8)%nat in
      buf ← BigEndian.PutUint64 buf offset (Length h);
      let offset := (offset + 8)%nat in
      buf ← buf_set buf offset (to_byte (Flags h));
      buf ← buf_set buf (offset + 1) (to_byte (MessageType_ h));
      buf ← buf_set buf (offset + 2) (Router h);
      buf ← buf_set buf (offset + 3) (to_byte (Protocol h));
      let offset := (offset + 4)%nat in
      '(buf, offset) ←
        (if IsBroadcast h
         then buf ← buf_copy buf offset (Receiver h); Ok (buf, (offset + 16)%nat)
         else Ok (buf, offset));
      '(buf, offset) ←
        (if decide (Protocol h = ProtocolUDP)
         then buf ← BigEndian.PutUint32 buf offset (Sequence h); Ok (buf, (offset + 4)%nat)
         else Ok (buf, offset));
      Ok (h, buf)
  end.

(** ** header_encoder.go: the decoder *)

Definition HeaderDecode (data : slice) : result SocketHeader :=
  let headerSize := len data in
  let offset := 0%nat in
  let minSize := (16 + 16 + 8 + 8 + 4)%nat in
  let maxSize := (minSize + 16 + 4)%nat in
  if decide (headerSize < minSize ∨ maxSize < headerSize)%nat
  then Err (ErrInvalidHeaderSize headerSize minSize maxSize)
  else
    let h := zero_header in
    s ← slice_sub data offset (offset + 16);
    let h := set_ID (copy (ID h) s) h in
    let offset := (offset + 16)%nat in
    s ← slice_sub data offset (offset + 16);
    let h := set_Sender (copy (Sender h) s) h in
    let offset := (offset + 16)%nat in
    s ← slice_sub data offset (offset + 8);
    v ← BigEndian.Uint64 s;
    let h := set_Timestamp v h in
    let offset := (offset + 8)%nat in
    s ← slice_sub data offset (offset + 8);
    v ← BigEndian.Uint64 s;
    let h := set_Length v h in
    let offset := (offset + 8)%nat in
    b ← slice_index data offset;
    let h := set_Flags b h in
    b ← slice_index data (offset + 1);
    let h := set_MessageType b h in
    b ← slice_index data (offset + 2);
    let h := set_Router b h in
    b ← slice_index data (offset + 3);
    let h := set_Protocol b h in
    let offset := (offset + 4)%nat in
    '(h, offset) ←
      (if decide (MessageType_ h = MessageTypeBroadcast)
       then s ← slice_sub data offset (offset + 16);
            Ok (set_Receiver (copy (Receiver h) s) h, (offset + 16)%nat)
       else Ok (h, offset));
    '(h, offset) ←
      (if decide (Protocol h = ProtocolUDP)
       then s ← slice_sub data offset (offset + 4);
            v ← BigEndian.Uint32 s;
            Ok (set_Sequence v h, (offset + 4)%nat)
       else Ok (h, offset));
    if decide (offset ≠ headerSize)
    then Err (ErrHeaderSizeMismatch (to_uint32 (Z.of_nat offset - 1)) headerSize)
    else Ok h.

(** ** hash/crc32 (Go standard library) and checksum.go *)

(** The generic table-driven implementation of package [hash/crc32]:
    [simpleMakeTable] and [simpleUpdate], behind the [digest] that
    [crc32.New] returns. *)
Module crc32.

(** [crc32.IEEE], the reversed IEEE polynomial. *)
Definition IEEE : Z := 0xedb88320.

(** [^crc] on a uint32. *)
Definition not32 (crc : Z) : Z := Z.lxor crc 0xffffffff.

(** One round of the inner loop of [simplePopulateTable]:
    [if crc&1 == 1 { crc = (crc >> 1) ^ poly } else { crc >>= 1 }]. *)
Definition round (poly crc : Z) : Z :=
  if Z.land crc 1 =? 1 then Z.lxor (crc ≫ 1) poly else crc ≫ 1.

(** [simpleMakeTable]: entry [i] is eight rounds applied to [i]. *)
Definition MakeTable (poly : Z) : list Z :=
  (λ i : nat, Nat.iter 8 (round poly) (Z.of_nat i)) <$> seq 0 256.

(** [tab[i]] on the [256]uint32 table. *)
Definition entry (tab : list Z) (i : Z) : Z := default 0 (tab !! Z.to_nat i).

(** The loop body of [simpleUpdate]: [crc = tab[byte(crc)^v] ^ (crc >> 8)]. *)
Definition update_byte (tab : list Z) (crc : Z) (v : byte) : Z :=
  Z.lxor (entry tab (Z.lxor (to_byte crc) v)) (crc ≫ 8).

(** [simpleUpdate]. *)
Definition update (crc : Z) (tab : list Z) (p : list byte) : Z :=
  let crc := not32 crc in
  let crc := foldl (update_byte tab) crc p in
  not32 crc.

Record digest : Type := mkDigest { crc : Z; tab : list Z }.

Definition New (tab : list Z) : digest := mkDigest 0 tab.
Definition Write (d : digest) (p : list byte) : digest :=
  mkDigest (update (crc d) (tab d) p) (tab d).
Definition Sum32 (d : digest) : Z := crc d.

End crc32.

Definition CRC32Table : list Z := Eval vm_compute in crc32.MakeTable crc32.IEEE.

Definition Checksum (payload : list byte) : Z :=
  let crc := crc32.New CRC32Table in
  let crc := crc32.Write crc payload in
  crc32.Sum32 crc.

(** ** connection.go: the underlying channels *)

(** A [net.Conn]: the bytes still to arrive (followed by end of stream),
    the bytes written so far, and whether the channel has been closed. *)
Record NetConn : Type := mkConn {
  inbound : list byte;
  outbound : list byte;
  closed : bool
}.

(** [conn.Write(message)]. *)
Definition conn_Write (c : NetConn) (message : list byte) : NetConn * result unit :=
  if closed c then (c, Err ErrIO)
  else (mkConn (inbound c) (outbound c ++ message) (closed c), Ok ()).

(** [io.ReadFull(conn, buf)] with [len(buf) = n]: exactly [n] bytes, or
    an error when the stream ends first; nothing is read for an empty
    buffer. *)
Definition io_ReadFull (c : NetConn) (n : nat) : NetConn * result (list byte) :=
  if decide (n = 0)%nat then (c, Ok [])
  else if closed c then (c, Err ErrIO)
  else if decide (n ≤ length (inbound c))%nat
  then (mkConn (drop n (inbound c)) (outbound c) (closed c), Ok (take n (inbound c)))
  else (mkConn [] (outbound c) (closed c), Err ErrIO).

(** [makeslice] panics above [maxAlloc] (2^48 on 64-bit platforms). *)
Definition maxAlloc : Z := 2 ^ 48.

(** The part both [WriteFrame]s share, from [make([]byte, messageSize)]
    to the checksum trailer. The allocation is taken to succeed: a payload
    that exists in memory leaves room for the 77 bytes around it. *)
Definition fill_message (messageSize : nat) (headerBytes payload : list byte)
  : result (list byte) :=
  let encodedHeaderLen := length headerBytes in
  let message := make messageSize in
  message ← buf_set message 0 (to_byte (Z.of_nat encodedHeaderLen));
  message ← buf_copy message 1 headerBytes;
  let payloadStart := (1 + encodedHeaderLen)%nat in
  message ← buf_copy message payloadStart payload;
  let checksum := Checksum payload in
  if decide (4 ≤ length message)%nat
  then BigEndian.PutUint32 message (length message - 4) checksum
  else Panic PanicSliceBounds.

(** ** connection.go: the stream transport *)

Module tcpConnWrapper.

Record t : Type := mk { conn : NetConn; sender : UUID }.

Definition with_conn (c : NetConn) (w : t) : t := mk c (sender w).

Definition ReadFrame (w : t) : t * result (SocketHeader * list byte) :=
  let '(c, r) := io_ReadFull (conn w) 1 in
  match wrap_err ErrTCPReadPrefix r with
  | Ok HeaderSize =>
      let '(c, r) := io_ReadFull c (Z.to_nat (default 0 (HeaderSize !! 0%nat))) in
      match wrap_err ErrTCPReadHeader r with
      | Ok headerBytes =>
          match wrap_err ErrTCPDecode (HeaderDecode (slice_of headerBytes)) with
          | Ok h =>
              let n := to_uint64 (Length h + 4) in
              if decide (maxAlloc < n) then (with_conn c w, Panic PanicMakeslice)
              else
                let '(c, r) := io_ReadFull c (Z.to_nat n) in
                match wrap_err ErrTCPReadPayload r with
                | Ok PayloadSize =>
                    if decide (length PayloadSize < 4)%nat
                    then (with_conn c w, Panic PanicSliceBounds)
                    else
                      let checksumBytes := drop (length PayloadSize - 4) PayloadSize in
                      let payloadData := take (length PayloadSize - 4) PayloadSize in
                      match BigEndian.Uint32 checksumBytes with
                      | Ok checksum =>
                          if decide (checksum ≠ Checksum payloadData)
                          then (with_conn c w, Err ErrTCPChecksumMismatch)
                          else (with_conn c w, Ok (h, payloadData))
                      | Err e => (with_conn c w, Err e)
                      | Panic p => (with_conn c w, Panic p)
                      end
                | Err e => (with_conn c w, Err e)
                | Panic p => (with_conn c w, Panic p)
                end
          | Err e => (with_conn c w, Err e)
          | Panic p => (with_conn c w, Panic p)
          end
      | Err e => (with_conn c w, Err e)
      | Panic p => (with_conn c w, Panic p)
      end
  | Err e => (with_conn c w, Err e)
  | Panic p => (with_conn c w, Panic p)
  end.

(** Returns the wrapper, the header left behind the caller's pointer
    and the error value. *)
Definition WriteFrame (now : Z) (w : t) (header : option SocketHeader)
    (payload : list byte) : t * option SocketHeader * result unit :=
  match header with
  | None => (w, None, Err ErrTCPNilHeader)
  | Some header =>
      let header := set_Length (to_uint64 (Z.of_nat (length payload))) header in
      match wrap_err ErrTCPEncode (HeaderEncode now (Some header)) with
      | Ok (header, headerBytes) =>
          let encodedHeaderLen := length headerBytes in
          let messageSize := (1 + encodedHeaderLen + length payload + 4)%nat in
          match fill_message messageSize headerBytes payload with
          | Ok message =>
              let '(c, r) := conn_Write (conn w) message in
              (with_conn c w, Some header, r)
          | Err e => (w, Some header, Err e)
          | Panic p => (w, Some header, Panic p)
          end
      | Err e => (w, Some header, Err e)
      | Panic p => (w, Some header, Panic p)
      end
  end.

End tcpConnWrapper.

(** ** connection.go: the datagram transport *)

Definition Addr := nat.

(** A [net.PacketConn]: the packets sent so far with their destination,
    and whether the channel has been closed. *)
Record PacketConn : Type := mkPacketConn {
  sent : list (option Addr * list byte);
  pclosed : bool
}.

(** [pc.WriteTo(message, addr)]. *)
Definition pc_WriteTo (pc : PacketConn) (message : list byte) (a : option Addr)
  : PacketConn * result unit :=
  if pclosed pc then (pc, Err ErrIO)
  else (mkPacketConn (sent pc ++ [(a, message)]) (pclosed pc), Ok ()).

Module udpConnWrapper.

Record t : Type := mk {
  pc : PacketConn;
  addr : option Addr;
  maxMessageSize : Z;
  sender : UUID;
  sequence : Z        (* uint32 *)
}.

(** [NewUDPConnWrapper]; [id] is the value [uuid.New()] draws. *)
Definition New (pc : PacketConn) (addr : option Addr) (maxSize : Z) (id : UUID) : t :=
  mk pc addr maxSize id 0.

Definition with_pc (p : PacketConn) (u : t) : t :=
  mk p (addr u) (maxMessageSize u) (sender u) (sequence u).
Definition with_sequence (s : Z) (u : t) : t :=
  mk (pc u) (addr u) (maxMessageSize u) (sender u) s.

Definition WriteFrame (now : Z) (u : t) (header : option SocketHeader)
    (payload : list byte) : t * option SocketHeader * result unit :=
  match header with
  | None => (u, None, Err ErrUDPNilHeader)
  | Some header =>
      let header := set_Sender (sender u) header in
      let header := set_Protocol ProtocolUDP header in
      let header := set_Sequence (sequence u) header in
      let u := with_sequence (to_uint32 (sequence u + 1)) u in
      let header := set_Length (to_uint64 (Z.of_nat (length payload))) header in
      match wrap_err ErrUDPEncode (HeaderEncode now (Some header)) with
      | Ok (header, headerBytes) =>
          let encodedHeaderLen := length headerBytes in
          let messageSize := (1 + encodedHeaderLen + length payload + 4)%nat in
          if decide (maxMessageSize u < Z.of_nat messageSize)
          then (u, Some header,
                Err (ErrUDPMessageTooLarge (Z.of_nat messageSize) (maxMessageSize u)))
          else
            match fill_message messageSize headerBytes payload with
            | Ok message =>
                let '(p, r) := pc_WriteTo (pc u) message (addr u) in
                (with_pc p u, Some header, wrap_err ErrUDPWrite r)
            | Err e => (u, Some header, Err e)
            | Panic p => (u, Some header, Panic p)
            end
      | Err e => (u, Some header, Err e)
      | Panic p => (u, Some header, Panic p)
      end
  end.

End udpConnWrapper.

(** ** Well-formed values

    The Go types bound what the embedding's [Z] and [list] leave open:
    an identifier has sixteen bytes, a uint64 is below 2^64, and so on. *)

#[global] Instance is_byte_dec b : Decision (is_byte b).
Proof. unfold is_byte. apply _. Defined.
#[global] Instance wf_bytes_dec l : Decision (wf_bytes l).
Proof. unfold wf_bytes. apply _. Defined.
#[global] Instance is_uint32_dec v : Decision (is_uint32 v).
Proof. unfold is_uint32. apply _. Defined.
#[global] Instance is_uint64_dec v : Decision (is_uint64 v).
Proof. unfold is_uint64. apply _. Defined.

Definition wf_uuid (u : UUID) : Prop := length u = 16%nat ∧ wf_bytes u.

#[global] Instance wf_uuid_dec u : Decision (wf_uuid u).
Proof. unfold wf_uuid. apply _. Defined.

Definition wf_header (h : SocketHeader) : Prop :=
  wf_uuid (ID h) ∧ wf_uuid (Sender h) ∧ wf_uuid (Receiver h) ∧
  is_uint64 (Timestamp h) ∧ is_uint64 (Length h) ∧ is_uint32 (Sequence h) ∧
  is_byte (Protocol h) ∧ is_byte (Flags h) ∧ is_byte (MessageType_ h) ∧
  is_byte (Router h).

#[global] Instance wf_header_dec h : Decision (wf_header h).
Proof. unfold wf_header. apply _. Defined.

(** ** The wire layout in the specification's words

    These two definitions follow the specification, not the code; the
    encoder is compared with them below. *)

(** The [n]-byte big-endian representation of [v], most significant
    byte first. *)
Fixpoint big_endian (n : nat) (v : Z) : list byte :=
  match n with
  | O => []
  | S n => (v / 256 ^ Z.of_nat n) mod 256 :: big_endian n v
  end.

(** ID, Sender, Timestamp, Length, the four control bytes, then the
    Receiver block if is-broadcast and the Sequence block if is-datagram. *)
Definition header_layout (h : SocketHeader) : list byte :=
  ID h ++ Sender h ++ big_endian 8 (Timestamp h) ++ big_endian 8 (Length h)
  ++ [Flags h; MessageType_ h; Router h; Protocol h]
  ++ (if decide (MessageType_ h = MessageTypeBroadcast ∧ Receiver h ≠ uuid_Nil)
      then Receiver h else [])
  ++ (if decide (Protocol h = ProtocolUDP) then big_endian 4 (Sequence h) else []).

(** The header as its encoding carries it: the Receiver only in a
    Receiver block, the Sequence only in a Sequence block. *)
Definition on_wire (h : SocketHeader) : SocketHeader :=
  set_Receiver (if IsBroadcast h then Receiver h else uuid_Nil)
    (set_Sequence (if decide (Protocol h = ProtocolUDP) then Sequence h else 0) h).

(** ** Sample values *)

Definition sample_uuid (k : Z) : UUID :=
  (λ i : nat, (k + Z.of_nat i) mod 256) <$> seq 0 16.

Definition sample_header : SocketHeader :=
  mkHeader (sample_uuid 1) (sample_uuid 40) (sample_uuid 7) 1700000000000 5 9
           ProtocolUDP FlagACK MessageTypeBroadcast 42.

(** "123456789" *)
Definition check_string : list byte := [49; 50; 51; 52; 53; 54; 55; 56; 57].

Definition sample_tcp : tcpConnWrapper.t :=
  tcpConnWrapper.mk (mkConn [] [] false) (sample_uuid 3).

Definition sample_udp : udpConnWrapper.t :=
  udpConnWrapper.New (mkPacketConn [] false) None 2048 (sample_uuid 3).

(** A datagram transport whose counter has reached the largest uint32. *)
Definition udp_at_limit : udpConnWrapper.t :=
  udpConnWrapper.mk (mkPacketConn [] false) None 2048 (sample_uuid 3) 4294967295.

Definition first_call :=
  udpConnWrapper.WriteFrame 0 udp_at_limit (Some sample_header) check_string.
Definition second_call :=
  udpConnWrapper.WriteFrame 0 first_call.1.1 (Some sample_header) check_string.

(** [n] frames written one after the other. *)
Fixpoint write_frames (n : nat) (now : Z) (u : udpConnWrapper.t)
    (h : SocketHeader) (payload : list byte) : udpConnWrapper.t :=
  match n with
  | O => u
  | S n => write_frames n now (udpConnWrapper.WriteFrame now u (Some h) payload).1.1 h payload
  end.

(** A stream transport about to read the bytes [s]. *)
Definition reader (s : list byte) : tcpConnWrapper.t :=
  tcpConnWrapper.mk (mkConn s [] false) uuid_Nil.

(** Where the payload of the frame at the head of [s] starts: after the
    prefix byte and as many header bytes as the prefix says. *)
Definition payload_start (s : list byte) : nat :=
  (1 + Z.to_nat (default 0%Z (s !! 0%nat)))%nat.

(** The frame a stream [WriteFrame] writes for [sample_header] and
    "123456789"; its Router byte is at index 51. *)
Definition sample_frame : list byte :=
  Eval vm_compute in
    outbound (tcpConnWrapper.conn
      (tcpConnWrapper.WriteFrame 0 sample_tcp (Some sample_header) check_string).1.1).

(** A broadcast header whose Receiver is the zero identifier. *)
Definition broadcast_to_nobody : SocketHeader :=
  mkHeader (sample_uuid 1) (sample_uuid 40) uuid_Nil 1700000000000 0 0
           ProtocolTCP FlagNone MessageTypeBroadcast 42.

(** The bytes the encoder produces for [broadcast_to_nobody]. *)
Definition broadcast_to_nobody_bytes : list byte :=
  Eval vm_compute in
    match HeaderEncode 0 (Some broadcast_to_nobody) with
    | Ok r => r.2
    | _ => []
    end.

(** 52 bytes whose MessageType byte (index 49) says Broadcast. *)
Definition truncated_broadcast : list byte :=
  replicate 49 0 ++ [MessageTypeBroadcast; 0; 0].

(** 52 bytes whose Protocol byte (index 51) says UDP. *)
Definition truncated_datagram : list byte :=
  replicate 51 0 ++ [ProtocolUDP].

(** * The rest of package protocol *)

(** ** constants.go: the other constant and the String methods *)

(** [const HeaderSize = 76] of constants.go, next to the method
    [HeaderSize] of header.go. *)
Definition HeaderSizeConst : nat := 76.

Definition MessageType_String (m : MessageType) : string :=
  if decide (m = MessageTypeUnknown) then "Unknown"
  else if decide (m = MessageTypeData) then "Data"
  else if decide (m = MessageTypeBroadcast) then "Broadcast"
  else if decide (m = MessageTypeHeartbeat) then "Heartbeat"
  else "InvalidMessageType".

Definition Flag_String (f : Flag) : string :=
  if decide (f = FlagNone) then "None"
  else if decide (f = FlagACK) then "ACK"
  else if decide (f = FlagError) then "Error"
  else if decide (f = FlagCompressed) then "Compressed"
  else if decide (f = FlagEncrypted) then "Encrypted"
  else "InvalidFlag".

Definition ProtocolType_String (p : ProtocolType) : string :=
  if decide (p = ProtocolTCP) then "TCP"
  else if decide (p = ProtocolUDP) then "UDP"
  else "InvalidProtocol".

(** ** connection.go: the small methods of the stream transport *)

(** [conn.Close()]: closing a closed connection is an error. *)
Definition conn_Close (c : NetConn) : NetConn * result unit :=
  if closed c then (c, Err ErrIO)
  else (mkConn (inbound c) (outbound c) true, Ok ()).

(** [func (t *tcpConnWrapper) Close() error] *)
Definition tcp_Close (w : tcpConnWrapper.t) : tcpConnWrapper.t * result unit :=
  let '(c, r) := conn_Close (tcpConnWrapper.conn w) in
  (tcpConnWrapper.with_conn c w, r).

(** [func (t *tcpConnWrapper) SetSender(id uuid.UUID)] *)
Definition tcp_SetSender (id : UUID) (w : tcpConnWrapper.t) : tcpConnWrapper.t :=
  tcpConnWrapper.mk (tcpConnWrapper.conn w) id.

(** [func (t *tcpConnWrapper) GetSender() uuid.UUID] *)
Definition tcp_GetSender (w : tcpConnWrapper.t) : UUID := tcpConnWrapper.sender w.

(** ** connection.go: the rest of the datagram transport *)

(** [func (u *udpConnWrapper) Close() error]: the server closes the
    underlying PacketConn, the wrapper does nothing. *)
Definition udp_Close (u : udpConnWrapper.t) : udpConnWrapper.t * result unit :=
  (u, Ok ()).

(** [func (u *udpConnWrapper) SetSender(id uuid.UUID)] *)
Definition udp_SetSender (id : UUID) (u : udpConnWrapper.t) : udpConnWrapper.t :=
  udpConnWrapper.mk (udpConnWrapper.pc u) (udpConnWrapper.addr u)
    (udpConnWrapper.maxMessageSize u) id (udpConnWrapper.sequence u).

(** [func (u *udpConnWrapper) GetSender() uuid.UUID] *)
Definition udp_GetSender (u : udpConnWrapper.t) : UUID := udpConnWrapper.sender u.

(** [func (u *udpConnWrapper) RemoteAddr() net.Addr] *)
Definition udp_RemoteAddr (u : udpConnWrapper.t) : option Addr := udpConnWrapper.addr u.

Definition udp_with_addr (a : option Addr) (u : udpConnWrapper.t) : udpConnWrapper.t :=
  udpConnWrapper.mk (udpConnWrapper.pc u) a (udpConnWrapper.maxMessageSize u)
    (udpConnWrapper.sender u) (udpConnWrapper.sequence u).

(** The errors [udpConnWrapper.ReadFrame] builds. *)
Inductive udp_read_error : Type :=
  | ErrUDPRead (e : error)          (* "UDP: read error: %w" *)
  | ErrUDPNoPrefix                  (* "UDP: packet too small for header size prefix" *)
  | ErrUDPShortHeader               (* "UDP: packet too small for header" *)
  | ErrUDPDecode (e : error)        (* "UDP: decode header error: %w" *)
  | ErrUDPShortPayload              (* "UDP: packet too small for payload and checksum" *)
  | ErrUDPChecksumMismatch.         (* "UDP: checksum mismatch" *)

(** What a call with its own errors comes to: a value, an error, or a
    panic of the runtime. *)
Inductive outcome (E A : Type) : Type :=
  | Done (a : A)
  | Failed (e : E)
  | Crashed (p : panic).
Arguments Done {E A} a.
Arguments Failed {E A} e.
Arguments Crashed {E A} p.

(** The slice [s[lo:hi]] itself, with the capacity it keeps. *)
Definition reslice (s : slice) (lo hi : nat) : result slice :=
  if decide (lo ≤ hi ∧ hi ≤ cap s)%nat
  then Ok (mkSlice (take (hi - lo) (drop lo (backing s))) (drop hi (backing s)))
  else Panic PanicSliceBounds.

(** Conversion [int(x)] of a uint64: two's complement. *)
Definition to_int (x : Z) : Z :=
  let y := x mod 2 ^ 64 in
  if decide (y < 2 ^ 63) then y else y - 2 ^ 64.

(** [pc.ReadFrom(buf)] when [datagram] arrives from [from]: the buffer
    takes as much of the datagram as fits. *)
Definition pc_ReadFrom (pc : PacketConn) (datagram : list byte) (from : option Addr)
    (buf : list byte) : result (nat * option Addr * list byte) :=
  if pclosed pc then Err ErrIO
  else
    let n := Nat.min (length buf) (length datagram) in
    Ok (n, from, take n datagram ++ drop n buf).

(** [udpConnWrapper.ReadFrame], returning a header, a payload and an error;
    [datagram] and [from] are what the network delivers to this call. *)
Definition udp_ReadFrame (u : udpConnWrapper.t) (datagram : list byte)
    (from : option Addr)
  : udpConnWrapper.t * outcome udp_read_error (SocketHeader * list byte) :=
  if decide (udpConnWrapper.maxMessageSize u < 0 ∨ maxAlloc < udpConnWrapper.maxMessageSize u)
  then (u, Crashed PanicMakeslice)
  else
    let buf := make (Z.to_nat (udpConnWrapper.maxMessageSize u)) in
    match pc_ReadFrom (udpConnWrapper.pc u) datagram from buf with
    | Err e => (u, Failed (ErrUDPRead e))
    | Panic p => (u, Crashed p)
    | Ok (n, addr, buf) =>
        let u := udp_with_addr addr u in
        if decide (n < 1)%nat then (u, Failed ErrUDPNoPrefix)
        else
          match buf !! 0%nat with
          | None => (u, Crashed PanicIndex)
          | Some headerSize =>
              if decide (n < 1 + Z.to_nat headerSize)%nat
              then (u, Failed ErrUDPShortHeader)
              else
                (* buf[1:1+headerSize]: the sum is a uint8 *)
                match reslice (slice_of buf) 1 (Z.to_nat (to_byte (1 + headerSize))) with
                | Err _ => (u, Crashed PanicSliceBounds)  (* a slice expression has no error *)
                | Panic p => (u, Crashed p)
                | Ok headerBytes =>
                    match HeaderDecode headerBytes with
                    | Err e => (u, Failed (ErrUDPDecode e))
                    | Panic p => (u, Crashed p)
                    | Ok h =>
                        let payloadStart := (1 + Z.to_nat headerSize)%nat in
                        if decide (to_uint64 (Z.of_nat n)
                                   < to_uint64 (Z.of_nat payloadStart + Length h + 4))
                        then (u, Failed ErrUDPShortPayload)
                        else
                          let m := to_uint64 (Length h + 4) in
                          if decide (maxAlloc < m) then (u, Crashed PanicMakeslice)
                          else
                            let payloadSize := make (Z.to_nat m) in
                            let hi := Z.of_nat payloadStart + to_int m in
                            if decide (Z.of_nat payloadStart ≤ hi ≤ Z.of_nat (length buf))
                            then
                              let payloadSize :=
                                copy payloadSize
                                     (take (Z.to_nat hi - payloadStart)
                                           (drop payloadStart buf)) in
                              if decide (length payloadSize < 4)%nat
                              then (u, Crashed PanicSliceBounds)
                              else
                                let checksumBytes :=
                                  drop (length payloadSize - 4) payloadSize in
                                let payloadData :=
                                  take (length payloadSize - 4) payloadSize in
                                match BigEndian.Uint32 checksumBytes with
                                | Ok checksum =>
                                    if decide (checksum ≠ Checksum payloadData)
                                    then (u, Failed ErrUDPChecksumMismatch)
                                    else (u, Done (h, payloadData))
                                | Err _ => (u, Crashed PanicIndex)  (* Uint32 has no error *)
                                | Panic p => (u, Crashed p)
                                end
                            else (u, Crashed PanicSliceBounds)
                    end
                end
          end
    end.

(** ** What a transport has put on the wire *)

(** The bytes one [WriteFrame] of the stream transport puts on a
    connection that carried nothing. *)
Definition tcp_wire (now : Z) (h : SocketHeader) (payload : list byte) : list byte :=
  outbound (tcpConnWrapper.conn
    (tcpConnWrapper.WriteFrame now (reader []) (Some h) payload).1.1).

(** The datagram a datagram transport sent last, if any. *)
Definition udp_last_sent (u : udpConnWrapper.t) : option (option Addr * list byte) :=
  last (sent (udpConnWrapper.pc u)).

(** A series of [WriteFrame] calls on one datagram transport, each with
    its clock reading, its header pointer (nil or not) and its payload. *)
Definition write_calls (calls : list (Z * option SocketHeader * list byte))
    (u : udpConnWrapper.t) : udpConnWrapper.t :=
  foldl (λ u c, (udpConnWrapper.WriteFrame c.1.1 u c.1.2 c.2).1.1) u calls.

(** How many of the calls pass a header that is not nil. *)
Definition calls_with_header (calls : list (Z * option SocketHeader * list byte)) : nat :=
  length (filter (λ c, is_Some c.1.2) calls).

(** ** More sample values *)

(** A datagram transport about to receive, with room for 2048 bytes. *)
Definition sample_receiver : udpConnWrapper.t :=
  udpConnWrapper.New (mkPacketConn [] false) None 2048 (sample_uuid 9).

(** The bytes the encoder produces for [sample_header]. *)
Definition sample_header_bytes : list byte :=
  Eval vm_compute in
    match HeaderEncode 0 (Some sample_header) with
    | Ok r => r.2
    | _ => []
    end.

(** A 52-byte header whose Length field holds the largest uint64, its
    prefix byte before it and three more bytes after it. *)
Definition hostile_stream : list byte :=
  [52] ++ replicate 40 0 ++ replicate 8 255 ++ replicate 4 0 ++ [1; 2; 3].

(** A datagram transport limited to 90 bytes: a first call whose frame
    would take 177 bytes, then a call whose frame takes 86. *)
Definition small_udp : udpConnWrapper.t :=
  udpConnWrapper.New (mkPacketConn [] false) None 90 (sample_uuid 3).

Definition refused_call :=
  udpConnWrapper.WriteFrame 0 small_udp (Some sample_header) (replicate 100 0).
Definition call_after_refusal :=
  udpConnWrapper.WriteFrame 0 refused_call.1.1 (Some sample_header) check_string.

(** The frame a stream [WriteFrame] writes for [broadcast_to_nobody] and
    "123456789": 1 + 52 + 9 + 4 bytes, the payload from index 53 on. *)
Definition zero_receiver_frame : list byte :=
  Eval vm_compute in tcp_wire 0 broadcast_to_nobody check_string.

(** * Properties *)

(** ** Big-endian integers *)

Lemma to_byte_is_byte x : is_byte (to_byte x).
Proof. unfold is_byte, to_byte. pose proof (Z.mod_pos_bound x (2 ^ 8)). lia. Qed.

Lemma to_byte_id b : is_byte b → to_byte b = b.
Proof. unfold is_byte, to_byte. intros. apply Z.mod_small. lia. Qed.

Lemma land_low_high a b k :
  0 ≤ a < 2 ^ k → 0 ≤ b → 0 ≤ k → Z.land a (b * 2 ^ k) = 0.
Proof.
  intros Ha Hb Hk. apply Z.bits_inj'. intros n Hn.
  rewrite Z.land_spec, Z.bits_0.
  destruct (decide (n < k)) as [Hlt|Hge].
  - rewrite Z.mul_pow2_bits_low by lia. apply andb_false_r.
  - destruct (decide (a = 0)) as [->|Hne]; [by rewrite Z.bits_0|].
    rewrite (Z.bits_above_log2 a n); [done|lia|].
    apply Z.log2_lt_pow2; [lia|].
    eapply Z.lt_le_trans; [apply Ha|]. apply Z.pow_le_mono_r; lia.
Qed.

Lemma lor_shiftl_add a b k :
  0 ≤ a < 2 ^ k → 0 ≤ b → 0 ≤ k → Z.lor a (b ≪ k) = a + b * 2 ^ k.
Proof.
  intros Ha Hb Hk. rewrite Z.shiftl_mul_pow2 by done.
  rewrite <- Z.lxor_lor by (by apply land_low_high).
  symmetry. apply Z.add_nocarry_lxor. by apply land_low_high.
Qed.

(** Rewrites the innermost [a | b << k] into a sum first, so that the
    bound on [a] is linear arithmetic. *)
Ltac lor_to_add :=
  repeat match goal with
  | |- context [Z.lor ?a (?b ≪ ?k)] =>
      lazymatch a with
      | context [Z.lor] => fail
      | _ => rewrite (lor_shiftl_add a b k) by lia
      end
  end.

Lemma Uint32_value b0 b1 b2 b3 l :
  is_byte b0 → is_byte b1 → is_byte b2 → is_byte b3 →
  BigEndian.Uint32 (b0 :: b1 :: b2 :: b3 :: l)
  = Ok (b3 + b2 * 2 ^ 8 + b1 * 2 ^ 16 + b0 * 2 ^ 24).
Proof.
  unfold is_byte, BigEndian.Uint32. intros. f_equal.
  lor_to_add. lia.
Qed.

Lemma Uint64_value b0 b1 b2 b3 b4 b5 b6 b7 l :
  is_byte b0 → is_byte b1 → is_byte b2 → is_byte b3 →
  is_byte b4 → is_byte b5 → is_byte b6 → is_byte b7 →
  BigEndian.Uint64 (b0 :: b1 :: b2 :: b3 :: b4 :: b5 :: b6 :: b7 :: l)
  = Ok (b7 + b6 * 2 ^ 8 + b5 * 2 ^ 16 + b4 * 2 ^ 24 + b3 * 2 ^ 32
        + b2 * 2 ^ 40 + b1 * 2 ^ 48 + b0 * 2 ^ 56).
Proof.
  unfold is_byte, BigEndian.Uint64. intros. f_equal.
  lor_to_add. lia.
Qed.

Lemma Uint32_bytes32 v l :
  is_uint32 v → BigEndian.Uint32 (BigEndian.bytes32 v ++ l) = Ok v.
Proof.
  intros Hv. unfold BigEndian.bytes32. cbn [app].
  rewrite Uint32_value by apply to_byte_is_byte.
  f_equal. unfold to_byte, is_uint32 in *. rewrite !Z.shiftr_div_pow2 by lia.
  Z.div_mod_to_equations. lia.
Qed.

Lemma Uint64_bytes64 v l :
  is_uint64 v → BigEndian.Uint64 (BigEndian.bytes64 v ++ l) = Ok v.
Proof.
  intros Hv. unfold BigEndian.bytes64. cbn [app].
  rewrite Uint64_value by apply to_byte_is_byte.
  f_equal. unfold to_byte, is_uint64 in *. rewrite !Z.shiftr_div_pow2 by lia.
  Z.div_mod_to_equations. lia.
Qed.

(** ** Flags *)

(** C10: the flag constants are consecutive numbers, not distinct bits:
    setting only [FlagCompressed] on the empty set makes [HasFlag] report
    [FlagACK] too. *)
Theorem flags_overlap :
  FlagCompressed ≠ FlagNone ∧ FlagACK ≠ FlagNone ∧ FlagCompressed ≠ FlagACK ∧
  HasFlag (SetFlag FlagNone FlagCompressed) FlagCompressed = true ∧
  HasFlag (SetFlag FlagNone FlagCompressed) FlagACK = true.
Proof. repeat split; done. Qed.

(** ** The encoder never fails on a header *)

Lemma buf_copy_Ok buf offset src :
  (offset ≤ length buf)%nat →
  ∃ buf', buf_copy buf offset src = Ok buf' ∧ length buf' = length buf.
Proof.
  intros H. unfold buf_copy. rewrite decide_True by done.
  eexists; split; [done|]. apply length_inserts.
Qed.

Lemma buf_set_Ok buf i b :
  (i < length buf)%nat →
  ∃ buf', buf_set buf i b = Ok buf' ∧ length buf' = length buf.
Proof.
  intros H. unfold buf_set. rewrite decide_True by done.
  eexists; split; [done|]. apply length_insert.
Qed.

Lemma PutUint64_Ok buf offset v :
  (offset + 8 ≤ length buf)%nat →
  ∃ buf', BigEndian.PutUint64 buf offset v = Ok buf' ∧ length buf' = length buf.
Proof.
  intros H. unfold BigEndian.PutUint64. rewrite !decide_True by lia.
  eexists; split; [done|]. apply length_inserts.
Qed.

Lemma PutUint32_Ok buf offset v :
  (offset + 4 ≤ length buf)%nat →
  ∃ buf', BigEndian.PutUint32 buf offset v = Ok buf' ∧ length buf' = length buf.
Proof.
  intros H. unfold BigEndian.PutUint32. rewrite !decide_True by lia.
  eexists; split; [done|]. apply length_inserts.
Qed.

(** One step of a buffer computation: name the new buffer, keep its length. *)
Ltac buf_step :=
  let go lem :=
    let b := fresh "buf" in
    let E := fresh "E" in
    let L := fresh "L" in
    (destruct lem as (b & E & L); [cbn in *; lia|];
     rewrite E; clear E; cbn [mbind result_mbind result_bind mret result_mret])
  in
  match goal with
  | |- context [buf_copy ?b ?o ?s] => go (buf_copy_Ok b o s)
  | |- context [buf_set ?b ?o ?s] => go (buf_set_Ok b o s)
  | |- context [BigEndian.PutUint64 ?b ?o ?s] => go (PutUint64_Ok b o s)
  | |- context [BigEndian.PutUint32 ?b ?o ?s] => go (PutUint32_Ok b o s)
  end.

Lemma HeaderSize_cases h :
  HeaderSize h
  = (52 + (if IsBroadcast h then 16 else 0)
        + (if decide (Protocol h = ProtocolUDP) then 4 else 0))%nat.
Proof. unfold HeaderSize. destruct (IsBroadcast h); case_decide; reflexivity. Qed.

Lemma HeaderEncode_Ok now h :
  ∃ bytes,
    HeaderEncode now (Some h) = Ok (SetTimestampIfZero now h, bytes) ∧
    length bytes = HeaderSize (SetTimestampIfZero now h).
Proof.
  unfold HeaderEncode.
  set (h' := SetTimestampIfZero now h).
  pose proof (HeaderSize_cases h') as Hsz.
  assert (Hmk : length (make (HeaderSize h')) = HeaderSize h')
    by apply length_replicate.
  revert Hmk. generalize (make (HeaderSize h')). intros buf Hmk.
  cbn zeta.
  destruct (IsBroadcast h'), (decide (Protocol h' = ProtocolUDP));
    repeat buf_step; eexists; (split; [reflexivity|lia]).
Qed.

(** ** The encoder writes the specified layout *)

Lemma bytes64_big_endian v : BigEndian.bytes64 v = big_endian 8 v.
Proof.
  unfold BigEndian.bytes64, to_byte. cbn [big_endian].
  rewrite !Z.shiftr_div_pow2 by lia.
  repeat f_equal. by rewrite Z.div_1_r.
Qed.

Lemma bytes32_big_endian v : BigEndian.bytes32 v = big_endian 4 v.
Proof.
  unfold BigEndian.bytes32, to_byte. cbn [big_endian].
  rewrite !Z.shiftr_div_pow2 by lia.
  repeat f_equal. by rewrite Z.div_1_r.
Qed.

Lemma IsBroadcast_spec h :
  IsBroadcast h = true ↔ MessageType_ h = MessageTypeBroadcast ∧ Receiver h ≠ uuid_Nil.
Proof.
  unfold IsBroadcast. rewrite andb_true_iff, negb_true_iff.
  rewrite bool_decide_eq_true, bool_decide_eq_false. done.
Qed.

Lemma IsBroadcast_decide {A} h (x y : A) :
  (if IsBroadcast h then x else y)
  = (if decide (MessageType_ h = MessageTypeBroadcast ∧ Receiver h ≠ uuid_Nil)
     then x else y).
Proof.
  destruct (IsBroadcast h) eqn:Hb.
  - apply IsBroadcast_spec in Hb. by rewrite decide_True.
  - rewrite decide_False; [done|]. intros Hb'.
    apply IsBroadcast_spec in Hb'. congruence.
Qed.

(** A list of known length as its elements. *)
Ltac explode l H :=
  repeat (destruct l as [|? l]; [discriminate H|]; cbn [length] in H);
  try (destruct l; [|discriminate H]); clear H.

Arguments to_byte : simpl never.
Arguments Z.shiftr : simpl never.
Arguments Z.modulo : simpl never.
Arguments Z.div : simpl never.
Arguments Z.pow : simpl never.

(** The encoder's buffer, with the code's own byte expressions. *)
Lemma HeaderEncode_bytes now h :
  length (ID h) = 16%nat → length (Sender h) = 16%nat → length (Receiver h) = 16%nat →
  let h' := SetTimestampIfZero now h in
  HeaderEncode now (Some h)
  = Ok (h', ID h' ++ Sender h' ++ BigEndian.bytes64 (Timestamp h')
            ++ BigEndian.bytes64 (Length h')
            ++ [to_byte (Flags h'); to_byte (MessageType_ h'); Router h';
                to_byte (Protocol h')]
            ++ (if IsBroadcast h' then Receiver h' else [])
            ++ (if decide (Protocol h' = ProtocolUDP)
                then BigEndian.bytes32 (Sequence h') else [])).
Proof.
  intros H1 H2 H3 h'.
  assert (length (ID h') = 16%nat ∧ length (Sender h') = 16%nat
          ∧ length (Receiver h') = 16%nat) as (K1 & K2 & K3).
  { unfold h', SetTimestampIfZero. case_decide; done. }
  unfold HeaderEncode. fold h'. clearbody h'. clear H1 H2 H3 h.
  rewrite HeaderSize_cases.
  destruct h' as [i s r ts ln sq pr fl mt ro]. cbn [ID Sender Receiver] in *.
  set (b := IsBroadcast _). set (d := decide (_ = ProtocolUDP)).
  cbn [Timestamp Length Sequence Protocol Flags MessageType_ Router ID Sender Receiver].
  clearbody b d.
  explode i K1. explode s K2. explode r K3.
  destruct b, d; reflexivity.
Qed.

Lemma SetTimestampIfZero_other now h :
  let h' := SetTimestampIfZero now h in
  ID h' = ID h ∧ Sender h' = Sender h ∧ Receiver h' = Receiver h ∧
  Length h' = Length h ∧ Sequence h' = Sequence h ∧ Protocol h' = Protocol h ∧
  Flags h' = Flags h ∧ MessageType_ h' = MessageType_ h ∧ Router h' = Router h.
Proof. unfold SetTimestampIfZero. destruct (decide _); cbn; split_and!; done. Qed.

Lemma SetTimestampIfZero_wf now h : wf_header h → wf_header (SetTimestampIfZero now h).
Proof.
  unfold SetTimestampIfZero. case_decide; [|done].
  unfold wf_header. cbn. intros (?&?&?&?&?&?&?&?&?&?). split_and!; try done.
  unfold is_uint64, to_uint64. apply Z.mod_pos_bound. done.
Qed.

(** C2: the encoded header has 52 bytes, plus 16 when the message is a
    broadcast with a non-zero receiver, plus 4 when the protocol is UDP, and
    is the specified layout: big-endian integers, the Receiver block only
    for a broadcast and the Sequence block only for UDP, both after the four
    control bytes. *)
Theorem HeaderEncode_layout now h :
  wf_header h →
  ∃ bytes,
    HeaderEncode now (Some h) = Ok (SetTimestampIfZero now h, bytes) ∧
    length bytes
    = (52 + (if decide (MessageType_ h = MessageTypeBroadcast ∧ Receiver h ≠ uuid_Nil)
             then 16 else 0)
          + (if decide (Protocol h = ProtocolUDP) then 4 else 0))%nat ∧
    bytes = header_layout (SetTimestampIfZero now h).
Proof.
  intros Hwf.
  pose proof (SetTimestampIfZero_wf now h Hwf) as Hwf'.
  destruct Hwf as ((L1&_)&(L2&_)&(L3&_)&_).
  pose proof (HeaderEncode_bytes now h L1 L2 L3) as HE. cbn zeta in HE.
  destruct (HeaderEncode_Ok now h) as (bytes & HE' & Hlen).
  exists bytes. split; [done|].
  match type of HE with
  | _ = Ok (_, ?e) => assert (Hb : bytes = e) by congruence
  end.
  clear HE. rename Hb into HE. split.
  - rewrite Hlen, HeaderSize_cases, IsBroadcast_decide.
    destruct (SetTimestampIfZero_other now h) as (_&_&E2&_&_&E3&_&E1&_).
    by rewrite E1, E2, E3.
  - rewrite HE. unfold header_layout.
    destruct Hwf' as (_&_&_&_&_&_&B1&B2&B3&_).
    rewrite !to_byte_id by done.
    by rewrite bytes64_big_endian, bytes64_big_endian, bytes32_big_endian,
      IsBroadcast_decide.
Qed.

Lemma HeaderEncode_layout_witness :
  ∃ bytes,
    HeaderEncode 0 (Some sample_header) = Ok (SetTimestampIfZero 0 sample_header, bytes) ∧
    length bytes
    = (52 + (if decide (MessageType_ sample_header = MessageTypeBroadcast
                        ∧ Receiver sample_header ≠ uuid_Nil)
             then 16 else 0)
          + (if decide (Protocol sample_header = ProtocolUDP) then 4 else 0))%nat ∧
    bytes = header_layout (SetTimestampIfZero 0 sample_header).
Proof. apply (HeaderEncode_layout 0 sample_header). compute_done. Defined.

(** ** The decoder *)

Lemma HeaderDecode_size_rejected data :
  (len data < 52 ∨ 72 < len data)%nat →
  HeaderDecode data = Err (ErrInvalidHeaderSize (len data) 52 72).
Proof. intros H. unfold HeaderDecode. cbn zeta. by rewrite decide_True. Qed.

Lemma Uint64_direct v :
  is_uint64 v →
  BigEndian.Uint64
    [ to_byte (v ≫ 56); to_byte (v ≫ 48); to_byte (v ≫ 40); to_byte (v ≫ 32);
      to_byte (v ≫ 24); to_byte (v ≫ 16); to_byte (v ≫ 8); to_byte v ] = Ok v.
Proof. intros. by apply (Uint64_bytes64 v []). Qed.

Lemma Uint32_direct v :
  is_uint32 v →
  BigEndian.Uint32
    [ to_byte (v ≫ 24); to_byte (v ≫ 16); to_byte (v ≫ 8); to_byte v ] = Ok v.
Proof. intros. by apply (Uint32_bytes32 v []). Qed.

Arguments BigEndian.Uint64 : simpl never.
Arguments BigEndian.Uint32 : simpl never.

Lemma slice_sub_Ok s lo hi :
  (lo ≤ hi)%nat → (hi ≤ cap s)%nat →
  slice_sub s lo hi = Ok (take (hi - lo) (drop lo (backing s))).
Proof. intros. unfold slice_sub. by rewrite decide_True. Qed.

Lemma slice_sub_Panic s lo hi :
  (cap s < hi)%nat → slice_sub s lo hi = Panic PanicSliceBounds.
Proof. intros. unfold slice_sub. rewrite decide_False; [done|lia]. Qed.

(** Runs the decoder on a buffer whose bytes are known expressions:
    resolves the operation at the head of the computation, then
    simplifies. *)
Ltac decoder_head m :=
  lazymatch m with
  | slice_sub ?s ?lo ?hi =>
      first [ rewrite (slice_sub_Ok s lo hi) by (cbn; lia)
            | rewrite (slice_sub_Panic s lo hi) by (cbn; lia) ]
  | BigEndian.Uint64 _ => rewrite Uint64_direct by done
  | BigEndian.Uint32 _ => rewrite Uint32_direct by done
  | (if decide ?P then _ else _) =>
      first [ rewrite (decide_True (P:=P)) by solve [done | cbn; lia]
            | rewrite (decide_False (P:=P)) by solve [done | cbn; lia] ]
  | ?m' ≫= _ => decoder_head m'
  end.

Ltac decoder_step :=
  first [ progress cbn | match goal with |- ?m = _ => decoder_head m end ].

Ltac run_decoder :=
  unfold HeaderDecode, BigEndian.bytes64, BigEndian.bytes32; repeat decoder_step.

(** Decoding what the encoder wrote gives the header back, as long as
    the header is not a broadcast with the zero receiver. The capacity of
    the slice does not matter. *)
Lemma HeaderDecode_HeaderEncode now h extra :
  wf_header h →
  ¬ (MessageType_ h = MessageTypeBroadcast ∧ Receiver h = uuid_Nil) →
  ∃ bytes,
    HeaderEncode now (Some h) = Ok (SetTimestampIfZero now h, bytes) ∧
    HeaderDecode (mkSlice bytes extra) = Ok (on_wire (SetTimestampIfZero now h)).
Proof.
  intros Hwf Hnd.
  pose proof (SetTimestampIfZero_wf now h Hwf) as Hwf'.
  destruct (SetTimestampIfZero_other now h) as (_&_&E2&_&_&_&_&E1&_).
  destruct Hwf as ((L1&_)&(L2&_)&(L3&_)&_).
  pose proof (HeaderEncode_bytes now h L1 L2 L3) as HE. cbn zeta in HE.
  eexists. split; [exact HE|]. clear HE L1 L2 L3.
  rewrite <- E1, <- E2 in Hnd. clear E1 E2.
  revert Hwf' Hnd. generalize (SetTimestampIfZero now h). clear h.
  intros h Hwf Hnd.
  unfold on_wire. rewrite !IsBroadcast_decide.
  destruct h as [i s r ts ln sq pr fl mt ro].
  destruct Hwf as ((L1&_)&(L2&_)&(L3&_)&Hts&Hln&Hsq&Hpr&Hfl&Hmt&Hro).
  cbn [ID Sender Receiver Timestamp Length Sequence Protocol Flags MessageType_ Router] in *.
  rewrite !to_byte_id by done.
  unfold set_Receiver, set_Sequence.
  cbn [ID Sender Receiver Timestamp Length Sequence Protocol Flags MessageType_ Router].
  destruct (decide (mt = MessageTypeBroadcast ∧ r ≠ uuid_Nil)) as [[-> Hr]|Hb];
    destruct (decide (pr = ProtocolUDP)) as [->|Hp].
  - clear Hnd Hr. explode i L1. explode s L2. explode r L3. run_decoder. reflexivity.
  - clear Hnd Hr. explode i L1. explode s L2. explode r L3. run_decoder. reflexivity.
  - assert (mt ≠ MessageTypeBroadcast).
    { intros ->. destruct (decide (r = uuid_Nil)); tauto. }
    clear Hnd Hb L3. explode i L1. explode s L2. run_decoder. reflexivity.
  - assert (mt ≠ MessageTypeBroadcast).
    { intros ->. destruct (decide (r = uuid_Nil)); tauto. }
    clear Hnd Hb L3. explode i L1. explode s L2. run_decoder. reflexivity.
Qed.

(** ** Assembling a frame *)

Lemma list_inserts_at_end (pre k old rest : list byte) :
  length k = length old →
  list_inserts (length pre) k (pre ++ old ++ rest) = pre ++ k ++ rest.
Proof.
  intros Hlen.
  replace (length pre) with (length pre + 0)%nat by lia.
  rewrite list_inserts_app_r. f_equal. by apply list_inserts_0_r.
Qed.

(** The frame both transports put on the wire: one byte of header
    length, the header, the payload, the checksum of the payload. *)
Lemma fill_message_Ok headerBytes payload :
  fill_message (1 + length headerBytes + length payload + 4) headerBytes payload
  = Ok (to_byte (Z.of_nat (length headerBytes))
          :: headerBytes ++ payload ++ BigEndian.bytes32 (Checksum payload)).
Proof.
  unfold fill_message, make.
  set (x := to_byte _). set (c := Checksum _).
  set (lh := length headerBytes). set (lp := length payload).
  replace (1 + lh + lp + 4)%nat with (S (lh + (lp + 4)))%nat by lia.
  unfold buf_set. rewrite decide_True by (cbn; lia).
  cbn [replicate]. change (<[0%nat:=x]> (0 :: ?l)) with (x :: l).
  cbn [mbind result_mbind result_bind].
  unfold buf_copy.
  rewrite decide_True by (cbn; lia).
  cbn [mbind result_mbind result_bind].
  assert (E1 : list_inserts 1 (take (length (x :: replicate (lh + (lp + 4)) 0) - 1) headerBytes)
                 (x :: replicate (lh + (lp + 4)) 0)
               = x :: headerBytes ++ replicate (lp + 4) 0).
  { rewrite take_ge by (cbn; rewrite length_replicate; unfold lh; lia).
    rewrite replicate_add.
    apply (list_inserts_at_end [x] headerBytes (replicate lh 0) (replicate (lp + 4) 0)).
    by rewrite length_replicate. }
  rewrite E1. clear E1.
  rewrite decide_True by (cbn; rewrite length_app, length_replicate; fold lh; lia).
  cbn [mbind result_mbind result_bind].
  assert (E2 : list_inserts (1 + lh)
                 (take (length (x :: headerBytes ++ replicate (lp + 4) 0) - (1 + lh)) payload)
                 (x :: headerBytes ++ replicate (lp + 4) 0)
               = (x :: headerBytes) ++ payload ++ replicate 4 0).
  { rewrite take_ge
      by (cbn; rewrite length_app, length_replicate; fold lh; unfold lp; lia).
    rewrite replicate_add.
    apply (list_inserts_at_end (x :: headerBytes) payload (replicate lp 0) (replicate 4 0)).
    by rewrite length_replicate. }
  rewrite E2. clear E2.
  assert (EL : (length ((x :: headerBytes) ++ payload ++ replicate 4 0%Z) - 4
                = length ((x :: headerBytes) ++ payload))%nat).
  { rewrite !length_app, length_replicate. lia. }
  rewrite decide_True by (rewrite !length_app, length_replicate; lia).
  rewrite EL. unfold BigEndian.PutUint32.
  rewrite decide_True by (rewrite !length_app; lia).
  rewrite decide_True by (rewrite !length_app, length_replicate; lia).
  f_equal.
  rewrite (app_assoc (x :: headerBytes) payload), <- (app_nil_r (replicate 4 0)).
  rewrite (list_inserts_at_end _ (BigEndian.bytes32 c) (replicate 4 0) []) by done.
  rewrite app_nil_r, <- app_assoc. done.
Qed.

(** ** The stream transport's WriteFrame *)

(** What a stream [WriteFrame] does with a header: the header it leaves
    behind, and the frame it writes when the channel is open. *)
Lemma tcp_WriteFrame_spec now w h payload :
  let h' := SetTimestampIfZero now (set_Length (to_uint64 (Z.of_nat (length payload))) h) in
  ∃ headerBytes,
    HeaderEncode now (Some (set_Length (to_uint64 (Z.of_nat (length payload))) h))
    = Ok (h', headerBytes) ∧
    length headerBytes = HeaderSize h' ∧
    tcpConnWrapper.WriteFrame now w (Some h) payload
    = (let '(c, r) :=
         conn_Write (tcpConnWrapper.conn w)
           (to_byte (Z.of_nat (length headerBytes))
              :: headerBytes ++ payload ++ BigEndian.bytes32 (Checksum payload)) in
       (tcpConnWrapper.with_conn c w, Some h', r)).
Proof.
  intros h'.
  destruct (HeaderEncode_Ok now (set_Length (to_uint64 (Z.of_nat (length payload))) h))
    as (hb & HE & Hlen).
  exists hb. split; [done|]. split; [done|].
  unfold tcpConnWrapper.WriteFrame. rewrite HE. cbn [wrap_err].
  by rewrite fill_message_Ok.
Qed.

(** C9: a stream [WriteFrame] leaves the caller's Sender and Sequence
    (and every field other than Length and Timestamp) as they were. *)
Theorem tcp_WriteFrame_keeps_Sender_Sequence now w h payload :
  ∃ w' h' r,
    tcpConnWrapper.WriteFrame now w (Some h) payload = (w', Some h', r) ∧
    Sender h' = Sender h ∧ Sequence h' = Sequence h ∧
    ID h' = ID h ∧ Receiver h' = Receiver h ∧ Protocol h' = Protocol h ∧
    Flags h' = Flags h ∧ MessageType_ h' = MessageType_ h ∧ Router h' = Router h ∧
    Timestamp h' = (if decide (Timestamp h = 0) then to_uint64 now else Timestamp h).
Proof.
  destruct (tcp_WriteFrame_spec now w h payload) as (hb & _ & _ & ->).
  destruct (conn_Write _ _) as [c r].
  eexists _, _, _. split; [reflexivity|].
  destruct (SetTimestampIfZero_other now
              (set_Length (to_uint64 (Z.of_nat (length payload))) h))
    as (->&->&->&_&->&->&->&->&->).
  cbn. split_and!; try done.
  unfold SetTimestampIfZero. cbn. by destruct (decide _).
Qed.

(** ** The datagram transport's WriteFrame *)

Lemma udp_WriteFrame_spec now u h payload :
  let h1 := set_Length (to_uint64 (Z.of_nat (length payload)))
              (set_Sequence (udpConnWrapper.sequence u)
                 (set_Protocol ProtocolUDP (set_Sender (udpConnWrapper.sender u) h))) in
  let h' := SetTimestampIfZero now h1 in
  let u1 := udpConnWrapper.with_sequence (to_uint32 (udpConnWrapper.sequence u + 1)) u in
  ∃ headerBytes,
    HeaderEncode now (Some h1) = Ok (h', headerBytes) ∧
    length headerBytes = HeaderSize h' ∧
    udpConnWrapper.WriteFrame now u (Some h) payload
    = (let size := Z.of_nat (1 + length headerBytes + length payload + 4) in
       if decide (udpConnWrapper.maxMessageSize u < size)
       then (u1, Some h', Err (ErrUDPMessageTooLarge size (udpConnWrapper.maxMessageSize u)))
       else
         let '(p, r) :=
           pc_WriteTo (udpConnWrapper.pc u)
             (to_byte (Z.of_nat (length headerBytes))
                :: headerBytes ++ payload ++ BigEndian.bytes32 (Checksum payload))
             (udpConnWrapper.addr u) in
         (udpConnWrapper.with_pc p u1, Some h', wrap_err ErrUDPWrite r)).
Proof.
  intros h1 h' u1.
  destruct (HeaderEncode_Ok now h1) as (hb & HE & Hlen).
  exists hb. split; [done|]. split; [done|].
  unfold udpConnWrapper.WriteFrame. fold h1. rewrite HE. cbn [wrap_err].
  fold u1. cbn zeta.
  change (udpConnWrapper.maxMessageSize u1) with (udpConnWrapper.maxMessageSize u).
  destruct (decide _); [done|].
  by rewrite fill_message_Ok.
Qed.

Lemma udp_WriteFrame_sequence now u h payload :
  udpConnWrapper.sequence (udpConnWrapper.WriteFrame now u (Some h) payload).1.1
  = to_uint32 (udpConnWrapper.sequence u + 1).
Proof.
  destruct (udp_WriteFrame_spec now u h payload) as (hb & _ & _ & ->).
  cbn zeta. destruct (decide _); [done|]. by destruct (pc_WriteTo _ _ _).
Qed.

(** After [n] frames the counter is its initial value plus [n], modulo
    2^32: the state [udp_at_limit] is the one a fresh transport reaches
    after 2^32 - 1 frames. *)
Lemma write_frames_sequence n now u h payload :
  is_uint32 (udpConnWrapper.sequence u) →
  udpConnWrapper.sequence (write_frames n now u h payload)
  = to_uint32 (udpConnWrapper.sequence u + Z.of_nat n).
Proof.
  revert u. induction n as [|n IH]; intros u Hu.
  - cbn [write_frames]. unfold to_uint32, is_uint32 in *.
    rewrite Z.add_0_r, Z.mod_small; done.
  - cbn [write_frames]. rewrite IH.
    + rewrite udp_WriteFrame_sequence. unfold to_uint32.
      rewrite Zplus_mod_idemp_l. f_equal. lia.
    + rewrite udp_WriteFrame_sequence. apply Z.mod_pos_bound. done.
Qed.

(** One call: the header left behind, the counter, the size guard. *)
Lemma udp_WriteFrame_call now u h payload :
  let h' := SetTimestampIfZero now
              (set_Length (to_uint64 (Z.of_nat (length payload)))
                 (set_Sequence (udpConnWrapper.sequence u)
                    (set_Protocol ProtocolUDP (set_Sender (udpConnWrapper.sender u) h)))) in
  let size := Z.of_nat (1 + HeaderSize h' + length payload + 4) in
  ∃ u1 r,
    udpConnWrapper.WriteFrame now u (Some h) payload = (u1, Some h', r) ∧
    udpConnWrapper.sequence u1 = to_uint32 (udpConnWrapper.sequence u + 1) ∧
    (udpConnWrapper.maxMessageSize u < size →
     r = Err (ErrUDPMessageTooLarge size (udpConnWrapper.maxMessageSize u))) ∧
    (r = Ok () → size ≤ udpConnWrapper.maxMessageSize u).
Proof.
  intros h' size.
  destruct (udp_WriteFrame_spec now u h payload) as (hb & _ & L & E).
  cbn zeta in E. rewrite L in E. fold h' size in E. rewrite E. clear E.
  destruct (decide _) as [Hbig|Hok].
  - eexists _, _. split_and!; [reflexivity|done|done|discriminate].
  - destruct (pc_WriteTo _ _ _) as [p r].
    eexists _, _. split_and!; [reflexivity|done|intros; lia|intros; lia].
Qed.

(** A fresh transport reaches the counter value of [udp_at_limit] after
    2^32 - 1 frames. *)
Lemma udp_at_limit_reachable now h payload :
  udpConnWrapper.sequence
    (write_frames (Z.to_nat 4294967295) now sample_udp h payload)
  = udpConnWrapper.sequence udp_at_limit.
Proof.
  rewrite write_frames_sequence by compute_done.
  rewrite Z2Nat.id by lia. reflexivity.
Qed.

(** C5, as the code has it: whatever the caller supplied, the header
    gets the transport's sender, the UDP protocol and the current counter;
    the counter is then incremented modulo 2^32, whether or not the frame
    is sent, so that the next frame's Sequence is one larger unless the
    counter was at 2^32 - 1; and a frame above the configured maximum is
    refused as too large. *)
Theorem udp_WriteFrame_overwrites now1 now2 u h1 p1 h2 p2 :
  is_uint32 (udpConnWrapper.sequence u) →
  ∃ u1 g1 r1 u2 g2 r2,
    udpConnWrapper.WriteFrame now1 u (Some h1) p1 = (u1, Some g1, r1) ∧
    udpConnWrapper.WriteFrame now2 u1 (Some h2) p2 = (u2, Some g2, r2) ∧
    Sender g1 = udpConnWrapper.sender u ∧
    Protocol g1 = ProtocolUDP ∧
    Sequence g1 = udpConnWrapper.sequence u ∧
    udpConnWrapper.sequence u1 = to_uint32 (udpConnWrapper.sequence u + 1) ∧
    Sequence g2 = udpConnWrapper.sequence u1 ∧
    (udpConnWrapper.sequence u < 2 ^ 32 - 1 → Sequence g2 = Sequence g1 + 1) ∧
    (udpConnWrapper.sequence u = 2 ^ 32 - 1 → Sequence g2 = 0) ∧
    (udpConnWrapper.maxMessageSize u < Z.of_nat (1 + HeaderSize g1 + length p1 + 4) →
     r1 = Err (ErrUDPMessageTooLarge (Z.of_nat (1 + HeaderSize g1 + length p1 + 4))
                 (udpConnWrapper.maxMessageSize u))) ∧
    (r1 = Ok () →
     Z.of_nat (1 + HeaderSize g1 + length p1 + 4) ≤ udpConnWrapper.maxMessageSize u).
Proof.
  intros Hu.
  destruct (udp_WriteFrame_call now1 u h1 p1) as (u1 & r1 & W1 & Q1 & Big1 & Ok1).
  destruct (udp_WriteFrame_call now2 u1 h2 p2) as (u2 & r2 & W2 & _).
  eexists u1, _, r1, u2, _, r2.
  split; [exact W1|]. split; [exact W2|].
  destruct (SetTimestampIfZero_other now1
    (set_Length (to_uint64 (Z.of_nat (length p1)))
       (set_Sequence (udpConnWrapper.sequence u)
          (set_Protocol ProtocolUDP (set_Sender (udpConnWrapper.sender u) h1)))))
    as (_&S1&_&_&S2&S3&_).
  destruct (SetTimestampIfZero_other now2
    (set_Length (to_uint64 (Z.of_nat (length p2)))
       (set_Sequence (udpConnWrapper.sequence u1)
          (set_Protocol ProtocolUDP (set_Sender (udpConnWrapper.sender u1) h2)))))
    as (_&_&_&_&T2&_).
  cbn in S1, S2, S3, T2.
  split_and!; try done.
  - intros Hlt. rewrite T2, S2, Q1. unfold to_uint32, is_uint32 in *.
    apply Z.mod_small. lia.
  - intros Heq. rewrite T2, Q1, Heq. reflexivity.
Qed.

Lemma udp_WriteFrame_overwrites_witness :
  ∃ u1 g1 r1 u2 g2 r2,
    udpConnWrapper.WriteFrame 0 sample_udp (Some sample_header) check_string
    = (u1, Some g1, r1) ∧
    udpConnWrapper.WriteFrame 0 u1 (Some sample_header) check_string = (u2, Some g2, r2) ∧
    Sender g1 = udpConnWrapper.sender sample_udp ∧
    Protocol g1 = ProtocolUDP ∧
    Sequence g1 = udpConnWrapper.sequence sample_udp ∧
    udpConnWrapper.sequence u1 = to_uint32 (udpConnWrapper.sequence sample_udp + 1) ∧
    Sequence g2 = udpConnWrapper.sequence u1 ∧
    (udpConnWrapper.sequence sample_udp < 2 ^ 32 - 1 → Sequence g2 = Sequence g1 + 1) ∧
    (udpConnWrapper.sequence sample_udp = 2 ^ 32 - 1 → Sequence g2 = 0) ∧
    (udpConnWrapper.maxMessageSize sample_udp
       < Z.of_nat (1 + HeaderSize g1 + length check_string + 4) →
     r1 = Err (ErrUDPMessageTooLarge
                 (Z.of_nat (1 + HeaderSize g1 + length check_string + 4))
                 (udpConnWrapper.maxMessageSize sample_udp))) ∧
    (r1 = Ok () →
     Z.of_nat (1 + HeaderSize g1 + length check_string + 4)
     ≤ udpConnWrapper.maxMessageSize sample_udp).
Proof.
  apply (udp_WriteFrame_overwrites 0 0 sample_udp sample_header check_string
           sample_header check_string).
  compute_done.
Defined.

(** C5, as stated, fails in two ways. When the counter wraps, two
    consecutive successful frames carry the Sequence values 4294967295 and
    then 0. And a refused frame uses up a number: on a fresh transport whose
    first frame is refused as too large, that call has put 0 in the header
    and sent nothing, and the first frame that is sent carries 1, not the
    initial value. *)
Lemma sequence_wraps_and_skips :
  first_call.2 = Ok () ∧ second_call.2 = Ok () ∧
  Sequence <$> first_call.1.2 = Some 4294967295 ∧
  Sequence <$> second_call.1.2 = Some 0 ∧
  ¬ (4294967295 < 0) ∧
  udpConnWrapper.sequence small_udp = 0 ∧
  refused_call.2 = Err (ErrUDPMessageTooLarge 177 90) ∧
  Sequence <$> refused_call.1.2 = Some 0 ∧
  sent (udpConnWrapper.pc refused_call.1.1) = [] ∧
  udpConnWrapper.sequence refused_call.1.1 = 1 ∧
  call_after_refusal.2 = Ok () ∧
  Sequence <$> call_after_refusal.1.2 = Some 1 ∧
  length (sent (udpConnWrapper.pc call_after_refusal.1.1)) = 1%nat ∧
  ¬ (Sequence <$> call_after_refusal.1.2 = Some (udpConnWrapper.sequence small_udp)).
Proof.
  split_and!; try (vm_compute; reflexivity).
  - lia.
  - vm_compute. discriminate.
Qed.

(** ** Length and Timestamp *)

(** The Length field of an encoded header: bytes 40 to 47. *)
Lemma HeaderEncode_Length_field now h h' bytes :
  length (ID h) = 16%nat → length (Sender h) = 16%nat → length (Receiver h) = 16%nat →
  is_uint64 (Length h) →
  HeaderEncode now (Some h) = Ok (h', bytes) →
  BigEndian.Uint64 (take 8 (drop 40 bytes)) = Ok (Length h).
Proof.
  intros L1 L2 L3 Hlen HE.
  destruct (SetTimestampIfZero_other now h) as (E1&E2&_&E4&_).
  pose proof (HeaderEncode_bytes now h L1 L2 L3) as HB. cbn zeta in HB.
  rewrite HB in HE.
  match type of HE with Ok (_, ?e) = _ => assert (Hb : bytes = e) by congruence end.
  rewrite Hb, E4.
  rewrite (app_assoc (ID _)), (app_assoc (_ ++ _)).
  rewrite drop_app_length' by (rewrite !length_app, E1, E2, L1, L2; done).
  rewrite take_app_length' by done.
  by apply (Uint64_bytes64 _ []).
Qed.

(** C7: after [WriteFrame], on either transport, the header's Length is
    the payload's byte count; the header bytes of the frame that goes out
    carry that count in their Length field; and the Length the caller
    supplied has no effect on the call at all. *)
Theorem WriteFrame_Length now w u h payload x :
  wf_header h →
  length (udpConnWrapper.sender u) = 16%nat →
  Z.of_nat (length payload) < 2 ^ 63 →
  ∃ w' ht rt bt u' hu ru bu,
    tcpConnWrapper.WriteFrame now w (Some h) payload = (w', Some ht, rt) ∧
    udpConnWrapper.WriteFrame now u (Some h) payload = (u', Some hu, ru) ∧
    Length ht = Z.of_nat (length payload) ∧
    Length hu = Z.of_nat (length payload) ∧
    (closed (tcpConnWrapper.conn w) = false →
     outbound (tcpConnWrapper.conn w')
     = outbound (tcpConnWrapper.conn w)
       ++ to_byte (Z.of_nat (length bt))
          :: bt ++ payload ++ BigEndian.bytes32 (Checksum payload)) ∧
    (ru = Ok () →
     sent (udpConnWrapper.pc u')
     = sent (udpConnWrapper.pc u)
       ++ [(udpConnWrapper.addr u,
            to_byte (Z.of_nat (length bu))
              :: bu ++ payload ++ BigEndian.bytes32 (Checksum payload))]) ∧
    BigEndian.Uint64 (take 8 (drop 40 bt)) = Ok (Z.of_nat (length payload)) ∧
    BigEndian.Uint64 (take 8 (drop 40 bu)) = Ok (Z.of_nat (length payload)) ∧
    tcpConnWrapper.WriteFrame now w (Some (set_Length x h)) payload
    = tcpConnWrapper.WriteFrame now w (Some h) payload ∧
    udpConnWrapper.WriteFrame now u (Some (set_Length x h)) payload
    = udpConnWrapper.WriteFrame now u (Some h) payload.
Proof.
  intros ((L1&_)&(L2&_)&(L3&_)&_) Lu Hlen.
  assert (EL : to_uint64 (Z.of_nat (length payload)) = Z.of_nat (length payload)).
  { unfold to_uint64. apply Z.mod_small. lia. }
  assert (HL : is_uint64 (Z.of_nat (length payload))) by (unfold is_uint64; lia).
  destruct (tcp_WriteFrame_spec now w h payload) as (bt & HEt & _ & Wt).
  destruct (udp_WriteFrame_spec now u h payload) as (bu & HEu & _ & Wu).
  cbn zeta in Wu. rewrite EL in HEt, HEu.
  apply HeaderEncode_Length_field in HEt; [|assumption..].
  apply HeaderEncode_Length_field in HEu; [|assumption..].
  cbn [Length set_Length] in HEt, HEu.
  set (ht := SetTimestampIfZero now _) in Wt.
  set (hu := SetTimestampIfZero now _) in Wu.
  assert (Et : Length ht = Z.of_nat (length payload)).
  { unfold ht. destruct (SetTimestampIfZero_other now
                (set_Length (to_uint64 (Z.of_nat (length payload))) h))
      as (_&_&_&->&_). exact EL. }
  assert (Eu : Length hu = Z.of_nat (length payload)).
  { unfold hu. destruct (SetTimestampIfZero_other now
      (set_Length (to_uint64 (Z.of_nat (length payload)))
         (set_Sequence (udpConnWrapper.sequence u)
            (set_Protocol ProtocolUDP (set_Sender (udpConnWrapper.sender u) h)))))
      as (_&_&_&->&_). exact EL. }
  assert (∃ w' rt,
    tcpConnWrapper.WriteFrame now w (Some h) payload = (w', Some ht, rt) ∧
    (closed (tcpConnWrapper.conn w) = false →
     outbound (tcpConnWrapper.conn w')
     = outbound (tcpConnWrapper.conn w)
       ++ to_byte (Z.of_nat (length bt))
          :: bt ++ payload ++ BigEndian.bytes32 (Checksum payload)))
    as (w' & rt & Wt' & Ot).
  { rewrite Wt. unfold conn_Write. destruct (closed _).
    - eexists _, _. split; [reflexivity|discriminate].
    - eexists _, _. split; reflexivity. }
  assert (∃ u' ru,
    udpConnWrapper.WriteFrame now u (Some h) payload = (u', Some hu, ru) ∧
    (ru = Ok () →
     sent (udpConnWrapper.pc u')
     = sent (udpConnWrapper.pc u)
       ++ [(udpConnWrapper.addr u,
            to_byte (Z.of_nat (length bu))
              :: bu ++ payload ++ BigEndian.bytes32 (Checksum payload))]))
    as (u' & ru & Wu' & Ou).
  { rewrite Wu. destruct (decide _).
    - eexists _, _. split; [reflexivity|discriminate].
    - unfold pc_WriteTo. destruct (pclosed _).
      + eexists _, _. split; [reflexivity|discriminate].
      + eexists _, _. split; reflexivity. }
  exists w', ht, rt, bt, u', hu, ru, bu.
  split_and!; try done.
Qed.

Lemma WriteFrame_Length_witness :
  ∃ w' ht rt bt u' hu ru bu,
    tcpConnWrapper.WriteFrame 0 sample_tcp (Some sample_header) check_string
    = (w', Some ht, rt) ∧
    udpConnWrapper.WriteFrame 0 sample_udp (Some sample_header) check_string
    = (u', Some hu, ru) ∧
    Length ht = Z.of_nat (length check_string) ∧
    Length hu = Z.of_nat (length check_string) ∧
    (closed (tcpConnWrapper.conn sample_tcp) = false →
     outbound (tcpConnWrapper.conn w')
     = outbound (tcpConnWrapper.conn sample_tcp)
       ++ to_byte (Z.of_nat (length bt))
          :: bt ++ check_string ++ BigEndian.bytes32 (Checksum check_string)) ∧
    (ru = Ok () →
     sent (udpConnWrapper.pc u')
     = sent (udpConnWrapper.pc sample_udp)
       ++ [(udpConnWrapper.addr sample_udp,
            to_byte (Z.of_nat (length bu))
              :: bu ++ check_string ++ BigEndian.bytes32 (Checksum check_string))]) ∧
    BigEndian.Uint64 (take 8 (drop 40 bt)) = Ok (Z.of_nat (length check_string)) ∧
    BigEndian.Uint64 (take 8 (drop 40 bu)) = Ok (Z.of_nat (length check_string)) ∧
    tcpConnWrapper.WriteFrame 0 sample_tcp (Some (set_Length 77 sample_header)) check_string
    = tcpConnWrapper.WriteFrame 0 sample_tcp (Some sample_header) check_string ∧
    udpConnWrapper.WriteFrame 0 sample_udp (Some (set_Length 77 sample_header)) check_string
    = udpConnWrapper.WriteFrame 0 sample_udp (Some sample_header) check_string.
Proof.
  apply (WriteFrame_Length 0 sample_tcp sample_udp sample_header check_string 77).
  - compute_done.
  - reflexivity.
  - reflexivity.
Defined.

(** C8: the encoder sets a zero Timestamp to the clock's reading and
    leaves a non-zero Timestamp alone; the Timestamp field of the encoded
    header is that value. *)
Theorem HeaderEncode_Timestamp now h :
  wf_header h →
  ∃ h' bytes,
    HeaderEncode now (Some h) = Ok (h', bytes) ∧
    (Timestamp h = 0 → Timestamp h' = to_uint64 now) ∧
    (Timestamp h ≠ 0 → Timestamp h' = Timestamp h) ∧
    BigEndian.Uint64 (take 8 (drop 32 bytes)) = Ok (Timestamp h').
Proof.
  intros Hwf.
  pose proof (SetTimestampIfZero_wf now h Hwf) as (_&_&_&Hts&_).
  destruct Hwf as ((L1&_)&(L2&_)&(L3&_)&_).
  pose proof (HeaderEncode_bytes now h L1 L2 L3) as HE. cbn zeta in HE.
  eexists _, _. split; [exact HE|].
  split_and!.
  - intros Hz. unfold SetTimestampIfZero. by rewrite decide_True.
  - intros Hnz. unfold SetTimestampIfZero. by rewrite decide_False.
  - destruct (SetTimestampIfZero_other now h) as (E1&E2&_).
    rewrite (app_assoc (ID _)).
    rewrite drop_app_length' by (rewrite length_app, E1, E2, L1, L2; done).
    rewrite take_app_length' by done.
    by apply (Uint64_bytes64 _ []).
Qed.

Lemma HeaderEncode_Timestamp_witness :
  ∃ h' bytes,
    HeaderEncode 1700000000123 (Some (set_Timestamp 0 sample_header)) = Ok (h', bytes) ∧
    (Timestamp (set_Timestamp 0 sample_header) = 0 → Timestamp h' = to_uint64 1700000000123) ∧
    (Timestamp (set_Timestamp 0 sample_header) ≠ 0 →
     Timestamp h' = Timestamp (set_Timestamp 0 sample_header)) ∧
    BigEndian.Uint64 (take 8 (drop 32 bytes)) = Ok (Timestamp h').
Proof.
  apply (HeaderEncode_Timestamp 1700000000123 (set_Timestamp 0 sample_header)).
  compute_done.
Defined.

(** ** CRC-32 *)

Lemma lxor_range a b k :
  0 ≤ k → 0 ≤ a < 2 ^ k → 0 ≤ b < 2 ^ k → 0 ≤ Z.lxor a b < 2 ^ k.
Proof.
  intros Hk Ha Hb. split; [apply Z.lxor_nonneg; lia|].
  destruct (decide (a = 0)) as [->|Ha0]; [rewrite Z.lxor_0_l; lia|].
  destruct (decide (b = 0)) as [->|Hb0]; [rewrite Z.lxor_0_r; lia|].
  destruct (decide (Z.lxor a b = 0)) as [->|Hne]; [lia|].
  assert (0 < Z.lxor a b) by (pose proof (Z.lxor_nonneg a b); lia).
  apply Z.log2_lt_pow2; [done|].
  pose proof (Z.log2_lxor a b ltac:(lia) ltac:(lia)) as Hl.
  assert (Z.log2 a < k) by (apply Z.log2_lt_pow2; lia).
  assert (Z.log2 b < k) by (apply Z.log2_lt_pow2; lia).
  lia.
Qed.

Lemma lxor_cancel_l a b c : Z.lxor a b = Z.lxor a c → b = c.
Proof.
  intros H. apply (f_equal (Z.lxor a)) in H.
  by rewrite <- !Z.lxor_assoc, !Z.lxor_nilpotent, !Z.lxor_0_l in H.
Qed.

Lemma lxor_cancel_r a b c : Z.lxor b a = Z.lxor c a → b = c.
Proof. rewrite !(Z.lxor_comm _ a). apply lxor_cancel_l. Qed.

Lemma CRC32Table_MakeTable : CRC32Table = crc32.MakeTable crc32.IEEE.
Proof. vm_compute. reflexivity. Qed.

(** Three facts about the table, by inspection of its 256 entries. *)
Lemma CRC32Table_length : length CRC32Table = 256%nat.
Proof. reflexivity. Qed.

Lemma CRC32Table_range : Forall is_uint32 CRC32Table.
Proof. compute_done. Qed.

Lemma CRC32Table_top_bytes : NoDup ((λ t, t ≫ 24) <$> CRC32Table).
Proof. compute_done. Qed.

Lemma crc_index_range crc v :
  is_byte v → 0 ≤ Z.lxor (to_byte crc) v < 256.
Proof.
  intros Hv. apply (lxor_range _ _ 8); [lia| |done].
  apply to_byte_is_byte.
Qed.

Lemma CRC32Table_entry i :
  0 ≤ i < 256 →
  ∃ t, CRC32Table !! Z.to_nat i = Some t ∧ crc32.entry CRC32Table i = t ∧ is_uint32 t.
Proof.
  intros Hi.
  destruct (lookup_lt_is_Some_2 CRC32Table (Z.to_nat i)) as [t Ht].
  { rewrite CRC32Table_length. lia. }
  exists t. split; [done|]. split.
  - unfold crc32.entry. by rewrite Ht.
  - eapply Forall_lookup_1; [apply CRC32Table_range|done].
Qed.

(** Distinct indices give entries with distinct top bytes. *)
Lemma CRC32Table_top_byte_inj i j :
  0 ≤ i < 256 → 0 ≤ j < 256 →
  crc32.entry CRC32Table i ≫ 24 = crc32.entry CRC32Table j ≫ 24 → i = j.
Proof.
  intros Hi Hj Heq.
  destruct (CRC32Table_entry i Hi) as (ti & Li & Ei & _).
  destruct (CRC32Table_entry j Hj) as (tj & Lj & Ej & _).
  rewrite Ei, Ej in Heq.
  assert (Z.to_nat i = Z.to_nat j); [|lia].
  eapply (NoDup_lookup _ _ _ (ti ≫ 24) CRC32Table_top_bytes).
  - by rewrite list_lookup_fmap, Li.
  - by rewrite list_lookup_fmap, Lj, Heq.
Qed.

Lemma shiftr8_range crc : is_uint32 crc → 0 ≤ crc ≫ 8 < 2 ^ 24.
Proof.
  unfold is_uint32. intros H. rewrite Z.shiftr_div_pow2 by lia.
  split; [apply Z.div_pos; lia|]. apply Z.div_lt_upper_bound; lia.
Qed.

Lemma update_byte_range crc v :
  is_uint32 crc → is_byte v → is_uint32 (crc32.update_byte CRC32Table crc v).
Proof.
  intros Hc Hv. unfold crc32.update_byte.
  destruct (CRC32Table_entry _ (crc_index_range crc v Hv)) as (t & _ & -> & Ht).
  pose proof (shiftr8_range crc Hc).
  apply (lxor_range _ _ 32); unfold is_uint32 in *; lia.
Qed.

(** The top byte of the new state is the top byte of the table entry. *)
Lemma update_byte_top crc v :
  is_uint32 crc →
  crc32.update_byte CRC32Table crc v ≫ 24
  = crc32.entry CRC32Table (Z.lxor (to_byte crc) v) ≫ 24.
Proof.
  intros Hc. unfold crc32.update_byte.
  rewrite Z.shiftr_lxor, Z.shiftr_shiftr by lia.
  replace (crc ≫ (8 + 24)) with 0; [by rewrite Z.lxor_0_r|].
  unfold is_uint32 in Hc. rewrite Z.shiftr_div_pow2 by lia.
  symmetry. apply Z.div_small. lia.
Qed.

Lemma update_byte_inj_byte crc v1 v2 :
  is_uint32 crc → is_byte v1 → is_byte v2 →
  crc32.update_byte CRC32Table crc v1 = crc32.update_byte CRC32Table crc v2 →
  v1 = v2.
Proof.
  intros Hc H1 H2 Heq.
  apply (f_equal (λ x, x ≫ 24)) in Heq. cbn beta in Heq.
  rewrite !update_byte_top in Heq by done.
  apply CRC32Table_top_byte_inj in Heq; [|by apply crc_index_range..].
  by apply lxor_cancel_l in Heq.
Qed.

Lemma update_byte_inj_state c1 c2 v :
  is_uint32 c1 → is_uint32 c2 → is_byte v →
  crc32.update_byte CRC32Table c1 v = crc32.update_byte CRC32Table c2 v →
  c1 = c2.
Proof.
  intros H1 H2 Hv Heq.
  pose proof Heq as Htop.
  apply (f_equal (λ x, x ≫ 24)) in Htop. cbn beta in Htop.
  rewrite !update_byte_top in Htop by done.
  apply CRC32Table_top_byte_inj in Htop; [|by apply crc_index_range..].
  unfold crc32.update_byte in Heq. rewrite Htop in Heq.
  apply lxor_cancel_l in Heq. apply lxor_cancel_r in Htop.
  unfold to_byte in Htop. rewrite !Z.shiftr_div_pow2 in Heq by lia.
  rewrite (Z.div_mod c1 (2 ^ 8)), (Z.div_mod c2 (2 ^ 8)) by lia.
  by rewrite Heq, Htop.
Qed.

Lemma foldl_update_range bytes crc :
  is_uint32 crc → wf_bytes bytes →
  is_uint32 (foldl (crc32.update_byte CRC32Table) crc bytes).
Proof.
  revert crc. induction bytes as [|v bytes IH]; intros crc Hc Hb; [done|].
  cbn [foldl]. apply Forall_cons_1 in Hb as [Hv Hb].
  apply IH; [|done]. by apply update_byte_range.
Qed.

Lemma foldl_update_inj bytes c1 c2 :
  is_uint32 c1 → is_uint32 c2 → wf_bytes bytes →
  foldl (crc32.update_byte CRC32Table) c1 bytes
  = foldl (crc32.update_byte CRC32Table) c2 bytes →
  c1 = c2.
Proof.
  revert c1 c2. induction bytes as [|v bytes IH]; intros c1 c2 H1 H2 Hb Heq; [done|].
  cbn [foldl] in Heq. apply Forall_cons_1 in Hb as [Hv Hb].
  apply IH in Heq; [|by apply update_byte_range..|done].
  by apply update_byte_inj_state in Heq.
Qed.

Lemma Checksum_range payload : wf_bytes payload → is_uint32 (Checksum payload).
Proof.
  intros Hp. unfold Checksum, crc32.Sum32, crc32.Write, crc32.New, crc32.update.
  cbn [crc32.crc crc32.tab]. unfold crc32.not32.
  apply (lxor_range _ _ 32); [lia| |lia].
  apply foldl_update_range; [|done]. compute_done.
Qed.

(** Replacing one byte of the payload by a different byte changes the
    checksum. *)
Lemma Checksum_flip payload i a b :
  wf_bytes payload → payload !! i = Some a → is_byte b → a ≠ b →
  Checksum (<[i:=b]> payload) ≠ Checksum payload.
Proof.
  intros Hp Hi Hb Hab Heq.
  unfold Checksum, crc32.Sum32, crc32.Write, crc32.New, crc32.update in Heq.
  cbn [crc32.crc crc32.tab] in Heq. unfold crc32.not32 in Heq.
  apply lxor_cancel_r in Heq.
  assert (Hlt : (i < length payload)%nat) by (by eapply lookup_lt_Some).
  rewrite insert_take_drop in Heq by done.
  rewrite <- (take_drop_middle payload i a Hi) in Heq at 3.
  rewrite !foldl_app in Heq. cbn [foldl] in Heq.
  assert (Hpre : wf_bytes (take i payload)) by (by apply Forall_take).
  assert (Hpost : wf_bytes (drop (S i) payload)) by (by apply Forall_drop).
  assert (Ha : is_byte a) by exact (Forall_lookup_1 _ _ _ _ Hp Hi).
  assert (H0 : is_uint32 (Z.lxor 0 4294967295)) by compute_done.
  pose proof (foldl_update_range (take i payload) _ H0 Hpre) as Hs.
  apply foldl_update_inj in Heq; [|by apply update_byte_range..|done].
  apply update_byte_inj_byte in Heq; [congruence|done..].
Qed.

(** The model of the library computes the standard check value
    0xCBF43926 of CRC-32/IEEE on "123456789". *)
Lemma Checksum_check_value : Checksum check_string = 0xCBF43926.
Proof. vm_compute. reflexivity. Qed.

(** ** The stream transport's ReadFrame *)

Lemma io_ReadFull_Ok c n :
  closed c = false → (n ≤ length (inbound c))%nat →
  io_ReadFull c n
  = (mkConn (drop n (inbound c)) (outbound c) (closed c), Ok (take n (inbound c))).
Proof.
  intros Hc Hn. unfold io_ReadFull. destruct (decide (n = 0%nat)) as [->|].
  - by destruct c.
  - by rewrite Hc, decide_True.
Qed.

Lemma io_ReadFull_inv c n c' l :
  io_ReadFull c n = (c', Ok l) →
  (n ≠ 0%nat → closed c = false) ∧ (n ≤ length (inbound c))%nat ∧
  c' = mkConn (drop n (inbound c)) (outbound c) (closed c) ∧ l = take n (inbound c).
Proof.
  unfold io_ReadFull. destruct (decide (n = 0%nat)) as [->|].
  - intros [= <- <-]. destruct c. split_and!; [done|cbn; lia|done..].
  - destruct (closed c) eqn:Hc; [congruence|].
    destruct (decide _); [|congruence]. intros [= <- <-]. done.
Qed.

(** What an accepted frame looks like: the prefix byte [x], [x] bytes
    that decode to the header, then [Length + 4] bytes of which the last
    four are the checksum of the others. *)
Lemma ReadFrame_Ok_inv s out cl id w' h p :
  tcpConnWrapper.ReadFrame (tcpConnWrapper.mk (mkConn s out cl) id) = (w', Ok (h, p)) →
  ∃ x rest,
    cl = false ∧ s = x :: rest ∧
    (Z.to_nat x ≤ length rest)%nat ∧
    HeaderDecode (slice_of (take (Z.to_nat x) rest)) = Ok h ∧
    to_uint64 (Length h + 4) ≤ maxAlloc ∧
    (4 ≤ Z.to_nat (to_uint64 (Length h + 4)) ≤ length (drop (Z.to_nat x) rest))%nat ∧
    p = take (Z.to_nat (to_uint64 (Length h + 4)) - 4) (drop (Z.to_nat x) rest) ∧
    BigEndian.Uint32
      (take 4 (drop (Z.to_nat (to_uint64 (Length h + 4)) - 4) (drop (Z.to_nat x) rest)))
    = Ok (Checksum p).
Proof.
  unfold tcpConnWrapper.ReadFrame. cbn [tcpConnWrapper.conn].
  destruct (io_ReadFull (mkConn s out cl) 1) as [c1 r1] eqn:R1.
  destruct r1 as [l1| |]; cbn [wrap_err]; [|congruence..].
  apply io_ReadFull_inv in R1 as (Hcl & Hlen1 & -> & ->). cbn in Hcl, Hlen1.
  rewrite Hcl in * by done. clear Hcl.
  destruct s as [|x rest]; [cbn in Hlen1; lia|].
  cbn [inbound outbound closed firstn skipn]. rewrite take_0, drop_0.
  change (default 0 ([x] !! 0%nat)) with x.
  destruct (io_ReadFull _ (Z.to_nat x)) as [c2 r2] eqn:R2.
  destruct r2 as [hb| |]; cbn [wrap_err]; [|congruence..].
  apply io_ReadFull_inv in R2 as (_ & Hlen2 & -> & ->).
  cbn [inbound outbound closed] in *.
  destruct (HeaderDecode _) as [h'| |] eqn:HD; cbn [wrap_err]; [|congruence..].
  destruct (decide (maxAlloc < _)) as [|Hmax]; [congruence|].
  destruct (io_ReadFull _ (Z.to_nat (to_uint64 _))) as [c3 r3] eqn:R3.
  destruct r3 as [PS| |]; cbn [wrap_err]; [|congruence..].
  apply io_ReadFull_inv in R3 as (_ & Hlen3 & -> & ->).
  cbn [inbound outbound closed] in *.
  destruct (decide (length _ < 4)%nat) as [|Hlen4]; [congruence|].
  destruct (BigEndian.Uint32 _) as [c| |] eqn:HU; [|congruence..].
  destruct (decide (c ≠ _)) as [|Hc]; [congruence|].
  intros [= _ <- <-].
  rewrite length_take_le in * by done.
  rewrite take_take in *.
  rewrite Nat.min_l in * by lia.
  exists x, rest. split_and!; try done; try lia.
  rewrite take_drop_commute.
  replace (Z.to_nat (to_uint64 (Length h' + 4)) - 4 + 4)%nat
    with (Z.to_nat (to_uint64 (Length h' + 4))) by lia.
  rewrite HU. f_equal.
  match type of Hc with ¬ c ≠ ?k => destruct (decide (c = k)); [done|tauto] end.
Qed.

Lemma take_drop_commute_4 (l : list byte) n :
  (4 ≤ n)%nat → take 4 (drop (n - 4) l) = drop (n - 4) (take n l).
Proof.
  intros Hn. rewrite take_drop_commute. do 2 f_equal. lia.
Qed.

Lemma ReadFrame_eval x rest out id h c :
  let L := Z.to_nat x in
  let N := Z.to_nat (to_uint64 (Length h + 4)) in
  let p := take (N - 4) (drop L rest) in
  (L ≤ length rest)%nat →
  HeaderDecode (slice_of (take L rest)) = Ok h →
  to_uint64 (Length h + 4) ≤ maxAlloc →
  (4 ≤ N ≤ length (drop L rest))%nat →
  BigEndian.Uint32 (take 4 (drop (N - 4) (drop L rest))) = Ok c →
  tcpConnWrapper.ReadFrame (tcpConnWrapper.mk (mkConn (x :: rest) out false) id)
  = (tcpConnWrapper.mk (mkConn (drop N (drop L rest)) out false) id,
     if decide (c ≠ Checksum p) then Err ErrTCPChecksumMismatch else Ok (h, p)).
Proof.
  intros L N p HL HD Hmax HN HU.
  unfold tcpConnWrapper.ReadFrame. cbn [tcpConnWrapper.conn].
  rewrite io_ReadFull_Ok by (cbn; done || lia).
  cbn [inbound outbound closed firstn skipn wrap_err]. rewrite take_0, drop_0.
  change (default 0 ([x] !! 0%nat)) with x. fold L.
  rewrite io_ReadFull_Ok by (cbn; done || lia).
  cbn [inbound outbound closed wrap_err].
  rewrite HD. cbn [wrap_err].
  rewrite decide_False by lia. fold N.
  rewrite io_ReadFull_Ok by (cbn; done || lia).
  cbn [inbound outbound closed wrap_err].
  rewrite length_take_le by lia.
  rewrite decide_False by lia.
  rewrite <- take_drop_commute_4 by lia.
  rewrite HU, take_take, Nat.min_l by lia. fold p.
  unfold tcpConnWrapper.with_conn. cbn [tcpConnWrapper.sender].
  destruct (decide _); reflexivity.
Qed.

(** Replacing one payload byte of an accepted frame by a different byte
    makes the reader fail with the checksum error. *)
Lemma ReadFrame_payload_flip s out id w' h p i a b :
  wf_bytes s →
  tcpConnWrapper.ReadFrame (tcpConnWrapper.mk (mkConn s out false) id) = (w', Ok (h, p)) →
  p !! i = Some a → is_byte b → a ≠ b →
  (tcpConnWrapper.ReadFrame
     (tcpConnWrapper.mk (mkConn (<[(payload_start s + i)%nat := b]> s) out false) id)).2
  = Err ErrTCPChecksumMismatch.
Proof.
  intros Hwf Hacc Hi Hb Hab.
  apply ReadFrame_Ok_inv in Hacc
    as (x & rest & _ & -> & HL & HD & Hmax & HN & Hp & HU).
  set (L := Z.to_nat x) in *.
  set (N := Z.to_nat (to_uint64 (Length h + 4))) in *.
  assert (Hip : (i < N - 4)%nat).
  { apply lookup_lt_Some in Hi. rewrite Hp, length_take in Hi. lia. }
  change (payload_start (x :: rest)) with (1 + L)%nat.
  change (<[(1 + L + i)%nat:=b]> (x :: rest)) with (x :: <[(L + i)%nat:=b]> rest).
  assert (Hwfp : wf_bytes p).
  { rewrite Hp. apply Forall_take, Forall_drop. by apply Forall_cons_1 in Hwf as [_ ?]. }
  rewrite (ReadFrame_eval x (<[(L + i)%nat:=b]> rest) out id h (Checksum p)).
  - cbn [snd]. fold L N.
    rewrite drop_insert_ge by lia.
    replace (L + i - L)%nat with i by lia.
    rewrite take_insert_lt by done. rewrite <- Hp.
    rewrite decide_True; [done|].
    intros Heq. symmetry in Heq. revert Heq. by eapply Checksum_flip.
  - rewrite length_insert. done.
  - fold L. rewrite take_insert_ge by lia. done.
  - done.
  - fold L N. rewrite length_drop, length_insert, <- length_drop. done.
  - fold L N. rewrite drop_insert_ge by lia.
    replace (L + i - L)%nat with i by lia.
    rewrite drop_insert_lt by done. done.
Qed.

(** ** Where the decoder goes wrong *)

Lemma bind_Err_inv {A B} (m : result A) (f : A → result B) e :
  m ≫= f = Err e → m = Err e ∨ ∃ a, m = Ok a ∧ f a = Err e.
Proof.
  destruct m; intros H; [right; eauto| |discriminate H].
  injection H as ->. by left.
Qed.

Lemma slice_sub_not_Err s lo hi e : slice_sub s lo hi ≠ Err e.
Proof. unfold slice_sub. by destruct (decide _). Qed.

Lemma slice_index_not_Err s i e : slice_index s i ≠ Err e.
Proof. unfold slice_index. by destruct (_ !! _). Qed.

Lemma Uint64_not_Err b e : BigEndian.Uint64 b ≠ Err e.
Proof. unfold BigEndian.Uint64. by repeat case_match. Qed.

Lemma Uint32_not_Err b e : BigEndian.Uint32 b ≠ Err e.
Proof. unfold BigEndian.Uint32. by repeat case_match. Qed.

(** Splits a failing computation at its first step; the reads and the
    integer decoders never return an error themselves. *)
Ltac err_step H :=
  apply bind_Err_inv in H as [H|(? & _ & H)];
  [ solve [ by apply slice_sub_not_Err in H
          | by apply slice_index_not_Err in H
          | by apply Uint64_not_Err in H
          | by apply Uint32_not_Err in H ] || idtac
  | cbn beta zeta in H ].

(** Whatever error the decoder returns is one of its two decode errors. *)
Lemma HeaderDecode_Err_is_DecodeError data e :
  HeaderDecode data = Err e → is_DecodeError e.
Proof.
  unfold HeaderDecode. cbn zeta. intros H.
  destruct (decide (_ ∨ _)); [by injection H as <-|].
  do 10 err_step H.
  err_step H.
  { destruct (decide _); [|done]. err_step H. done. }
  match type of H with context [let '(_, _) := ?x in _] => destruct x as [h1 o1] end.
  err_step H.
  { destruct (decide _); [|done]. do 2 err_step H. done. }
  match type of H with context [let '(_, _) := ?x in _] => destruct x as [h2 o2] end.
  destruct (decide _); [by injection H as <-|done].
Qed.

Lemma bind_Panic_inv {A B} (m : result A) (f : A → result B) p :
  m ≫= f = Panic p → (∃ q, m = Panic q) ∨ ∃ a, m = Ok a ∧ f a = Panic p.
Proof. destruct m; intros H; [right; eauto|discriminate H|left; eauto]. Qed.

Lemma slice_sub_length s lo hi l :
  slice_sub s lo hi = Ok l → length l = (hi - lo)%nat.
Proof.
  unfold slice_sub, cap, backing. destruct (decide _) as [[? ?]|]; [|done].
  intros [= <-]. rewrite length_take, length_drop, length_app. lia.
Qed.

Lemma Uint64_Ok_8 b : length b = 8%nat → ∃ v, BigEndian.Uint64 b = Ok v.
Proof. intros H. explode b H. unfold BigEndian.Uint64. eauto. Qed.

Lemma Uint32_Ok_4 b : length b = 4%nat → ∃ v, BigEndian.Uint32 b = Ok v.
Proof. intros H. explode b H. unfold BigEndian.Uint32. eauto. Qed.

(** With room for the largest header behind the slice (as in the
    datagram transport, which decodes inside its receive buffer) the
    decoder does not panic: it returns a header or a decode error. *)
Lemma HeaderDecode_no_panic data p :
  (72 ≤ cap data)%nat → HeaderDecode data ≠ Panic p.
Proof.
  intros Hcap H. unfold HeaderDecode in H. cbn zeta in H.
  destruct (decide (_ ∨ _)) as [|Hlen]; [done|].
  assert (Hsub : ∀ lo hi q, (lo ≤ hi ≤ 72)%nat → slice_sub data lo hi ≠ Panic q).
  { intros lo hi q Hr. unfold slice_sub. by rewrite decide_True by lia. }
  assert (Hidx : ∀ i q, (i < 52)%nat → slice_index data i ≠ Panic q).
  { intros i q Hi. unfold slice_index, len in *.
    by destruct (lookup_lt_is_Some_2 (elems data) i) as [b ->]; [lia|]. }
  assert (H64 : ∀ lo l q, slice_sub data lo (lo + 8) = Ok l → BigEndian.Uint64 l ≠ Panic q).
  { intros lo l q Hl. apply slice_sub_length in Hl.
    destruct (Uint64_Ok_8 l) as [v ->]; [lia|done]. }
  assert (H32 : ∀ lo l q, slice_sub data lo (lo + 4) = Ok l → BigEndian.Uint32 l ≠ Panic q).
  { intros lo l q Hl. apply slice_sub_length in Hl.
    destruct (Uint32_Ok_4 l) as [v ->]; [lia|done]. }
  apply bind_Panic_inv in H as [[? H]|(s1 & _ & H)]; [by apply Hsub in H; [|cbn; lia]|].
  apply bind_Panic_inv in H as [[? H]|(s2 & _ & H)]; [by apply Hsub in H; [|cbn; lia]|].
  apply bind_Panic_inv in H as [[? H]|(s3 & E3 & H)]; [by apply Hsub in H; [|cbn; lia]|].
  apply bind_Panic_inv in H as [[? H]|(v3 & _ & H)]; [by apply (H64 _ _ _ E3) in H|].
  apply bind_Panic_inv in H as [[? H]|(s4 & E4 & H)]; [by apply Hsub in H; [|cbn; lia]|].
  apply bind_Panic_inv in H as [[? H]|(v4 & _ & H)]; [by apply (H64 _ _ _ E4) in H|].
  apply bind_Panic_inv in H as [[? H]|(b0 & _ & H)]; [by apply Hidx in H; [|cbn; lia]|].
  apply bind_Panic_inv in H as [[? H]|(b1 & _ & H)]; [by apply Hidx in H; [|cbn; lia]|].
  apply bind_Panic_inv in H as [[? H]|(b2 & _ & H)]; [by apply Hidx in H; [|cbn; lia]|].
  apply bind_Panic_inv in H as [[? H]|(b3 & _ & H)]; [by apply Hidx in H; [|cbn; lia]|].
  cbn beta zeta in H.
  apply bind_Panic_inv in H as [[? H]|([h1 o1] & E1 & H)].
  { destruct (decide _); [|done].
    apply bind_Panic_inv in H as [[? H]|(? & _ & H)]; [|done].
    by apply Hsub in H; [|cbn; lia]. }
  assert (Ho : (o1 = 52 ∨ o1 = 68)%nat).
  { destruct (decide _) in E1; [|injection E1 as _ <-; cbn; lia].
    destruct (slice_sub _ _ _) in E1; [|done..]. injection E1 as _ <-. cbn. lia. }
  clear E1.
  apply bind_Panic_inv in H as [[? H]|([h2 o2] & _ & H)].
  { destruct (decide _); [|done].
    apply bind_Panic_inv in H as [[? H]|(s6 & E6 & H)]; [by apply Hsub in H; [|lia]|].
    apply bind_Panic_inv in H as [[? H]|(? & _ & H)]; [|done].
    by apply (H32 _ _ _ E6) in H. }
  by destruct (decide _).
Qed.

(** A broadcast header with the zero receiver is encoded without a
    Receiver block, and the decoder then slices past the end of the
    encoder's buffer. *)
Lemma HeaderDecode_HeaderEncode_zero_receiver now h :
  wf_header h →
  MessageType_ h = MessageTypeBroadcast → Receiver h = uuid_Nil →
  ∃ bytes,
    HeaderEncode now (Some h) = Ok (SetTimestampIfZero now h, bytes) ∧
    HeaderDecode (slice_of bytes) = Panic PanicSliceBounds.
Proof.
  intros Hwf Hmt Hr.
  pose proof (SetTimestampIfZero_wf now h Hwf) as Hwf'.
  destruct (SetTimestampIfZero_other now h) as (_&_&E2&_&_&_&_&E1&_).
  destruct Hwf as ((L1&_)&(L2&_)&(L3&_)&_).
  pose proof (HeaderEncode_bytes now h L1 L2 L3) as HE. cbn zeta in HE.
  eexists. split; [exact HE|]. clear HE L1 L2 L3.
  rewrite <- E1 in Hmt. rewrite <- E2 in Hr. clear E1 E2.
  revert Hwf' Hmt Hr. generalize (SetTimestampIfZero now h). clear h.
  intros h Hwf Hmt Hr.
  rewrite IsBroadcast_decide, decide_False by tauto.
  destruct h as [i s r ts ln sq pr fl mt ro].
  destruct Hwf as ((L1&_)&(L2&_)&_&Hts&Hln&Hsq&Hpr&Hfl&_&Hro).
  cbn [ID Sender Receiver Timestamp Length Sequence Protocol Flags MessageType_ Router] in *.
  subst mt r. rewrite !to_byte_id by done.
  unfold slice_of.
  destruct (decide (pr = ProtocolUDP)) as [->|Hp];
    explode i L1; explode s L2; run_decoder; reflexivity.
Qed.

(** C1 fails on the code: the encoder's output for a well-formed
    broadcast header with the zero receiver has 52 bytes, and decoding that
    buffer panics instead of returning the header. *)
Theorem roundtrip_panics_on_zero_receiver :
  wf_header broadcast_to_nobody ∧
  MessageType_IsValid (MessageType_ broadcast_to_nobody) = true ∧
  Flag_IsValid (Flags broadcast_to_nobody) = true ∧
  ProtocolType_IsValid (Protocol broadcast_to_nobody) = true ∧
  HeaderEncode 0 (Some broadcast_to_nobody)
  = Ok (broadcast_to_nobody, broadcast_to_nobody_bytes) ∧
  length broadcast_to_nobody_bytes = 52%nat ∧
  HeaderDecode (slice_of broadcast_to_nobody_bytes) = Panic PanicSliceBounds.
Proof.
  split; [compute_done|].
  split_and!; vm_compute; reflexivity.
Qed.

(** C3 fails on the code: on 52 bytes that announce a broadcast the
    decoder would consume 68 bytes, yet it returns no decode error: it
    panics when the slice ends at its length, and reports the mismatch only
    when the slice has sixteen bytes of spare capacity to read. *)
Theorem HeaderDecode_mismatch_without_error :
  len (slice_of truncated_broadcast) = 52%nat ∧
  HeaderDecode (slice_of truncated_broadcast) = Panic PanicSliceBounds ∧
  HeaderDecode (mkSlice truncated_broadcast (replicate 16 0))
  = Err (ErrHeaderSizeMismatch 67 52).
Proof. split_and!; vm_compute; reflexivity. Qed.

(** C4 fails on the code: on 52 bytes that announce UDP the read of the
    Sequence block reaches past the end of the input; the decoder panics
    when the slice ends there, and otherwise reads the four bytes that
    follow the input in the backing array. *)
Theorem HeaderDecode_reads_past_the_end :
  len (slice_of truncated_datagram) = 52%nat ∧
  HeaderDecode (slice_of truncated_datagram) = Panic PanicSliceBounds ∧
  ¬ is_Ok (HeaderDecode (slice_of truncated_datagram)) ∧
  ¬ fails_with (λ _, True) (HeaderDecode (slice_of truncated_datagram)) ∧
  slice_sub (mkSlice truncated_datagram [1; 2; 3; 4]) 52 56 = Ok [1; 2; 3; 4].
Proof. split_and!; vm_compute; tauto. Qed.

(** ** A header byte the checksum does not protect *)

Lemma slice_sub_insert data i c lo hi :
  (hi ≤ i ∨ i < lo)%nat → (i < len data)%nat →
  slice_sub (mkSlice (<[i:=c]> (elems data)) (spare data)) lo hi = slice_sub data lo hi.
Proof.
  intros Hout Hi. unfold slice_sub, cap, backing, len in *. cbn [elems spare].
  rewrite length_insert. destruct (decide _) as [[Hlo Hhi]|]; [|done]. f_equal.
  rewrite <- insert_app_l by done.
  destruct Hout as [Hge|Hlt].
  - rewrite drop_insert_ge by lia. rewrite take_insert_ge by lia. done.
  - rewrite drop_insert_lt by lia. done.
Qed.

Lemma slice_index_insert_ne data i j c :
  i ≠ j → slice_index (mkSlice (<[i:=c]> (elems data)) (spare data)) j = slice_index data j.
Proof. intros. unfold slice_index. cbn [elems]. by rewrite list_lookup_insert_ne. Qed.

Lemma slice_index_insert_eq data i c :
  (i < len data)%nat →
  slice_index (mkSlice (<[i:=c]> (elems data)) (spare data)) i = Ok c.
Proof. intros. unfold slice_index. cbn [elems]. by rewrite list_lookup_insert_eq. Qed.

(** One step of two decoder runs that read the same bytes: the head
    operation of the accepted run is named, or its test decided, in both. *)
Ltac lock_head H m :=
  lazymatch m with
  | ?m' ≫= _ => lock_head H m'
  | (if decide ?P then _ else _) => destruct (decide P)
  | _ => destruct m eqn:?; [|discriminate H..]
  end.

Ltac lock_step H :=
  cbn [mbind result_mbind result_bind MessageType_ Protocol
       set_ID set_Sender set_Receiver set_Timestamp set_Length set_Sequence
       set_Protocol set_Flags set_MessageType set_Router] in H |- *;
  rewrite ?slice_sub_insert by (unfold len in *; lia);
  lazymatch type of H with
  | ?m ≫= _ = Ok _ => lock_head H m
  | (if decide ?P then _ else _) = Ok _ => destruct (decide P); [discriminate H|]
  end.

(** Replacing byte 50 of a header the decoder accepts only changes the
    Router of the decoded header. *)
Lemma HeaderDecode_Router data c h :
  HeaderDecode data = Ok h →
  HeaderDecode (mkSlice (<[50%nat:=c]> (elems data)) (spare data)) = Ok (set_Router c h).
Proof.
  unfold HeaderDecode. cbn zeta.
  replace (len (mkSlice (<[50%nat:=c]> (elems data)) (spare data))) with (len data)
    by (unfold len; cbn [elems]; by rewrite length_insert).
  destruct (decide (_ ∨ _)) as [|Hlen]; [done|].
  cbn [Nat.add].
  rewrite (slice_index_insert_ne data 50 48), (slice_index_insert_ne data 50 49),
    (slice_index_insert_ne data 50 51) by lia.
  rewrite slice_index_insert_eq by lia.
  intros H.
  repeat lock_step H.
  all: injection H as <-; reflexivity.
Qed.

(** A header the decoder returns accounts for every byte of the input. *)
Lemma HeaderDecode_Ok_consumed data h :
  HeaderDecode data = Ok h →
  len data
  = (52 + (if decide (MessageType_ h = MessageTypeBroadcast) then 16 else 0)
        + (if decide (Protocol h = ProtocolUDP) then 4 else 0))%nat.
Proof.
  unfold HeaderDecode. cbn zeta.
  destruct (decide (_ ∨ _)) as [|Hlen]; [done|].
  cbn [Nat.add]. intros H.
  repeat lock_step H.
  all: injection H as <-.
  all: cbn [MessageType_ Protocol
            set_ID set_Sender set_Receiver set_Timestamp set_Length set_Sequence
            set_Protocol set_Flags set_MessageType set_Router].
  all: repeat first [rewrite decide_True by done | rewrite decide_False by done].
  all: match goal with
       | Hn : ¬ (?a ≠ ?b) |- _ => assert (a = b) by (destruct (decide (a = b)); tauto)
       end.
  all: lia.
Qed.

Lemma HeaderDecode_Ok_len data h :
  HeaderDecode data = Ok h → (52 ≤ len data ≤ 72)%nat.
Proof.
  unfold HeaderDecode. cbn zeta. destruct (decide (_ ∨ _)); [done|]. lia.
Qed.

(** Replacing the Router byte (index 51) of an accepted frame gives an
    accepted frame: same payload, no checksum error. *)
Lemma ReadFrame_Router_flip s out id w' h p c :
  tcpConnWrapper.ReadFrame (tcpConnWrapper.mk (mkConn s out false) id) = (w', Ok (h, p)) →
  (51 < payload_start s)%nat ∧
  (tcpConnWrapper.ReadFrame
     (tcpConnWrapper.mk (mkConn (<[51%nat:=c]> s) out false) id)).2
  = Ok (set_Router c h, p).
Proof.
  intros Hacc.
  apply ReadFrame_Ok_inv in Hacc
    as (x & rest & _ & -> & HL & HD & Hmax & HN & Hp & HU).
  set (L := Z.to_nat x) in *.
  pose proof (HeaderDecode_Ok_len _ _ HD) as Hlen.
  unfold len, slice_of in Hlen. cbn [elems] in Hlen.
  rewrite length_take_le in Hlen by done.
  change (payload_start (x :: rest)) with (1 + L)%nat.
  split; [lia|].
  change (<[51%nat:=c]> (x :: rest)) with (x :: <[50%nat:=c]> rest).
  rewrite (ReadFrame_eval x (<[50%nat:=c]> rest) out id (set_Router c h) (Checksum p)).
  - cbn [snd]. fold L. change (Length (set_Router c h)) with (Length h).
    rewrite drop_insert_lt by lia. rewrite <- Hp. by rewrite decide_False by tauto.
  - rewrite length_insert. done.
  - fold L. rewrite take_insert_lt by lia.
    apply (HeaderDecode_Router (slice_of (take L rest)) c h HD).
  - done.
  - fold L. change (Length (set_Router c h)) with (Length h).
    rewrite drop_insert_lt by lia. done.
  - fold L. change (Length (set_Router c h)) with (Length h).
    rewrite drop_insert_lt by lia. done.
Qed.

(** ** Writing a frame, then reading it *)

(** A frame written for a well-formed header that is not a broadcast
    with the zero receiver is read back: the header as the wire carries it,
    and the payload. *)
Lemma tcp_WriteFrame_ReadFrame now h payload rest out id :
  wf_header h → wf_bytes payload →
  Z.of_nat (length payload) + 4 ≤ maxAlloc →
  ¬ (MessageType_ h = MessageTypeBroadcast ∧ Receiver h = uuid_Nil) →
  let h' := SetTimestampIfZero now (set_Length (to_uint64 (Z.of_nat (length payload))) h) in
  ∃ headerBytes,
    HeaderEncode now (Some (set_Length (to_uint64 (Z.of_nat (length payload))) h))
    = Ok (h', headerBytes) ∧
    tcpConnWrapper.ReadFrame
      (tcpConnWrapper.mk
         (mkConn ((to_byte (Z.of_nat (length headerBytes))
                     :: headerBytes ++ payload ++ BigEndian.bytes32 (Checksum payload))
                  ++ rest) out false) id)
    = (tcpConnWrapper.mk (mkConn rest out false) id, Ok (on_wire h', payload)).
Proof.
  intros Hwf Hp Hmax Hnd h'.
  assert (HmaxA : maxAlloc = 2 ^ 48) by reflexivity.
  assert (EL : to_uint64 (Z.of_nat (length payload)) = Z.of_nat (length payload)).
  { unfold to_uint64. apply Z.mod_small. lia. }
  assert (Hwf1 : wf_header (set_Length (to_uint64 (Z.of_nat (length payload))) h)).
  { rewrite EL. destruct Hwf as (?&?&?&?&?&?&?&?&?&?).
    unfold wf_header. cbn. split_and!; try done. unfold is_uint64. lia. }
  destruct (HeaderDecode_HeaderEncode now _ [] Hwf1 Hnd) as (hb & HE & HD).
  destruct (HeaderEncode_Ok now (set_Length (to_uint64 (Z.of_nat (length payload))) h))
    as (hb' & HE' & Hlen).
  assert (hb' = hb) as -> by congruence.
  fold h' in HE, HD, Hlen.
  assert (Hhb : (52 ≤ length hb ≤ 72)%nat).
  { rewrite Hlen, HeaderSize_cases. destruct (IsBroadcast h'), (decide _); lia. }
  exists hb. split; [done|].
  assert (Ex : Z.to_nat (to_byte (Z.of_nat (length hb))) = length hb).
  { unfold to_byte. rewrite Z.mod_small by lia. lia. }
  assert (ElenH : Length (on_wire h') = Z.of_nat (length payload)).
  { transitivity (Length h'); [reflexivity|]. unfold h'.
    destruct (SetTimestampIfZero_other now
      (set_Length (to_uint64 (Z.of_nat (length payload))) h)) as (_&_&_&->&_).
    exact EL. }
  assert (EN : Z.to_nat (to_uint64 (Length (on_wire h') + 4)) = (length payload + 4)%nat).
  { rewrite ElenH. unfold to_uint64. rewrite Z.mod_small by lia. lia. }
  cbn [app].
  rewrite (ReadFrame_eval _ _ out id (on_wire h') (Checksum payload));
    rewrite ?Ex, ?EN.
  - replace (length payload + 4 - 4)%nat with (length payload) by lia.
    rewrite <- !app_assoc.
    rewrite drop_app_length, take_app_length.
    rewrite decide_False by tauto. do 3 f_equal.
    rewrite app_assoc, drop_app_length'; [done|].
    rewrite length_app. cbn. lia.
  - rewrite !length_app. lia.
  - rewrite <- !app_assoc, take_app_length. exact HD.
  - rewrite ElenH. unfold to_uint64. rewrite Z.mod_small by lia. lia.
  - rewrite <- !app_assoc, drop_app_length, !length_app. cbn. lia.
  - replace (length payload + 4 - 4)%nat with (length payload) by lia.
    rewrite <- !app_assoc, drop_app_length, drop_app_length.
    rewrite (take_app_length' (BigEndian.bytes32 _)) by done.
    apply (Uint32_bytes32 _ []). by apply Checksum_range.
Qed.

(** ** The checksum covers the payload and nothing else *)

(** X27: on an open connection [WriteFrame] appends the prefix byte, the
    encoded header, the payload and the big-endian [Checksum] of the payload
    alone, whatever the header; replacing a payload byte of a stream the
    reader accepts by a different byte makes [ReadFrame] fail with the
    checksum error; replacing the header's Router byte (index 51 of the
    stream) by any byte raises no error at all: the same payload comes back,
    under a header that differs in its Router only. *)
Theorem checksum_covers_payload_only now w h payload s out id w' hr p i a b r :
  closed (tcpConnWrapper.conn w) = false →
  wf_bytes s →
  tcpConnWrapper.ReadFrame (tcpConnWrapper.mk (mkConn s out false) id) = (w', Ok (hr, p)) →
  p !! i = Some a → is_byte b → a ≠ b →
  (∃ w1 h1 headerBytes,
     tcpConnWrapper.WriteFrame now w (Some h) payload = (w1, Some h1, Ok ()) ∧
     HeaderEncode now (Some (set_Length (to_uint64 (Z.of_nat (length payload))) h))
     = Ok (h1, headerBytes) ∧
     outbound (tcpConnWrapper.conn w1)
     = outbound (tcpConnWrapper.conn w)
       ++ to_byte (Z.of_nat (length headerBytes))
          :: headerBytes ++ payload ++ BigEndian.bytes32 (Checksum payload)) ∧
  (tcpConnWrapper.ReadFrame
     (tcpConnWrapper.mk (mkConn (<[(payload_start s + i)%nat := b]> s) out false) id)).2
  = Err ErrTCPChecksumMismatch ∧
  (1 ≤ 51 < payload_start s)%nat ∧
  (tcpConnWrapper.ReadFrame
     (tcpConnWrapper.mk (mkConn (<[51%nat := r]> s) out false) id)).2
  = Ok (set_Router r hr, p).
Proof.
  intros Hopen Hwf Hacc Hi Hb Hab.
  destruct (ReadFrame_Router_flip s out id w' hr p r Hacc) as [Hpos Hrouter].
  split_and!.
  - destruct (tcp_WriteFrame_spec now w h payload) as (hb & HE & _ & ->).
    unfold conn_Write. rewrite Hopen. eexists _, _, hb.
    split; [reflexivity|]. split; [exact HE|reflexivity].
  - by eapply ReadFrame_payload_flip.
  - lia.
  - lia.
  - exact Hrouter.
Qed.

Lemma checksum_covers_payload_only_witness :
  (∃ w1 h1 headerBytes,
     tcpConnWrapper.WriteFrame 0 sample_tcp (Some sample_header) check_string
     = (w1, Some h1, Ok ()) ∧
     HeaderEncode 0
       (Some (set_Length (to_uint64 (Z.of_nat (length check_string))) sample_header))
     = Ok (h1, headerBytes) ∧
     outbound (tcpConnWrapper.conn w1)
     = outbound (tcpConnWrapper.conn sample_tcp)
       ++ to_byte (Z.of_nat (length headerBytes))
          :: headerBytes ++ check_string ++ BigEndian.bytes32 (Checksum check_string)) ∧
  (tcpConnWrapper.ReadFrame
     (tcpConnWrapper.mk
        (mkConn (<[(payload_start sample_frame + 2)%nat := 0]> sample_frame) [] false)
        uuid_Nil)).2
  = Err ErrTCPChecksumMismatch ∧
  (1 ≤ 51 < payload_start sample_frame)%nat ∧
  (tcpConnWrapper.ReadFrame
     (tcpConnWrapper.mk (mkConn (<[51%nat := 43]> sample_frame) [] false) uuid_Nil)).2
  = Ok (set_Router 43 (set_Length 9 sample_header), check_string).
Proof.
  apply (checksum_covers_payload_only 0 sample_tcp sample_header check_string
           sample_frame [] uuid_Nil
           (tcpConnWrapper.ReadFrame (reader sample_frame)).1
           (set_Length 9 sample_header) check_string 2%nat 51 0 43).
  - reflexivity.
  - compute_done.
  - vm_compute. reflexivity.
  - reflexivity.
  - compute_done.
  - discriminate.
Defined.

(** C6: the trailer of a written frame is the CRC-32 of its payload, but
    the reader does not get as far as comparing it for the frame
    [WriteFrame] writes for a broadcast header with the zero Receiver: with
    the payload byte "3" (index 55 of the frame) replaced by 0, and with the
    frame as written too, [ReadFrame] panics in the header decoder, which is
    no checksum error. *)
Theorem checksum_mismatch_not_reached :
  wf_header broadcast_to_nobody ∧
  MessageType_IsValid (MessageType_ broadcast_to_nobody) = true ∧
  Flag_IsValid (Flags broadcast_to_nobody) = true ∧
  ProtocolType_IsValid (Protocol broadcast_to_nobody) = true ∧
  tcpConnWrapper.WriteFrame 0 sample_tcp (Some broadcast_to_nobody) check_string
  = (tcpConnWrapper.mk (mkConn [] zero_receiver_frame false) (sample_uuid 3),
     Some (set_Length 9 broadcast_to_nobody), Ok ()) ∧
  length zero_receiver_frame = 66%nat ∧
  payload_start zero_receiver_frame = 53%nat ∧
  take 9 (drop 53 zero_receiver_frame) = check_string ∧
  drop 62 zero_receiver_frame = BigEndian.bytes32 (Checksum check_string) ∧
  Checksum check_string = 0xCBF43926 ∧
  zero_receiver_frame !! 55%nat = Some 51 ∧
  (tcpConnWrapper.ReadFrame (reader (<[55%nat := 0]> zero_receiver_frame))).2
  = Panic PanicSliceBounds ∧
  ¬ fails_with (λ e, e = ErrTCPChecksumMismatch)
      (tcpConnWrapper.ReadFrame (reader (<[55%nat := 0]> zero_receiver_frame))).2 ∧
  (tcpConnWrapper.ReadFrame (reader zero_receiver_frame)).2 = Panic PanicSliceBounds.
Proof.
  split_and!; try (vm_compute; reflexivity).
  - compute_done.
  - vm_compute. tauto.
Qed.
(** * Properties of the rest of the package *)

(** ** Flags and names *)

Lemma log2_byte x : 0 ≤ x < 2 ^ 8 → Z.log2 x < 8.
Proof.
  intros Hx. destruct (decide (x = 0)) as [->|]; [done|].
  apply Z.log2_lt_pow2; lia.
Qed.

Lemma lor_byte a b : is_byte a → is_byte b → is_byte (Z.lor a b).
Proof.
  unfold is_byte. intros Ha Hb. split; [apply Z.lor_nonneg; lia|].
  change 256 with (2 ^ 8) in *.
  destruct (decide (Z.lor a b = 0)) as [->|Hne]; [lia|].
  assert (0 < Z.lor a b) by (pose proof (proj2 (Z.lor_nonneg a b)); lia).
  apply Z.log2_lt_pow2; [done|].
  rewrite Z.log2_lor by lia.
  pose proof (log2_byte a Ha). pose proof (log2_byte b Hb). lia.
Qed.

Lemma ldiff_byte a b : is_byte a → is_byte b → is_byte (Z.ldiff a b).
Proof.
  unfold is_byte. intros Ha Hb. change 256 with (2 ^ 8) in *.
  replace (Z.ldiff a b) with (Z.ldiff a b mod 2 ^ 8); [apply Z.mod_pos_bound; lia|].
  apply Z.bits_inj'. intros n Hn.
  destruct (decide (n < 8)).
  - by rewrite Z.mod_pow2_bits_low by lia.
  - rewrite Z.mod_pow2_bits_high by lia. rewrite Z.ldiff_spec.
    rewrite (Z.bits_above_log2 a n); [done|lia|].
    pose proof (log2_byte a Ha). lia.
Qed.

(** X1: the three flag operations on uint8 values: a flag that was set is
    reported unless it is FlagNone, a flag that was cleared is not reported,
    FlagNone is never reported, and setting and clearing the same flag
    leaves only the later operation. *)
Theorem flag_operations flags flag :
  is_byte flags → is_byte flag →
  is_byte (SetFlag flags flag) ∧ is_byte (ClearFlag flags flag) ∧
  (HasFlag (SetFlag flags flag) flag = true ↔ flag ≠ FlagNone) ∧
  HasFlag (ClearFlag flags flag) flag = false ∧
  HasFlag flags FlagNone = false ∧
  ClearFlag (SetFlag flags flag) flag = ClearFlag flags flag ∧
  SetFlag (ClearFlag flags flag) flag = SetFlag flags flag.
Proof.
  intros Hfs Hf. unfold SetFlag, ClearFlag, HasFlag, FlagNone.
  split_and!.
  - by apply lor_byte.
  - by apply ldiff_byte.
  - replace (Z.land (Z.lor flags flag) flag) with flag.
    + destruct (Z.eqb_spec flag 0); cbn; split; congruence.
    + apply Z.bits_inj'. intros n Hn.
      rewrite Z.land_spec, Z.lor_spec. by destruct (Z.testbit flags n), (Z.testbit flag n).
  - replace (Z.land (Z.ldiff flags flag) flag) with 0; [done|].
    apply Z.bits_inj'. intros n Hn.
    rewrite Z.land_spec, Z.ldiff_spec, Z.bits_0.
    by destruct (Z.testbit flags n), (Z.testbit flag n).
  - by rewrite Z.land_0_r.
  - apply Z.bits_inj'. intros n Hn.
    rewrite !Z.ldiff_spec, Z.lor_spec.
    by destruct (Z.testbit flags n), (Z.testbit flag n).
  - apply Z.bits_inj'. intros n Hn.
    rewrite !Z.lor_spec, Z.ldiff_spec.
    by destruct (Z.testbit flags n), (Z.testbit flag n).
Qed.

Lemma flag_operations_witness :
  is_byte (SetFlag FlagError FlagEncrypted) ∧ is_byte (ClearFlag FlagError FlagEncrypted) ∧
  (HasFlag (SetFlag FlagError FlagEncrypted) FlagEncrypted = true ↔ FlagEncrypted ≠ FlagNone) ∧
  HasFlag (ClearFlag FlagError FlagEncrypted) FlagEncrypted = false ∧
  HasFlag FlagError FlagNone = false ∧
  ClearFlag (SetFlag FlagError FlagEncrypted) FlagEncrypted
  = ClearFlag FlagError FlagEncrypted ∧
  SetFlag (ClearFlag FlagError FlagEncrypted) FlagEncrypted
  = SetFlag FlagError FlagEncrypted.
Proof. apply (flag_operations FlagError FlagEncrypted); compute_done. Defined.

(** X2: on uint8 values, String answers with the name of a constant exactly
    when IsValid holds, and with the Invalid name otherwise: for message
    types, flags and protocol types alike. *)
Theorem String_invalid_iff_not_IsValid v :
  is_byte v →
  (MessageType_String v = "InvalidMessageType" ↔ MessageType_IsValid v = false) ∧
  (Flag_String v = "InvalidFlag" ↔ Flag_IsValid v = false) ∧
  (ProtocolType_String v = "InvalidProtocol" ↔ ProtocolType_IsValid v = false).
Proof.
  intros Hv. unfold is_byte in Hv.
  assert (v = 0 ∨ v = 1 ∨ v = 2 ∨ v = 3 ∨ v = 4 ∨ 5 ≤ v) as Hc by lia.
  destruct Hc as [->|[->|[->|[->|[->|Hc]]]]]; [by vm_compute..|].
  unfold MessageType_String, Flag_String, ProtocolType_String,
    MessageType_IsValid, Flag_IsValid, ProtocolType_IsValid,
    MessageTypeUnknown, MessageTypeData, MessageTypeBroadcast, MessageTypeHeartbeat,
    FlagNone, FlagACK, FlagError, FlagCompressed, FlagEncrypted,
    ProtocolTCP, ProtocolUDP.
  rewrite !decide_False by lia. rewrite !bool_decide_eq_false_2 by lia. done.
Qed.

Lemma String_invalid_iff_not_IsValid_witness :
  (MessageType_String 4 = "InvalidMessageType" ↔ MessageType_IsValid 4 = false) ∧
  (Flag_String 4 = "InvalidFlag" ↔ Flag_IsValid 4 = false) ∧
  (ProtocolType_String 4 = "InvalidProtocol" ↔ ProtocolType_IsValid 4 = false).
Proof. apply (String_invalid_iff_not_IsValid 4). compute_done. Defined.

(** ** The header encoder *)

(** X3: HeaderEncode refuses the nil header with an error and encodes every
    other header without error or panic, into 52, 56, 68 or 72 bytes:
    the header's own HeaderSize, which never reaches the constant
    HeaderSize = 76 of constants.go. *)
Theorem HeaderEncode_total now :
  HeaderEncode now None = Err ErrNilHeader ∧
  ∀ h, ∃ h' bytes,
    HeaderEncode now (Some h) = Ok (h', bytes) ∧
    length bytes = HeaderSize h' ∧
    HeaderSize h' = HeaderSize h ∧
    (length bytes = 52 ∨ length bytes = 56 ∨ length bytes = 68 ∨ length bytes = 72)%nat ∧
    (length bytes < HeaderSizeConst)%nat.
Proof.
  split; [reflexivity|]. intros h.
  destruct (HeaderEncode_Ok now h) as (bytes & HE & Hlen).
  exists (SetTimestampIfZero now h), bytes.
  assert (Hsz : HeaderSize (SetTimestampIfZero now h) = HeaderSize h).
  { rewrite !HeaderSize_cases.
    destruct (SetTimestampIfZero_other now h) as (_&_&E2&_&_&E5&_&E7&_).
    unfold IsBroadcast. cbn zeta in *. by rewrite E2, E5, E7. }
  split_and!; [done..| |].
  - rewrite Hlen, Hsz, HeaderSize_cases.
    destruct (IsBroadcast h), (decide _); lia.
  - rewrite Hlen, Hsz, HeaderSize_cases. unfold HeaderSizeConst.
    destruct (IsBroadcast h), (decide _); lia.
Qed.

(** ** The header decoder *)

Lemma copy_full (dst src : list byte) : length src = length dst → copy dst src = src.
Proof.
  intros Hl. unfold copy. rewrite <- Hl, firstn_all.
  pose proof (list_inserts_at_end [] src dst [] Hl) as H.
  cbn [length app] in H. by rewrite !app_nil_r in H.
Qed.

Lemma take_drop_backing data lo n :
  (lo + n ≤ len data)%nat →
  take n (drop lo (backing data)) = take n (drop lo (elems data)).
Proof.
  intros Hl. unfold backing, len in *.
  rewrite drop_app_le by lia. rewrite take_app_le; [done|].
  rewrite length_drop. lia.
Qed.

Ltac header_fields :=
  cbn [mbind result_mbind result_bind MessageType_ Protocol
       set_ID set_Sender set_Receiver set_Timestamp set_Length set_Sequence
       set_Protocol set_Flags set_MessageType set_Router ID Sender Receiver zero_header
       Timestamp Length Sequence Flags Router].

Lemma HeaderDecode_run data :
  (52 ≤ len data ≤ 72)%nat →
  ∃ ts ln fl mt rt pr,
    BigEndian.Uint64 (take 8 (drop 32 (elems data))) = Ok ts ∧
    BigEndian.Uint64 (take 8 (drop 40 (elems data))) = Ok ln ∧
    elems data !! 48%nat = Some fl ∧ elems data !! 49%nat = Some mt ∧
    elems data !! 50%nat = Some rt ∧ elems data !! 51%nat = Some pr ∧
    let need := (52 + (if decide (mt = MessageTypeBroadcast) then 16 else 0)
                    + (if decide (pr = ProtocolUDP) then 4 else 0))%nat in
    ((cap data < need)%nat → HeaderDecode data = Panic PanicSliceBounds) ∧
    ((need ≤ cap data)%nat → need ≠ len data →
     HeaderDecode data = Err (ErrHeaderSizeMismatch (Z.of_nat need - 1) (len data))) ∧
    (need = len data →
     ∃ sq,
       (if decide (pr = ProtocolUDP)
        then BigEndian.Uint32 (drop (need - 4) (elems data)) = Ok sq
        else sq = 0) ∧
       HeaderDecode data
       = Ok (mkHeader (take 16 (elems data)) (take 16 (drop 16 (elems data)))
               (if decide (mt = MessageTypeBroadcast)
                then take 16 (drop 52 (elems data)) else uuid_Nil)
               ts ln sq pr fl mt rt)).
Proof.
  intros Hlen.
  assert (Hcap : (len data ≤ cap data)%nat) by (unfold len, cap; lia).
  assert (Hl : ∀ lo n, (lo + n ≤ len data)%nat →
               length (take n (drop lo (elems data))) = n).
  { intros lo n Hn. unfold len in *. rewrite length_take, length_drop. lia. }
  assert (Hb : ∀ lo n, (lo + n ≤ cap data)%nat →
               length (take n (drop lo (backing data))) = n).
  { intros lo n Hn. unfold cap, backing in *.
    rewrite length_take, length_drop, length_app. lia. }
  destruct (Uint64_Ok_8 (take 8 (drop 32 (elems data)))) as [ts Hts]; [apply Hl; lia|].
  destruct (Uint64_Ok_8 (take 8 (drop 40 (elems data)))) as [ln Hln]; [apply Hl; lia|].
  destruct (lookup_lt_is_Some_2 (elems data) 48) as [fl Hfl]; [unfold len in *; lia|].
  destruct (lookup_lt_is_Some_2 (elems data) 49) as [mt Hmt]; [unfold len in *; lia|].
  destruct (lookup_lt_is_Some_2 (elems data) 50) as [rt Hrt]; [unfold len in *; lia|].
  destruct (lookup_lt_is_Some_2 (elems data) 51) as [pr Hpr]; [unfold len in *; lia|].
  exists ts, ln, fl, mt, rt, pr. split_and!; [done..|].
  intros need.
  assert (HD : HeaderDecode data
    = '(h, offset) ←
        (if decide (mt = MessageTypeBroadcast)
         then s ← slice_sub data 52 68;
              Ok (mkHeader (take 16 (elems data)) (take 16 (drop 16 (elems data)))
                    (copy uuid_Nil s) ts ln 0 pr fl mt rt, 68%nat)
         else Ok (mkHeader (take 16 (elems data)) (take 16 (drop 16 (elems data)))
                    uuid_Nil ts ln 0 pr fl mt rt, 52%nat));
      '(h, offset) ←
        (if decide (Protocol h = ProtocolUDP)
         then s ← slice_sub data offset (offset + 4);
              v ← BigEndian.Uint32 s;
              Ok (set_Sequence v h, (offset + 4)%nat)
         else Ok (h, offset));
      if decide (offset ≠ len data)
      then Err (ErrHeaderSizeMismatch (to_uint32 (Z.of_nat offset - 1)) (len data))
      else Ok h).
  { unfold HeaderDecode. cbn zeta.
    rewrite (decide_False (P := (len data < _ ∨ _ < len data)%nat)) by lia. cbn [Nat.add].
    rewrite (slice_sub_Ok data 0 16), (slice_sub_Ok data 16 32),
      (slice_sub_Ok data 32 40), (slice_sub_Ok data 40 48) by lia.
    cbn [mbind result_mbind result_bind Nat.sub].
    rewrite !take_drop_backing by lia.
    rewrite Hts, Hln. unfold slice_index. rewrite Hfl, Hmt, Hrt, Hpr.
    header_fields.
    rewrite !copy_full by (rewrite Hl by lia; reflexivity).
    rewrite drop_0. reflexivity. }
  rewrite HD. clear HD. subst need.
  destruct (decide (mt = MessageTypeBroadcast)) as [Em|Em];
    destruct (decide (pr = ProtocolUDP)) as [Ep|Ep]; cbv beta iota;
    repeat first [rewrite decide_True by done | rewrite decide_False by done];
    (split_and!; [intros Hneed|intros Hneed Hne|intros Hneed]).
  - destruct (decide (cap data < 68)%nat).
    + by rewrite (slice_sub_Panic data 52 68) by lia.
    + rewrite (slice_sub_Ok data 52 68) by lia. header_fields.
      rewrite decide_True by done.
      by rewrite (slice_sub_Panic data 68 (68 + 4)) by lia.
  - rewrite (slice_sub_Ok data 52 68) by lia. header_fields.
    rewrite decide_True by done.
    rewrite (slice_sub_Ok data 68 (68 + 4)) by lia. header_fields.
    destruct (Uint32_Ok_4 (take (68 + 4 - 68) (drop 68 (backing data)))) as [sq ->];
      [apply Hb; lia|].
    header_fields. rewrite decide_True by lia. done.
  - rewrite (slice_sub_Ok data 52 68) by lia. header_fields.
    rewrite decide_True by done.
    rewrite (slice_sub_Ok data 68 (68 + 4)) by lia. header_fields.
    rewrite !take_drop_backing by lia.
    destruct (Uint32_Ok_4 (take (68 + 4 - 68) (drop 68 (elems data)))) as [sq Hsq];
      [apply Hl; lia|].
    rewrite Hsq. header_fields. rewrite decide_False by lia.
    exists sq. split.
    + rewrite decide_True by done.
      rewrite <- Hsq. f_equal. cbn [Nat.add Nat.sub]. rewrite take_ge; [done|].
      unfold len in *. rewrite length_drop. lia.
    + cbn [Nat.sub]. rewrite copy_full by (rewrite Hl by lia; reflexivity). done.
  - by rewrite (slice_sub_Panic data 52 68) by lia.
  - rewrite (slice_sub_Ok data 52 68) by lia. header_fields.
    rewrite decide_False by done. header_fields.
    rewrite decide_True by lia. done.
  - rewrite (slice_sub_Ok data 52 68) by lia. header_fields.
    rewrite decide_False by done. header_fields.
    rewrite decide_False by lia.
    rewrite !take_drop_backing by lia.
    exists 0. split; [by rewrite decide_False by done|].
    cbn [Nat.sub]. rewrite copy_full by (rewrite Hl by lia; reflexivity). done.
  - header_fields. rewrite decide_True by done.
    by rewrite (slice_sub_Panic data 52 (52 + 4)) by lia.
  - header_fields. rewrite decide_True by done.
    rewrite (slice_sub_Ok data 52 (52 + 4)) by lia. header_fields.
    destruct (Uint32_Ok_4 (take (52 + 4 - 52) (drop 52 (backing data)))) as [sq ->];
      [apply Hb; lia|].
    header_fields. rewrite decide_True by lia. done.
  - header_fields. rewrite decide_True by done.
    rewrite (slice_sub_Ok data 52 (52 + 4)) by lia. header_fields.
    rewrite !take_drop_backing by lia.
    destruct (Uint32_Ok_4 (take (52 + 4 - 52) (drop 52 (elems data)))) as [sq Hsq];
      [apply Hl; lia|].
    rewrite Hsq. header_fields. rewrite decide_False by lia.
    exists sq. split; [|done]. rewrite decide_True by done.
    rewrite <- Hsq. f_equal. cbn [Nat.add Nat.sub]. rewrite take_ge; [done|].
    unfold len in *. rewrite length_drop. lia.
  - lia.
  - header_fields. rewrite decide_False by done. header_fields.
    rewrite decide_True by lia. done.
  - header_fields. rewrite decide_False by done. header_fields.
    rewrite decide_False by lia. exists 0. by rewrite decide_False by done.
Qed.

Lemma bytes32_Uint32 s v :
  length s = 4%nat → wf_bytes s → BigEndian.Uint32 s = Ok v →
  is_uint32 v ∧ BigEndian.bytes32 v = s.
Proof.
  intros Hl Hwf H. explode s Hl.
  apply Forall_cons in Hwf as [H0 Hwf]. apply Forall_cons in Hwf as [H1 Hwf].
  apply Forall_cons in Hwf as [H2 Hwf]. apply Forall_cons in Hwf as [H3 _].
  rewrite Uint32_value in H by done. injection H as <-.
  unfold is_byte, is_uint32 in *. split; [lia|].
  unfold BigEndian.bytes32, to_byte. rewrite !Z.shiftr_div_pow2 by lia.
  repeat f_equal; Z.div_mod_to_equations; lia.
Qed.

Lemma bytes64_Uint64 s v :
  length s = 8%nat → wf_bytes s → BigEndian.Uint64 s = Ok v →
  is_uint64 v ∧ BigEndian.bytes64 v = s.
Proof.
  intros Hl Hwf H. explode s Hl.
  apply Forall_cons in Hwf as [H0 Hwf]. apply Forall_cons in Hwf as [H1 Hwf].
  apply Forall_cons in Hwf as [H2 Hwf]. apply Forall_cons in Hwf as [H3 Hwf].
  apply Forall_cons in Hwf as [H4 Hwf]. apply Forall_cons in Hwf as [H5 Hwf].
  apply Forall_cons in Hwf as [H6 Hwf]. apply Forall_cons in Hwf as [H7 _].
  rewrite Uint64_value in H by done. injection H as <-.
  unfold is_byte, is_uint64 in *. split; [lia|].
  unfold BigEndian.bytes64, to_byte. rewrite !Z.shiftr_div_pow2 by lia.
  repeat f_equal; Z.div_mod_to_equations; lia.
Qed.

(** X4: decoding what HeaderEncode wrote gives every field back, whatever the
    capacity of the slice: the Timestamp as the encoder stamped it, the
    Receiver only for a broadcast and the Sequence only for a datagram
    (they are zero otherwise). The one header left out is the broadcast
    whose Receiver is the zero identifier. *)
Theorem HeaderDecode_after_HeaderEncode now h extra :
  wf_header h →
  ¬ (MessageType_ h = MessageTypeBroadcast ∧ Receiver h = uuid_Nil) →
  ∃ h' bytes d,
    HeaderEncode now (Some h) = Ok (h', bytes) ∧
    HeaderDecode (mkSlice bytes extra) = Ok d ∧
    ID d = ID h ∧ Sender d = Sender h ∧
    Timestamp d = (if decide (Timestamp h = 0) then to_uint64 now else Timestamp h) ∧
    Length d = Length h ∧ Flags d = Flags h ∧ MessageType_ d = MessageType_ h ∧
    Router d = Router h ∧ Protocol d = Protocol h ∧
    Receiver d
    = (if decide (MessageType_ h = MessageTypeBroadcast) then Receiver h else uuid_Nil) ∧
    Sequence d = (if decide (Protocol h = ProtocolUDP) then Sequence h else 0).
Proof.
  intros Hwf Hnd.
  destruct (HeaderDecode_HeaderEncode now h extra Hwf Hnd) as (bytes & HE & HD).
  exists (SetTimestampIfZero now h), bytes, (on_wire (SetTimestampIfZero now h)).
  destruct (SetTimestampIfZero_other now h) as (E1&E2&E3&E4&E5&E6&E7&E8&E9).
  cbn zeta in *.
  split_and!; [done..| | | | | | | | | | ];
    unfold on_wire; rewrite IsBroadcast_decide; header_fields; try done.
  - unfold SetTimestampIfZero. by destruct (decide (Timestamp h = 0)).
  - rewrite E8, E3.
    destruct (decide (MessageType_ h = MessageTypeBroadcast)) as [Em|Em].
    + rewrite decide_True; [done|]. split; [done|]. intros Hr. by apply Hnd.
    + rewrite decide_False; [done|]. tauto.
  - rewrite E6, E5. done.
Qed.

Lemma HeaderDecode_after_HeaderEncode_witness :
  ∃ h' bytes d,
    HeaderEncode 0 (Some sample_header) = Ok (h', bytes) ∧
    HeaderDecode (mkSlice bytes [1; 2; 3]) = Ok d ∧
    ID d = ID sample_header ∧ Sender d = Sender sample_header ∧
    Timestamp d = (if decide (Timestamp sample_header = 0)
                   then to_uint64 0 else Timestamp sample_header) ∧
    Length d = Length sample_header ∧ Flags d = Flags sample_header ∧
    MessageType_ d = MessageType_ sample_header ∧
    Router d = Router sample_header ∧ Protocol d = Protocol sample_header ∧
    Receiver d
    = (if decide (MessageType_ sample_header = MessageTypeBroadcast)
       then Receiver sample_header else uuid_Nil) ∧
    Sequence d
    = (if decide (Protocol sample_header = ProtocolUDP)
       then Sequence sample_header else 0).
Proof.
  apply (HeaderDecode_after_HeaderEncode 0 sample_header [1; 2; 3]).
  - compute_done.
  - compute_done.
Defined.

Ltac settle_outcome :=
  unfold is_Ok; repeat split; intros;
  repeat match goal with
         | H : _ ∧ _ |- _ => destruct H
         | H : ∃ _, _ |- _ => destruct H
         end;
  first [done | lia | congruence | by eexists].

(** X5: the decoder on an input of 52 to 72 bytes, by the MessageType byte
    (index 49) and the Protocol byte (index 51): with [need] the length
    these two bytes announce, it panics exactly when the capacity is below
    [need], reports a size mismatch (naming [need - 1]) exactly when the
    capacity suffices and the length differs, and returns a header exactly
    when the length is [need]. *)
Theorem HeaderDecode_outcome data mt pr :
  (52 ≤ len data ≤ 72)%nat →
  elems data !! 49%nat = Some mt → elems data !! 51%nat = Some pr →
  let need := (52 + (if decide (mt = MessageTypeBroadcast) then 16 else 0)
                  + (if decide (pr = ProtocolUDP) then 4 else 0))%nat in
  (HeaderDecode data = Panic PanicSliceBounds ↔ (cap data < need)%nat) ∧
  (HeaderDecode data = Err (ErrHeaderSizeMismatch (Z.of_nat need - 1) (len data))
   ↔ (need ≤ cap data)%nat ∧ need ≠ len data) ∧
  (is_Ok (HeaderDecode data) ↔ need = len data) ∧
  (∀ p, HeaderDecode data = Panic p → p = PanicSliceBounds) ∧
  (∀ e, HeaderDecode data = Err e
        → e = ErrHeaderSizeMismatch (Z.of_nat need - 1) (len data)).
Proof.
  intros Hlen Hmt Hpr need.
  destruct (HeaderDecode_run data Hlen)
    as (ts & ln & fl & mt' & rt & pr' & _ & _ & _ & Hmt' & _ & Hpr' & HP & HE & HO).
  assert (mt' = mt) as -> by congruence. assert (pr' = pr) as -> by congruence.
  cbn zeta in HP, HE, HO. fold need in HP, HE, HO.
  assert (Hcap : (len data ≤ cap data)%nat) by (unfold len, cap; lia).
  destruct (decide (cap data < need)%nat) as [Hc|Hc].
  { rewrite (HP Hc). settle_outcome. }
  destruct (decide (need = len data)) as [Hn|Hn].
  { destruct (HO Hn) as (sq & _ & ->). settle_outcome. }
  rewrite (HE ltac:(lia) Hn). settle_outcome.
Qed.

Lemma HeaderDecode_outcome_witness :
  let data := mkSlice truncated_broadcast (replicate 16 0) in
  let need := (52 + (if decide (MessageTypeBroadcast = MessageTypeBroadcast) then 16 else 0)
                  + (if decide (ProtocolTCP = ProtocolUDP) then 4 else 0))%nat in
  (HeaderDecode data = Panic PanicSliceBounds ↔ (cap data < need)%nat) ∧
  (HeaderDecode data = Err (ErrHeaderSizeMismatch (Z.of_nat need - 1) (len data))
   ↔ (need ≤ cap data)%nat ∧ need ≠ len data) ∧
  (is_Ok (HeaderDecode data) ↔ need = len data) ∧
  (∀ p, HeaderDecode data = Panic p → p = PanicSliceBounds) ∧
  (∀ e, HeaderDecode data = Err e
        → e = ErrHeaderSizeMismatch (Z.of_nat need - 1) (len data)).
Proof.
  apply (HeaderDecode_outcome (mkSlice truncated_broadcast (replicate 16 0))
           MessageTypeBroadcast ProtocolTCP).
  - compute_done.
  - reflexivity.
  - reflexivity.
Defined.

(** X6: the size check of the decoder: an input shorter than 52 or longer than
    72 bytes (the empty and the nil slice too) is refused with the
    invalid-size error and never panics, no other input gets this error, and
    a slice with capacity for 72 bytes never makes the decoder panic. *)
Theorem HeaderDecode_size_check data :
  (HeaderDecode data = Err (ErrInvalidHeaderSize (len data) 52 72)
   ↔ (len data < 52 ∨ 72 < len data)%nat) ∧
  (∀ e, HeaderDecode data = Err e →
        e = ErrInvalidHeaderSize (len data) 52 72
        ∨ ∃ got, e = ErrHeaderSizeMismatch got (len data)) ∧
  (∀ p, HeaderDecode data = Panic p → (52 ≤ len data ≤ cap data)%nat ∧ (cap data < 72)%nat).
Proof.
  assert (Hcap : (len data ≤ cap data)%nat) by (unfold len, cap; lia).
  destruct (decide (len data < 52 ∨ 72 < len data)%nat) as [Hout|Hin].
  { rewrite (HeaderDecode_size_rejected data Hout).
    split_and!; [done| |discriminate].
    intros e [= <-]. by left. }
  assert (Hlen : (52 ≤ len data ≤ 72)%nat) by lia.
  destruct (HeaderDecode_run data Hlen)
    as (ts & ln & fl & mt & rt & pr & _ & _ & _ & Hmt & _ & Hpr & HP & HE & HO).
  cbn zeta in HP, HE, HO.
  set (need := (52 + _ + _)%nat) in *.
  split_and!.
  - split; [|tauto]. intros H. exfalso.
    destruct (decide (cap data < need)%nat) as [Hc|Hc]; [rewrite (HP Hc) in H; done|].
    destruct (decide (need = len data)) as [Hn|Hn].
    + destruct (HO Hn) as (sq & _ & HD). rewrite HD in H. done.
    + rewrite (HE ltac:(lia) Hn) in H. done.
  - intros e H. right.
    destruct (decide (cap data < need)%nat) as [Hc|Hc]; [rewrite (HP Hc) in H; done|].
    destruct (decide (need = len data)) as [Hn|Hn].
    + destruct (HO Hn) as (sq & _ & HD). rewrite HD in H. done.
    + rewrite (HE ltac:(lia) Hn) in H. injection H as <-. by eexists.
  - intros p H. split; [lia|].
    destruct (decide (cap data < 72)%nat) as [|Hc]; [done|].
    by apply (HeaderDecode_no_panic data p) in H; [|lia].
Qed.

(** The decoder accepts only what the encoder writes. *)
Lemma HeaderDecode_canonical now data h :
  wf_bytes (elems data) →
  HeaderDecode data = Ok h →
  Timestamp h ≠ 0 →
  ¬ (MessageType_ h = MessageTypeBroadcast ∧ Receiver h = uuid_Nil) →
  wf_header h ∧ HeaderEncode now (Some h) = Ok (h, elems data).
Proof.
  intros Hwf HD Hts Hnd.
  pose proof (HeaderDecode_Ok_len _ _ HD) as Hlen.
  destruct (HeaderDecode_run data Hlen)
    as (ts & ln & fl & mt & rt & pr & Ets & Eln & Efl & Emt & Ert & Epr & HP & HE & HO).
  cbn zeta in HP, HE, HO.
  set (need := (52 + _ + _)%nat) in *.
  assert (Hcap : (len data ≤ cap data)%nat) by (unfold len, cap; lia).
  assert (Hn : need = len data).
  { destruct (decide (need = len data)) as [|Hn]; [done|].
    destruct (decide (cap data < need)%nat) as [Hc|Hc]; [rewrite (HP Hc) in HD; done|].
    rewrite (HE ltac:(lia) Hn) in HD. done. }
  destruct (HO Hn) as (sq & Esq & HD'). rewrite HD' in HD. injection HD as <-.
  clear HP HE HO HD'. cbn [MessageType_ Receiver Timestamp] in Hnd, Hts.
  set (e := elems data) in *. unfold len in *. fold e in Hlen, Hn.
  assert (Hsub : ∀ lo n, wf_bytes (take n (drop lo e))).
  { intros. by apply Forall_take, Forall_drop. }
  assert (Hl : ∀ lo n, (lo + n ≤ length e)%nat → length (take n (drop lo e)) = n).
  { intros lo n Hx. rewrite length_take, length_drop. lia. }
  destruct (bytes64_Uint64 _ _ (Hl 32%nat 8%nat ltac:(lia)) (Hsub 32%nat 8%nat) Ets)
    as [Rts Bts].
  destruct (bytes64_Uint64 _ _ (Hl 40%nat 8%nat ltac:(lia)) (Hsub 40%nat 8%nat) Eln)
    as [Rln Bln].
  assert (Bfl : is_byte fl) by (eapply Forall_lookup_1; [exact Hwf|exact Efl]).
  assert (Bmt : is_byte mt) by (eapply Forall_lookup_1; [exact Hwf|exact Emt]).
  assert (Brt : is_byte rt) by (eapply Forall_lookup_1; [exact Hwf|exact Ert]).
  assert (Bpr : is_byte pr) by (eapply Forall_lookup_1; [exact Hwf|exact Epr]).
  assert (Hsq : is_uint32 sq ∧
                (if decide (pr = ProtocolUDP) then BigEndian.bytes32 sq else [])
                = drop (52 + (if decide (mt = MessageTypeBroadcast) then 16 else 0)) e).
  { subst need. revert Esq Hn.
    destruct (decide (pr = ProtocolUDP)) as [Ep|Ep]; intros Esq Hn.
    - replace (52 + (if decide (mt = MessageTypeBroadcast) then 16 else 0) + 4 - 4)%nat
        with (52 + (if decide (mt = MessageTypeBroadcast) then 16 else 0))%nat in Esq by lia.
      apply bytes32_Uint32 in Esq; [done| |by apply Forall_drop].
      rewrite length_drop. lia.
    - subst sq. split; [unfold is_uint32; lia|].
      symmetry. apply drop_ge. lia. }
  destruct Hsq as [Rsq Bsq].
  assert (Hrc : wf_uuid (if decide (mt = MessageTypeBroadcast)
                         then take 16 (drop 52 e) else uuid_Nil)).
  { destruct (decide (mt = MessageTypeBroadcast)) as [Em|Em].
    - split; [|apply Hsub]. apply Hl. subst need. revert Hn.
      rewrite ?(decide_True (P := mt = MessageTypeBroadcast)) by done.
      destruct (decide (pr = ProtocolUDP)); lia.
    - compute_done. }
  assert (Hwfh : wf_header
            (mkHeader (take 16 e) (take 16 (drop 16 e))
               (if decide (mt = MessageTypeBroadcast) then take 16 (drop 52 e) else uuid_Nil)
               ts ln sq pr fl mt rt)).
  { unfold wf_header. header_fields. cbn [MessageType_ Protocol].
    split_and!; try done.
    - split; [rewrite length_take; lia|by apply Forall_take].
    - split; [apply Hl; lia|apply Hsub]. }
  split; [exact Hwfh|].
  destruct Hwfh as ((L1&_)&(L2&_)&(L3&_)&_).
  pose proof (HeaderEncode_bytes now _ L1 L2 L3) as HEb. cbn zeta in HEb.
  unfold SetTimestampIfZero in HEb. header_fields.
  cbn [Timestamp] in HEb. rewrite !(decide_False (P := ts = 0)) in HEb by done.
  rewrite HEb. clear HEb. f_equal. f_equal.
  rewrite IsBroadcast_decide. header_fields. cbn [MessageType_ Protocol Receiver].
  rewrite !to_byte_id by done.
  rewrite Bts, Bln, Bsq.
  assert (Hctl : drop 48 e = fl :: mt :: rt :: pr :: drop 52 e).
  { rewrite (drop_S (A:=byte) e fl 48 Efl), (drop_S (A:=byte) e mt 49 Emt),
      (drop_S (A:=byte) e rt 50 Ert), (drop_S (A:=byte) e pr 51 Epr).
    done. }
  assert (He : take 16 e ++ take 16 (drop 16 e) ++ take 8 (drop 32 e)
               ++ take 8 (drop 40 e) ++ drop 48 e = e).
  { replace (drop 48 e) with (drop 8 (drop 40 e)) by (by rewrite drop_drop).
    rewrite take_drop.
    replace (drop 40 e) with (drop 8 (drop 32 e)) by (by rewrite drop_drop).
    rewrite take_drop.
    replace (drop 32 e) with (drop 16 (drop 16 e)) by (by rewrite drop_drop).
    rewrite take_drop. apply take_drop. }
  etrans; [|exact He]. do 4 f_equal. rewrite Hctl. cbn [app]. do 4 f_equal.
  destruct (decide (mt = MessageTypeBroadcast)) as [Em|Em].
  - rewrite decide_True.
    + rewrite <- drop_drop. apply take_drop.
    + split; [done|]. intros Hr. by apply Hnd.
  - rewrite decide_False by tauto. by rewrite Nat.add_0_r.
Qed.

(** X7: encoding a header the decoder returned gives the decoder's input
    back, byte for byte, and leaves the header as it is, and the length of
    that input is the header's HeaderSize: when the input holds bytes, the
    decoded Timestamp is not zero and the header is not a broadcast with the
    zero Receiver. *)
Theorem HeaderEncode_after_HeaderDecode now data h :
  wf_bytes (elems data) →
  HeaderDecode data = Ok h →
  Timestamp h ≠ 0 →
  ¬ (MessageType_ h = MessageTypeBroadcast ∧ Receiver h = uuid_Nil) →
  wf_header h ∧ HeaderEncode now (Some h) = Ok (h, elems data) ∧
  len data = HeaderSize h.
Proof.
  intros Hwf HD Hts Hnd.
  destruct (HeaderDecode_canonical now data h Hwf HD Hts Hnd) as [Hwfh HE].
  split_and!; [done..|].
  destruct (HeaderEncode_Ok now h) as (bytes & HE' & Hlen).
  rewrite HE in HE'. injection HE' as Hh <-.
  unfold len. rewrite Hlen. by rewrite <- Hh.
Qed.

Lemma HeaderEncode_after_HeaderDecode_witness :
  wf_header (on_wire sample_header) ∧
  HeaderEncode 5 (Some (on_wire sample_header))
  = Ok (on_wire sample_header, elems (mkSlice sample_header_bytes [7; 7])) ∧
  len (mkSlice sample_header_bytes [7; 7]) = HeaderSize (on_wire sample_header).
Proof.
  apply (HeaderEncode_after_HeaderDecode 5 (mkSlice sample_header_bytes [7; 7])
           (on_wire sample_header)).
  - compute_done.
  - vm_compute. reflexivity.
  - discriminate.
  - compute_done.
Defined.

(** X8: every broadcast header with the zero Receiver, whatever its other
    fields: the encoder leaves the Receiver block out, and the decoder, led
    by the MessageType byte to read one, panics on the encoder's buffer and
    reports a size mismatch when the slice has capacity to spare. *)
Theorem HeaderDecode_zero_receiver_broadcast now h extra :
  wf_header h →
  MessageType_ h = MessageTypeBroadcast → Receiver h = uuid_Nil →
  ∃ h' bytes,
    HeaderEncode now (Some h) = Ok (h', bytes) ∧
    length bytes = (if decide (Protocol h = ProtocolUDP) then 56 else 52)%nat ∧
    HeaderDecode (slice_of bytes) = Panic PanicSliceBounds ∧
    ((16 ≤ length extra)%nat →
     HeaderDecode (mkSlice bytes extra)
     = Err (ErrHeaderSizeMismatch
              (if decide (Protocol h = ProtocolUDP) then 71 else 67) (length bytes))).
Proof.
  intros Hwf Hmt Hr.
  destruct (HeaderEncode_Ok now h) as (bytes & HE & Hlen).
  exists (SetTimestampIfZero now h), bytes. split; [done|].
  destruct (SetTimestampIfZero_other now h) as (_&_&E3&_&_&E6&E7&E8&_).
  cbn zeta in *.
  pose proof Hwf as ((L1&_)&(L2&_)&(L3&_)&_&_&_&Bpr&_&Bmt&_).
  pose proof (HeaderEncode_bytes now h L1 L2 L3) as HEb. cbn zeta in HEb.
  assert (Hnb : IsBroadcast (SetTimestampIfZero now h) = false).
  { unfold IsBroadcast. rewrite E3, Hr.
    rewrite (bool_decide_eq_true_2 (uuid_Nil = uuid_Nil)) by done.
    by rewrite andb_false_r. }
  rewrite HeaderSize_cases, Hnb, E6 in Hlen.
  assert (Hlen' : length bytes = (if decide (Protocol h = ProtocolUDP) then 56 else 52)%nat).
  { rewrite Hlen. by destruct (decide _). }
  split; [done|].
  assert (Hctl : bytes !! 49%nat = Some MessageTypeBroadcast
                 ∧ bytes !! 51%nat = Some (Protocol h)).
  { match type of HEb with
    | _ = Ok (_, ?e) => assert (bytes = e) as -> by congruence
    end.
    destruct (SetTimestampIfZero_other now h) as (->&->&_).
    rewrite E8, E6, Hmt.
    split.
    - rewrite (lookup_app_r (ID h)) by (rewrite L1; lia). rewrite L1.
      rewrite (lookup_app_r (Sender h)) by (rewrite L2; lia). rewrite L2.
      rewrite (lookup_app_r (BigEndian.bytes64 _)) by (unfold BigEndian.bytes64; cbn [length]; lia).
      rewrite (lookup_app_r (BigEndian.bytes64 _)) by (unfold BigEndian.bytes64; cbn [length]; lia).
      reflexivity.
    - rewrite (lookup_app_r (ID h)) by (rewrite L1; lia). rewrite L1.
      rewrite (lookup_app_r (Sender h)) by (rewrite L2; lia). rewrite L2.
      rewrite (lookup_app_r (BigEndian.bytes64 _)) by (unfold BigEndian.bytes64; cbn [length]; lia).
      rewrite (lookup_app_r (BigEndian.bytes64 _)) by (unfold BigEndian.bytes64; cbn [length]; lia).
      cbn. by rewrite to_byte_id. }
  destruct Hctl as [H49 H51].
  assert (Hrun : ∀ ex,
    let data := mkSlice bytes ex in
    ((cap data < 68 + (if decide (Protocol h = ProtocolUDP) then 4 else 0))%nat →
     HeaderDecode data = Panic PanicSliceBounds) ∧
    ((68 + (if decide (Protocol h = ProtocolUDP) then 4 else 0) ≤ cap data)%nat →
     HeaderDecode data
     = Err (ErrHeaderSizeMismatch
              (Z.of_nat (68 + (if decide (Protocol h = ProtocolUDP) then 4 else 0)) - 1)
              (len data)))).
  { intros ex. cbn zeta.
    destruct (HeaderDecode_run (mkSlice bytes ex))
      as (ts & ln & fl & mt & rt & pr & _ & _ & _ & Hmt' & _ & Hpr' & HP & HEr & _).
    { unfold len. cbn [elems]. rewrite Hlen'. destruct (decide _); lia. }
    cbn [elems] in Hmt', Hpr'.
    assert (mt = MessageTypeBroadcast) as -> by congruence.
    assert (pr = Protocol h) as -> by congruence.
    cbn zeta in HP, HEr. rewrite decide_True in HP, HEr by done.
    split; [exact HP|].
    intros Hc. apply HEr; [done|].
    unfold len. cbn [elems]. rewrite Hlen'. destruct (decide _); lia. }
  split.
  - destruct (Hrun []) as (HP & _). apply HP.
    unfold cap, slice_of. cbn [elems spare length]. rewrite Hlen'.
    destruct (decide _); lia.
  - intros Hex. destruct (Hrun extra) as (_ & HEr).
    cbn zeta in HEr. rewrite HEr.
    + unfold len. cbn [elems]. by destruct (decide (Protocol h = ProtocolUDP)).
    + unfold cap. cbn [elems spare]. rewrite Hlen'. destruct (decide _); lia.
Qed.

Lemma HeaderDecode_zero_receiver_broadcast_witness :
  ∃ h' bytes,
    HeaderEncode 0 (Some broadcast_to_nobody) = Ok (h', bytes) ∧
    length bytes = (if decide (Protocol broadcast_to_nobody = ProtocolUDP) then 56 else 52)%nat ∧
    HeaderDecode (slice_of bytes) = Panic PanicSliceBounds ∧
    ((16 ≤ length (replicate 16 0))%nat →
     HeaderDecode (mkSlice bytes (replicate 16 0))
     = Err (ErrHeaderSizeMismatch
              (if decide (Protocol broadcast_to_nobody = ProtocolUDP) then 71 else 67)
              (length bytes))).
Proof.
  apply (HeaderDecode_zero_receiver_broadcast 0 broadcast_to_nobody (replicate 16 0)).
  - compute_done.
  - reflexivity.
  - reflexivity.
Defined.

(** ** The checksum *)

(** X9: the checksum is a uint32, and replacing any one byte of the payload
    by a different byte changes it; appending different bytes to the same
    payload gives different checksums as well. *)
Theorem Checksum_detects_one_byte payload :
  wf_bytes payload →
  is_uint32 (Checksum payload) ∧
  (∀ i a b, payload !! i = Some a → is_byte b → a ≠ b →
            Checksum (<[i:=b]> payload) ≠ Checksum payload) ∧
  (∀ a b, is_byte a → is_byte b → a ≠ b →
          Checksum (payload ++ [a]) ≠ Checksum (payload ++ [b])).
Proof.
  intros Hwf. split_and!.
  - by apply Checksum_range.
  - intros i a b Hi Hb Hab. by apply (Checksum_flip payload i a b).
  - intros a b Ha Hb Hab.
    pose proof (Checksum_flip (payload ++ [a]) (length payload) a b) as H.
    rewrite (insert_app_r_alt payload [a]), Nat.sub_diag in H by done.
    cbn [insert list_insert] in H. intros Heq. apply H; try done.
    + apply Forall_app. split; [done|]. by apply Forall_singleton.
    + by rewrite lookup_app_r, Nat.sub_diag by done.
Qed.

Lemma Checksum_detects_one_byte_witness :
  is_uint32 (Checksum check_string) ∧
  (∀ i a b, check_string !! i = Some a → is_byte b → a ≠ b →
            Checksum (<[i:=b]> check_string) ≠ Checksum check_string) ∧
  (∀ a b, is_byte a → is_byte b → a ≠ b →
          Checksum (check_string ++ [a]) ≠ Checksum (check_string ++ [b])).
Proof. apply (Checksum_detects_one_byte check_string). compute_done. Defined.

(** ** Frames on a stream *)

Lemma payload_length_fits (payload : list byte) :
  Z.of_nat (length payload) + 4 ≤ maxAlloc →
  to_uint64 (Z.of_nat (length payload)) = Z.of_nat (length payload).
Proof.
  intros H. assert (maxAlloc = 2 ^ 48) as E by reflexivity.
  unfold to_uint64. apply Z.mod_small. lia.
Qed.

(** What a stream [WriteFrame] does to an open connection, in terms of
    [tcp_wire]. *)
Lemma tcp_WriteFrame_wire now w h payload :
  closed (tcpConnWrapper.conn w) = false →
  let h' := SetTimestampIfZero now (set_Length (to_uint64 (Z.of_nat (length payload))) h) in
  ∃ headerBytes,
    HeaderEncode now (Some (set_Length (to_uint64 (Z.of_nat (length payload))) h))
    = Ok (h', headerBytes) ∧
    (52 ≤ length headerBytes ≤ 72)%nat ∧
    tcp_wire now h payload
    = to_byte (Z.of_nat (length headerBytes))
        :: headerBytes ++ payload ++ BigEndian.bytes32 (Checksum payload) ∧
    tcpConnWrapper.WriteFrame now w (Some h) payload
    = (tcpConnWrapper.mk
         (mkConn (inbound (tcpConnWrapper.conn w))
                 (outbound (tcpConnWrapper.conn w) ++ tcp_wire now h payload) false)
         (tcpConnWrapper.sender w),
       Some h', Ok ()).
Proof.
  intros Hopen h'.
  destruct (tcp_WriteFrame_spec now w h payload) as (hb & HE & Hlen & HW).
  destruct (tcp_WriteFrame_spec now (reader []) h payload) as (hb' & HE' & _ & HW').
  cbn zeta in *. assert (hb' = hb) as -> by congruence. fold h' in HE, Hlen, HW, HW'.
  exists hb. split; [done|]. split.
  { rewrite Hlen, HeaderSize_cases. destruct (IsBroadcast h'), (decide _); lia. }
  assert (Hwire : tcp_wire now h payload
                  = to_byte (Z.of_nat (length hb))
                      :: hb ++ payload ++ BigEndian.bytes32 (Checksum payload)).
  { unfold tcp_wire. rewrite HW'. reflexivity. }
  split; [done|].
  rewrite HW, Hwire. unfold conn_Write. rewrite Hopen.
  reflexivity.
Qed.

(** X10: a frame written on an open connection is read back by the peer:
    the payload as it was, and the header with the Length of the payload and
    the caller's other fields (the Timestamp as the encoder stamped it, the
    Receiver only for a broadcast, no Sequence unless the header said UDP).
    The reader takes exactly the frame off the stream. *)
Theorem tcp_WriteFrame_then_ReadFrame now w h payload rest out id :
  closed (tcpConnWrapper.conn w) = false →
  wf_header h → wf_bytes payload →
  Z.of_nat (length payload) + 4 ≤ maxAlloc →
  ¬ (MessageType_ h = MessageTypeBroadcast ∧ Receiver h = uuid_Nil) →
  ∃ w' h' d,
    tcpConnWrapper.WriteFrame now w (Some h) payload = (w', Some h', Ok ()) ∧
    outbound (tcpConnWrapper.conn w')
    = outbound (tcpConnWrapper.conn w) ++ tcp_wire now h payload ∧
    tcpConnWrapper.ReadFrame
      (tcpConnWrapper.mk (mkConn (tcp_wire now h payload ++ rest) out false) id)
    = (tcpConnWrapper.mk (mkConn rest out false) id, Ok (d, payload)) ∧
    d = on_wire h' ∧
    Length d = Z.of_nat (length payload) ∧
    ID d = ID h ∧ Sender d = Sender h ∧ Flags d = Flags h ∧
    MessageType_ d = MessageType_ h ∧ Router d = Router h ∧ Protocol d = Protocol h ∧
    Timestamp d = (if decide (Timestamp h = 0) then to_uint64 now else Timestamp h).
Proof.
  intros Hopen Hwf Hp Hmax Hnd.
  destruct (tcp_WriteFrame_wire now w h payload Hopen) as (hb & HE & _ & Hwire & HW).
  destruct (tcp_WriteFrame_ReadFrame now h payload rest out id Hwf Hp Hmax Hnd)
    as (hb' & HE' & HR).
  cbn zeta in *. assert (hb' = hb) as -> by congruence.
  set (h' := SetTimestampIfZero now _) in *.
  exists (tcpConnWrapper.mk
            (mkConn (inbound (tcpConnWrapper.conn w))
               (outbound (tcpConnWrapper.conn w) ++ tcp_wire now h payload) false)
            (tcpConnWrapper.sender w)), h', (on_wire h').
  rewrite <- Hwire in HR.
  destruct (SetTimestampIfZero_other now
              (set_Length (to_uint64 (Z.of_nat (length payload))) h))
    as (E1&E2&E3&E4&E5&E6&E7&E8&E9).
  cbn zeta in *. fold h' in E1, E2, E3, E4, E5, E6, E7, E8, E9.
  split_and!; try done.
  - change (Length (on_wire h')) with (Length h'). rewrite E4.
    by apply payload_length_fits.
  - change (Timestamp (on_wire h')) with (Timestamp h'). unfold h', SetTimestampIfZero.
    change (Timestamp (set_Length _ h)) with (Timestamp h).
    by destruct (decide (Timestamp h = 0)).
Qed.

Lemma tcp_WriteFrame_then_ReadFrame_witness :
  ∃ w' h' d,
    tcpConnWrapper.WriteFrame 0 sample_tcp (Some sample_header) check_string
    = (w', Some h', Ok ()) ∧
    outbound (tcpConnWrapper.conn w')
    = outbound (tcpConnWrapper.conn sample_tcp) ++ tcp_wire 0 sample_header check_string ∧
    tcpConnWrapper.ReadFrame
      (tcpConnWrapper.mk
         (mkConn (tcp_wire 0 sample_header check_string ++ [1; 2]) [] false) uuid_Nil)
    = (tcpConnWrapper.mk (mkConn [1; 2] [] false) uuid_Nil, Ok (d, check_string)) ∧
    d = on_wire h' ∧
    Length d = Z.of_nat (length check_string) ∧
    ID d = ID sample_header ∧ Sender d = Sender sample_header ∧
    Flags d = Flags sample_header ∧
    MessageType_ d = MessageType_ sample_header ∧ Router d = Router sample_header ∧
    Protocol d = Protocol sample_header ∧
    Timestamp d = (if decide (Timestamp sample_header = 0)
                   then to_uint64 0 else Timestamp sample_header).
Proof.
  apply (tcp_WriteFrame_then_ReadFrame 0 sample_tcp sample_header check_string
           [1; 2] [] uuid_Nil).
  - reflexivity.
  - compute_done.
  - compute_done.
  - vm_compute. discriminate.
  - compute_done.
Defined.

(** X11: two frames written one after the other on the same open
    connection, for well-formed headers neither of which is a broadcast with
    the zero Receiver, are read back in that order: each payload as written,
    under the header its WriteFrame left behind as the wire carries it (the
    Receiver only for a broadcast, the Sequence only for UDP, zero
    otherwise). A frame carries its own length, so the reader leaves the
    second frame on the stream untouched while it reads the first. *)
Theorem tcp_frames_read_in_order now1 now2 w h1 p1 h2 p2 rest out id :
  closed (tcpConnWrapper.conn w) = false →
  wf_header h1 → wf_bytes p1 → Z.of_nat (length p1) + 4 ≤ maxAlloc →
  ¬ (MessageType_ h1 = MessageTypeBroadcast ∧ Receiver h1 = uuid_Nil) →
  wf_header h2 → wf_bytes p2 → Z.of_nat (length p2) + 4 ≤ maxAlloc →
  ¬ (MessageType_ h2 = MessageTypeBroadcast ∧ Receiver h2 = uuid_Nil) →
  ∃ w1 g1 w2 g2 r1,
    tcpConnWrapper.WriteFrame now1 w (Some h1) p1 = (w1, Some g1, Ok ()) ∧
    tcpConnWrapper.WriteFrame now2 w1 (Some h2) p2 = (w2, Some g2, Ok ()) ∧
    outbound (tcpConnWrapper.conn w2)
    = outbound (tcpConnWrapper.conn w) ++ tcp_wire now1 h1 p1 ++ tcp_wire now2 h2 p2 ∧
    tcpConnWrapper.ReadFrame
      (tcpConnWrapper.mk
         (mkConn (tcp_wire now1 h1 p1 ++ tcp_wire now2 h2 p2 ++ rest) out false) id)
    = (r1, Ok (on_wire g1, p1)) ∧
    tcpConnWrapper.ReadFrame r1
    = (tcpConnWrapper.mk (mkConn rest out false) id, Ok (on_wire g2, p2)).
Proof.
  intros Hopen Hwf1 Hp1 Hm1 Hnd1 Hwf2 Hp2 Hm2 Hnd2.
  destruct (tcp_WriteFrame_wire now1 w h1 p1 Hopen) as (hb1 & HE1 & _ & Hwire1 & HW1).
  cbn zeta in *.
  set (w1 := tcpConnWrapper.mk
               (mkConn (inbound (tcpConnWrapper.conn w))
                  (outbound (tcpConnWrapper.conn w) ++ tcp_wire now1 h1 p1) false)
               (tcpConnWrapper.sender w)) in *.
  destruct (tcp_WriteFrame_wire now2 w1 h2 p2 eq_refl) as (hb2 & HE2 & _ & Hwire2 & HW2).
  cbn zeta in *.
  destruct (tcp_WriteFrame_ReadFrame now1 h1 p1 (tcp_wire now2 h2 p2 ++ rest) out id
              Hwf1 Hp1 Hm1 Hnd1) as (hb1' & HE1' & HR1).
  destruct (tcp_WriteFrame_ReadFrame now2 h2 p2 rest out id Hwf2 Hp2 Hm2 Hnd2)
    as (hb2' & HE2' & HR2).
  cbn zeta in *.
  assert (hb1' = hb1) as -> by congruence. assert (hb2' = hb2) as -> by congruence.
  rewrite <- Hwire1 in HR1. rewrite <- Hwire2 in HR2.
  eexists _, _, _, _, _. split_and!.
  - exact HW1.
  - exact HW2.
  - cbn [tcpConnWrapper.conn outbound w1]. by rewrite <- app_assoc.
  - exact HR1.
  - exact HR2.
Qed.

Lemma tcp_frames_read_in_order_witness :
  ∃ w1 g1 w2 g2 r1,
    tcpConnWrapper.WriteFrame 1 sample_tcp (Some sample_header) check_string
    = (w1, Some g1, Ok ()) ∧
    tcpConnWrapper.WriteFrame 2 w1 (Some (set_MessageType MessageTypeData sample_header)) []
    = (w2, Some g2, Ok ()) ∧
    outbound (tcpConnWrapper.conn w2)
    = outbound (tcpConnWrapper.conn sample_tcp)
      ++ tcp_wire 1 sample_header check_string
      ++ tcp_wire 2 (set_MessageType MessageTypeData sample_header) [] ∧
    tcpConnWrapper.ReadFrame
      (tcpConnWrapper.mk
         (mkConn (tcp_wire 1 sample_header check_string
                  ++ tcp_wire 2 (set_MessageType MessageTypeData sample_header) []
                  ++ []) [] false) uuid_Nil)
    = (r1, Ok (on_wire g1, check_string)) ∧
    tcpConnWrapper.ReadFrame r1
    = (tcpConnWrapper.mk (mkConn [] [] false) uuid_Nil, Ok (on_wire g2, [])).
Proof.
  apply (tcp_frames_read_in_order 1 2 sample_tcp sample_header check_string
           (set_MessageType MessageTypeData sample_header) [] [] [] uuid_Nil).
  - reflexivity.
  - compute_done.
  - compute_done.
  - vm_compute. discriminate.
  - compute_done.
  - compute_done.
  - compute_done.
  - vm_compute. discriminate.
  - compute_done.
Defined.

Lemma io_ReadFull_short c n :
  closed c = false → (length (inbound c) < n)%nat →
  io_ReadFull c n = (mkConn [] (outbound c) (closed c), Err ErrIO).
Proof.
  intros Hopen Hn. unfold io_ReadFull.
  rewrite decide_False by lia. rewrite Hopen. by rewrite decide_False by lia.
Qed.

(** X12: the frame written for a well-formed header that is not a
    broadcast with the zero Receiver, cut short anywhere, is an error for
    the reader, not a frame and not a panic: the error names the part that
    could not be read in full, the size prefix, the header or the payload
    with its checksum. *)
Theorem tcp_truncated_frame now h payload k out id :
  wf_header h → wf_bytes payload →
  Z.of_nat (length payload) + 4 ≤ maxAlloc →
  ¬ (MessageType_ h = MessageTypeBroadcast ∧ Receiver h = uuid_Nil) →
  (k < length (tcp_wire now h payload))%nat →
  length (tcp_wire now h payload) = (1 + HeaderSize h + length payload + 4)%nat ∧
  (tcpConnWrapper.ReadFrame
     (tcpConnWrapper.mk (mkConn (take k (tcp_wire now h payload)) out false) id)).2
  = Err (if decide (k = 0)%nat then ErrTCPReadPrefix ErrIO
         else if decide (k ≤ HeaderSize h)%nat then ErrTCPReadHeader ErrIO
         else ErrTCPReadPayload ErrIO).
Proof.
  intros Hwf Hp Hmax Hnd Hk.
  destruct (tcp_WriteFrame_wire now (reader []) h payload eq_refl)
    as (hb & HE & Hhb & Hwire & _).
  cbn zeta in *.
  pose proof (payload_length_fits payload Hmax) as EL.
  assert (Hwf1 : wf_header (set_Length (to_uint64 (Z.of_nat (length payload))) h)).
  { rewrite EL. destruct Hwf as (?&?&?&?&?&?&?&?&?&?).
    unfold wf_header. cbn. split_and!; try done.
    assert (maxAlloc = 2 ^ 48) by reflexivity. unfold is_uint64. lia. }
  destruct (HeaderDecode_HeaderEncode now _ [] Hwf1 Hnd) as (hb' & HE' & HD).
  assert (hb' = hb) as -> by congruence. clear HE'.
  destruct (HeaderEncode_Ok now (set_Length (to_uint64 (Z.of_nat (length payload))) h))
    as (hb' & HE' & Hlen).
  assert (hb' = hb) as -> by congruence. clear HE'.
  set (h' := SetTimestampIfZero now _) in *.
  assert (Hsz : HeaderSize h' = HeaderSize h).
  { rewrite !HeaderSize_cases.
    destruct (SetTimestampIfZero_other now
                (set_Length (to_uint64 (Z.of_nat (length payload))) h))
      as (_&_&E3&_&_&E6&_&E8&_).
    cbn zeta in *. fold h' in E3, E6, E8. unfold IsBroadcast. by rewrite E3, E6, E8. }
  rewrite <- Hsz, <- Hlen.
  assert (Ex : Z.to_nat (to_byte (Z.of_nat (length hb))) = length hb).
  { unfold to_byte. rewrite Z.mod_small by lia. lia. }
  assert (ElenH : Length (on_wire h') = Z.of_nat (length payload)).
  { transitivity (Length h'); [reflexivity|]. unfold h'.
    destruct (SetTimestampIfZero_other now
      (set_Length (to_uint64 (Z.of_nat (length payload))) h)) as (_&_&_&->&_).
    exact EL. }
  assert (EN : Z.to_nat (to_uint64 (Length (on_wire h') + 4)) = (length payload + 4)%nat).
  { rewrite ElenH. assert (maxAlloc = 2 ^ 48) by reflexivity.
    unfold to_uint64. rewrite Z.mod_small by lia. lia. }
  rewrite Hwire in Hk |- *. clear Hwire.
  set (x := to_byte _) in *. set (crc := BigEndian.bytes32 _) in *.
  assert (Hcrc : length crc = 4%nat) by reflexivity.
  split. { cbn [length]. rewrite !length_app. lia. }
  cbn [length] in Hk. rewrite !length_app in Hk.
  unfold tcpConnWrapper.ReadFrame. cbn [tcpConnWrapper.conn].
  destruct k as [|k].
  { rewrite decide_True by done. cbn [take].
    rewrite io_ReadFull_short by (cbn; done || lia). reflexivity. }
  rewrite decide_False by done. cbn [take].
  rewrite io_ReadFull_Ok by (cbn; done || lia).
  cbn [inbound outbound closed firstn skipn wrap_err]. rewrite take_0, drop_0.
  change (default 0 ([x] !! 0%nat)) with x. rewrite Ex.
  destruct (decide (S k ≤ length hb)%nat) as [Hh|Hh].
  { rewrite io_ReadFull_short; [reflexivity|done|].
    cbn [inbound]. rewrite length_take, !length_app. lia. }
  rewrite io_ReadFull_Ok; [|done|cbn [inbound]; rewrite length_take, !length_app; lia].
  cbn [inbound outbound closed wrap_err].
  rewrite take_take, Nat.min_l by lia. rewrite take_app_length.
  change (slice_of hb) with (mkSlice hb []). rewrite HD.
  cbn [wrap_err]. rewrite decide_False.
  2:{ rewrite ElenH. assert (maxAlloc = 2 ^ 48) by reflexivity.
      unfold to_uint64. rewrite Z.mod_small by lia. lia. }
  rewrite EN.
  rewrite io_ReadFull_short; [reflexivity|done|].
  cbn [inbound]. rewrite length_drop, length_take, !length_app. lia.
Qed.

Lemma tcp_truncated_frame_witness :
  length (tcp_wire 0 sample_header check_string)
  = (1 + HeaderSize sample_header + length check_string + 4)%nat ∧
  (tcpConnWrapper.ReadFrame
     (tcpConnWrapper.mk
        (mkConn (take 80 (tcp_wire 0 sample_header check_string)) [] false) uuid_Nil)).2
  = Err (if decide (80 = 0)%nat then ErrTCPReadPrefix ErrIO
         else if decide (80 ≤ HeaderSize sample_header)%nat then ErrTCPReadHeader ErrIO
         else ErrTCPReadPayload ErrIO).
Proof.
  apply (tcp_truncated_frame 0 sample_header check_string 80 [] uuid_Nil).
  - compute_done.
  - compute_done.
  - vm_compute. discriminate.
  - compute_done.
  - vm_compute. lia.
Defined.

(** X13: the reader trusts the Length field of the header it decoded: it
    allocates Length + 4 bytes computed in uint64, so a Length above the
    largest allocation makes it panic in make, and a Length of 2^64 - 4 or
    more wraps to less than 4 and makes it panic when it slices the
    checksum off. *)
Theorem tcp_ReadFrame_hostile_Length x rest out id h :
  (Z.to_nat x ≤ length rest)%nat →
  HeaderDecode (slice_of (take (Z.to_nat x) rest)) = Ok h →
  maxAlloc < to_uint64 (Length h + 4)
  ∨ (to_uint64 (Length h + 4) < 4 ∧
     (Z.to_nat (to_uint64 (Length h + 4)) ≤ length (drop (Z.to_nat x) rest))%nat) →
  (tcpConnWrapper.ReadFrame (tcpConnWrapper.mk (mkConn (x :: rest) out false) id)).2
  = Panic (if decide (maxAlloc < to_uint64 (Length h + 4))
           then PanicMakeslice else PanicSliceBounds).
Proof.
  intros HL HD Hn.
  unfold tcpConnWrapper.ReadFrame. cbn [tcpConnWrapper.conn].
  rewrite io_ReadFull_Ok by (cbn; done || lia).
  cbn [inbound outbound closed firstn skipn wrap_err]. rewrite take_0, drop_0.
  change (default 0 ([x] !! 0%nat)) with x.
  rewrite io_ReadFull_Ok by (cbn; done || lia).
  cbn [inbound outbound closed wrap_err].
  rewrite HD. cbn [wrap_err].
  destruct (decide (maxAlloc < _)) as [Hbig|Hbig]; [reflexivity|].
  destruct Hn as [Hn|[Hn Hr]]; [done|].
  set (n := Z.to_nat (to_uint64 (Length h + 4))) in *.
  unfold io_ReadFull. cbn [inbound outbound closed].
  destruct (decide (n = 0)%nat) as [->|Hn0].
  { cbn [wrap_err length]. by rewrite decide_True by lia. }
  rewrite decide_True by done. cbn [wrap_err].
  rewrite decide_True; [reflexivity|]. rewrite length_take. lia.
Qed.

Lemma tcp_ReadFrame_hostile_Length_witness :
  (tcpConnWrapper.ReadFrame (tcpConnWrapper.mk (mkConn hostile_stream [] false) uuid_Nil)).2
  = Panic (if decide (maxAlloc < to_uint64 (2 ^ 64 - 1 + 4))
           then PanicMakeslice else PanicSliceBounds).
Proof.
  apply (tcp_ReadFrame_hostile_Length 52
           (replicate 40 0 ++ replicate 8 255 ++ replicate 4 0 ++ [1; 2; 3]) [] uuid_Nil
           (mkHeader uuid_Nil uuid_Nil uuid_Nil 0 (2 ^ 64 - 1) 0 0 0 0 0)).
  - vm_compute. lia.
  - vm_compute. reflexivity.
  - right. split; vm_compute; [reflexivity|lia].
Defined.

(** X14: a closed connection: Close succeeds once and fails the second time;
    WriteFrame then returns the connection's own error, unwrapped, after it
    has already set Length and Timestamp in the caller's header, and
    ReadFrame reports that it could not read the size prefix. A nil header
    is refused before anything is touched. *)
Theorem tcp_closed_connection now w h payload :
  closed (tcpConnWrapper.conn w) = false →
  let wc := (tcp_Close w).1 in
  (tcp_Close w).2 = Ok () ∧
  tcp_Close wc = (wc, Err ErrIO) ∧
  tcpConnWrapper.WriteFrame now wc (Some h) payload
  = (wc, Some (SetTimestampIfZero now
                 (set_Length (to_uint64 (Z.of_nat (length payload))) h)),
     Err ErrIO) ∧
  tcpConnWrapper.ReadFrame wc = (wc, Err (ErrTCPReadPrefix ErrIO)) ∧
  tcpConnWrapper.WriteFrame now w None payload = (w, None, Err ErrTCPNilHeader).
Proof.
  intros Hopen wc. destruct w as [[i o c] s]. cbn in Hopen. subst c.
  split_and!; try reflexivity.
  destruct (tcp_WriteFrame_spec now wc h payload) as (hb & _ & _ & ->).
  reflexivity.
Qed.

Lemma tcp_closed_connection_witness :
  let wc := (tcp_Close sample_tcp).1 in
  (tcp_Close sample_tcp).2 = Ok () ∧
  tcp_Close wc = (wc, Err ErrIO) ∧
  tcpConnWrapper.WriteFrame 0 wc (Some sample_header) check_string
  = (wc, Some (SetTimestampIfZero 0
                 (set_Length (to_uint64 (Z.of_nat (length check_string))) sample_header)),
     Err ErrIO) ∧
  tcpConnWrapper.ReadFrame wc = (wc, Err (ErrTCPReadPrefix ErrIO)) ∧
  tcpConnWrapper.WriteFrame 0 sample_tcp None check_string
  = (sample_tcp, None, Err ErrTCPNilHeader).
Proof. apply (tcp_closed_connection 0 sample_tcp sample_header check_string). reflexivity. Defined.

(** ** Datagrams *)

(** The buffer after [ReadFrom] when the datagram fits. *)
Lemma pc_ReadFrom_fits pc datagram from M :
  pclosed pc = false → (length datagram ≤ M)%nat →
  pc_ReadFrom pc datagram from (make M)
  = Ok (length datagram, from, datagram ++ replicate (M - length datagram) 0).
Proof.
  intros Hopen Hfit. unfold pc_ReadFrom, make. rewrite Hopen.
  rewrite length_replicate, Nat.min_r by lia.
  rewrite firstn_all, drop_replicate. reflexivity.
Qed.

(** The accepted path of the datagram reader. *)
Lemma udp_ReadFrame_eval u x rest from h c :
  let M := Z.to_nat (udpConnWrapper.maxMessageSize u) in
  let L := Z.to_nat x in
  let N := Z.to_nat (Length h) in
  let p := take N (drop L rest) in
  pclosed (udpConnWrapper.pc u) = false →
  0 ≤ udpConnWrapper.maxMessageSize u ≤ maxAlloc →
  (1 + length rest ≤ M)%nat →
  0 ≤ x < 255 →
  HeaderDecode (mkSlice (take L rest) (drop L rest ++ replicate (M - (1 + length rest)) 0))
  = Ok h →
  0 ≤ Length h →
  (L + N + 4 ≤ length rest)%nat →
  BigEndian.Uint32 (take 4 (drop N (drop L rest))) = Ok c →
  udp_ReadFrame u (x :: rest) from
  = (udp_with_addr from u,
     if decide (c ≠ Checksum p) then Failed ErrUDPChecksumMismatch else Done (h, p)).
Proof.
  intros M L N p Hopen HM Hfit Hx HD HLen Hrest HU.
  assert (HmaxA : maxAlloc = 2 ^ 48) by reflexivity.
  unfold udp_ReadFrame.
  rewrite decide_False by lia. fold M.
  rewrite pc_ReadFrom_fits by (cbn [length]; done || lia).
  cbn [length]. rewrite decide_False by lia.
  cbn [app lookup list_lookup]. fold L.
  rewrite decide_False by lia.
  assert (Ehi : Z.to_nat (to_byte (1 + x)) = S L).
  { unfold to_byte. rewrite Z.mod_small by lia. lia. }
  rewrite Ehi. unfold reslice.
  rewrite decide_True.
  2:{ unfold cap, slice_of. cbn [elems spare length]. rewrite length_app, length_replicate. lia. }
  unfold backing, slice_of. cbn [elems spare]. rewrite app_nil_r.
  cbn [drop]. rewrite drop_0.
  replace (S L - 1)%nat with L by lia.
  rewrite take_app_le by lia. rewrite drop_app_le by lia.
  replace (S (length rest)) with (1 + length rest)%nat by lia.
  rewrite HD.
  assert (Em : to_uint64 (Length h + 4) = Length h + 4).
  { unfold to_uint64. rewrite Z.mod_small; lia. }
  assert (Ei : to_int (Length h + 4) = Length h + 4).
  { unfold to_int. rewrite Z.mod_small by lia. by rewrite decide_True by lia. }
  rewrite Em, Ei.
  rewrite decide_False.
  2:{ unfold to_uint64. rewrite !Z.mod_small by lia. lia. }
  rewrite decide_False by lia.
  replace (Z.to_nat (Z.of_nat (1 + L) + (Length h + 4)) - (1 + L))%nat
    with (N + 4)%nat by lia.
  replace (Z.to_nat (Length h + 4)) with (N + 4)%nat by lia.
  rewrite decide_True.
  2:{ cbn [length]. rewrite length_app, length_replicate. lia. }
  cbn [Nat.add drop].
  rewrite drop_app_le by lia. rewrite take_app_le by (rewrite length_drop; lia).
  rewrite copy_full.
  2:{ unfold make. rewrite length_replicate, length_take, length_drop. lia. }
  rewrite length_take, length_drop, Nat.min_l by lia.
  rewrite decide_False by lia.
  replace (N + 4 - 4)%nat with N by lia.
  rewrite take_take, Nat.min_l by lia. fold p.
  rewrite <- take_drop_commute. replace (N + 4 - N)%nat with 4%nat by lia.
  rewrite HU. by destruct (decide (c ≠ Checksum p)).
Qed.

(** Reading a datagram made of the encoding of a header whose Length is
    the length of [payload], then [q] in the place of the payload, then the
    checksum of [payload]. *)
Lemma udp_read_encoded now r h1 payload q from :
  pclosed (udpConnWrapper.pc r) = false →
  wf_header h1 → Length h1 = Z.of_nat (length payload) → wf_bytes payload →
  ¬ (MessageType_ h1 = MessageTypeBroadcast ∧ Receiver h1 = uuid_Nil) →
  length q = length payload →
  let h' := SetTimestampIfZero now h1 in
  Z.of_nat (1 + HeaderSize h' + length payload + 4) ≤ udpConnWrapper.maxMessageSize r →
  udpConnWrapper.maxMessageSize r ≤ maxAlloc →
  ∃ hb,
    HeaderEncode now (Some h1) = Ok (h', hb) ∧
    length hb = HeaderSize h' ∧
    udp_ReadFrame r
      (to_byte (Z.of_nat (length hb))
         :: hb ++ q ++ BigEndian.bytes32 (Checksum payload)) from
    = (udp_with_addr from r,
       if decide (Checksum payload ≠ Checksum q)
       then Failed ErrUDPChecksumMismatch else Done (on_wire h', q)).
Proof.
  intros Hopen Hwf1 EL Hp Hnd1 Hq h' Hsize Hmax.
  assert (HmaxA : maxAlloc = 2 ^ 48) by reflexivity.
  destruct (HeaderEncode_Ok now h1) as (hb & HE & Hlen). fold h' in HE, Hlen.
  exists hb. split; [done|]. split; [done|].
  assert (Hhb : (52 ≤ length hb ≤ 72)%nat).
  { rewrite Hlen, HeaderSize_cases. destruct (IsBroadcast h'), (decide _); lia. }
  set (M := Z.to_nat (udpConnWrapper.maxMessageSize r)).
  destruct (HeaderDecode_HeaderEncode now h1
              ((q ++ BigEndian.bytes32 (Checksum payload))
                 ++ replicate (M - (1 + length (hb ++ q ++ BigEndian.bytes32 (Checksum payload)))) 0)
              Hwf1 Hnd1) as (hb' & HE' & HD).
  assert (hb' = hb) as -> by congruence. clear HE'. fold h' in HD.
  assert (Ex : Z.to_nat (to_byte (Z.of_nat (length hb))) = length hb).
  { unfold to_byte. rewrite Z.mod_small by lia. lia. }
  assert (ElenH : Length (on_wire h') = Z.of_nat (length payload)).
  { transitivity (Length h'); [reflexivity|]. unfold h'.
    destruct (SetTimestampIfZero_other now h1) as (_&_&_&->&_). exact EL. }
  assert (Hcrc : length (BigEndian.bytes32 (Checksum payload)) = 4%nat) by reflexivity.
  rewrite (udp_ReadFrame_eval r _ _ from (on_wire h') (Checksum payload));
    rewrite ?Ex, ?ElenH, ?Nat2Z.id.
  - rewrite drop_app_length. rewrite <- Hq, take_app_length. reflexivity.
  - done.
  - lia.
  - rewrite !length_app, Hcrc, Hq. fold M. lia.
  - unfold to_byte. rewrite Z.mod_small by lia. lia.
  - rewrite take_app_length, drop_app_length. exact HD.
  - lia.
  - rewrite !length_app, Hcrc, Hq. lia.
  - rewrite drop_app_length, <- Hq, drop_app_length.
    rewrite firstn_all2 by (rewrite Hcrc; lia).
    apply (Uint32_bytes32 _ []). by apply Checksum_range.
Qed.

Lemma wf_header_stamped u h (payload : list byte) :
  wf_header h → wf_uuid (udpConnWrapper.sender u) →
  is_uint32 (udpConnWrapper.sequence u) →
  Z.of_nat (length payload) + 4 ≤ maxAlloc →
  wf_header
    (set_Length (to_uint64 (Z.of_nat (length payload)))
       (set_Sequence (udpConnWrapper.sequence u)
          (set_Protocol ProtocolUDP (set_Sender (udpConnWrapper.sender u) h)))).
Proof.
  intros Hwf Hsnd Hseq Hmax.
  assert (HmaxA : maxAlloc = 2 ^ 48) by reflexivity.
  rewrite payload_length_fits by done.
  destruct Hwf as (?&?&?&?&?&?&?&?&?&?).
  unfold wf_header. cbn. split_and!; try done. unfold is_uint64. lia.
Qed.

Lemma udp_read_written now u r h payload q from :
  pclosed (udpConnWrapper.pc r) = false →
  wf_header h → wf_uuid (udpConnWrapper.sender u) →
  is_uint32 (udpConnWrapper.sequence u) → wf_bytes payload →
  ¬ (MessageType_ h = MessageTypeBroadcast ∧ Receiver h = uuid_Nil) →
  length q = length payload →
  let h1 := set_Length (to_uint64 (Z.of_nat (length payload)))
              (set_Sequence (udpConnWrapper.sequence u)
                 (set_Protocol ProtocolUDP (set_Sender (udpConnWrapper.sender u) h))) in
  let h' := SetTimestampIfZero now h1 in
  Z.of_nat (1 + HeaderSize h' + length payload + 4) ≤ udpConnWrapper.maxMessageSize r →
  udpConnWrapper.maxMessageSize r ≤ maxAlloc →
  ∃ hb,
    HeaderEncode now (Some h1) = Ok (h', hb) ∧
    length hb = HeaderSize h' ∧
    udp_ReadFrame r
      (to_byte (Z.of_nat (length hb))
         :: hb ++ q ++ BigEndian.bytes32 (Checksum payload)) from
    = (udp_with_addr from r,
       if decide (Checksum payload ≠ Checksum q)
       then Failed ErrUDPChecksumMismatch else Done (on_wire h', q)).
Proof.
  intros Hopen Hwf Hsnd Hseq Hp Hnd Hq h1 h' Hsize Hmax.
  apply (udp_read_encoded now r h1 payload q from); try done.
  - apply wf_header_stamped; try done. lia.
  - apply payload_length_fits. lia.
Qed.

(** What a datagram [WriteFrame] does when the packet connection is open
    and the message fits. *)
Lemma udp_WriteFrame_sends now u h payload :
  pclosed (udpConnWrapper.pc u) = false →
  let h1 := set_Length (to_uint64 (Z.of_nat (length payload)))
              (set_Sequence (udpConnWrapper.sequence u)
                 (set_Protocol ProtocolUDP (set_Sender (udpConnWrapper.sender u) h))) in
  let h' := SetTimestampIfZero now h1 in
  Z.of_nat (1 + HeaderSize h' + length payload + 4) ≤ udpConnWrapper.maxMessageSize u →
  ∃ hb u',
    HeaderEncode now (Some h1) = Ok (h', hb) ∧
    udpConnWrapper.WriteFrame now u (Some h) payload = (u', Some h', Ok ()) ∧
    sent (udpConnWrapper.pc u')
    = sent (udpConnWrapper.pc u)
      ++ [(udpConnWrapper.addr u,
           to_byte (Z.of_nat (length hb))
             :: hb ++ payload ++ BigEndian.bytes32 (Checksum payload))] ∧
    udpConnWrapper.sequence u' = to_uint32 (udpConnWrapper.sequence u + 1) ∧
    udpConnWrapper.addr u' = udpConnWrapper.addr u ∧
    udpConnWrapper.sender u' = udpConnWrapper.sender u ∧
    udpConnWrapper.maxMessageSize u' = udpConnWrapper.maxMessageSize u.
Proof.
  intros Hopen h1 h' Hsize.
  destruct (udp_WriteFrame_spec now u h payload) as (hb & HE & Hlen & HW).
  cbn zeta in *. fold h1 in HE, Hlen, HW. fold h' in HE, Hlen, HW.
  rewrite decide_False in HW by (rewrite Hlen; lia).
  unfold pc_WriteTo in HW. rewrite Hopen in HW. cbn [wrap_err] in HW.
  eexists hb, _. split; [done|]. split; [exact HW|].
  by split_and!.
Qed.

Lemma HeaderSize_stamped now u h (payload : list byte) :
  HeaderSize
    (SetTimestampIfZero now
       (set_Length (to_uint64 (Z.of_nat (length payload)))
          (set_Sequence (udpConnWrapper.sequence u)
             (set_Protocol ProtocolUDP (set_Sender (udpConnWrapper.sender u) h)))))
  = (if IsBroadcast h then 72 else 56)%nat.
Proof.
  rewrite HeaderSize_cases.
  destruct (SetTimestampIfZero_other now
              (set_Length (to_uint64 (Z.of_nat (length payload)))
                 (set_Sequence (udpConnWrapper.sequence u)
                    (set_Protocol ProtocolUDP (set_Sender (udpConnWrapper.sender u) h)))))
    as (_&_&E3&_&_&E6&_&E8&_).
  cbn zeta in *. unfold IsBroadcast at 1. rewrite E3, E6, E8.
  cbn [Receiver MessageType_ Protocol set_Length set_Sequence set_Protocol set_Sender].
  rewrite decide_True by done. fold (IsBroadcast h). by destruct (IsBroadcast h).
Qed.

(** X15: a datagram written by one transport is read back by another whose
    buffer holds it: the payload as it was, and a header that carries the
    writer's Sender and Sequence, the UDP protocol, the Length of the payload
    and the caller's other fields. The reader takes the datagram's source as
    its peer. *)
Theorem udp_WriteFrame_then_ReadFrame now u r h payload from :
  pclosed (udpConnWrapper.pc u) = false →
  pclosed (udpConnWrapper.pc r) = false →
  wf_header h → wf_uuid (udpConnWrapper.sender u) →
  is_uint32 (udpConnWrapper.sequence u) → wf_bytes payload →
  ¬ (MessageType_ h = MessageTypeBroadcast ∧ Receiver h = uuid_Nil) →
  let size := Z.of_nat (1 + (if IsBroadcast h then 72 else 56) + length payload + 4) in
  size ≤ udpConnWrapper.maxMessageSize u →
  size ≤ udpConnWrapper.maxMessageSize r ≤ maxAlloc →
  ∃ u' h' datagram d r',
    udpConnWrapper.WriteFrame now u (Some h) payload = (u', Some h', Ok ()) ∧
    udp_last_sent u' = Some (udpConnWrapper.addr u, datagram) ∧
    Z.of_nat (length datagram) = size ∧
    udp_ReadFrame r datagram from = (r', Done (d, payload)) ∧
    udp_RemoteAddr r' = from ∧
    d = on_wire h' ∧
    Sender d = udpConnWrapper.sender u ∧ Protocol d = ProtocolUDP ∧
    Sequence d = udpConnWrapper.sequence u ∧
    Length d = Z.of_nat (length payload) ∧
    ID d = ID h ∧ Flags d = Flags h ∧ MessageType_ d = MessageType_ h ∧
    Router d = Router h ∧
    Receiver d
    = (if decide (MessageType_ h = MessageTypeBroadcast) then Receiver h else uuid_Nil).
Proof.
  intros Hu Hr Hwf Hsnd Hseq Hp Hnd size Hsu Hsr. subst size.
  rewrite <- (HeaderSize_stamped now u h payload) in Hsu, Hsr |- *.
  destruct (udp_WriteFrame_sends now u h payload Hu Hsu)
    as (hb & u' & HE & HW & Hsent & _).
  destruct (udp_read_written now u r h payload payload from
              Hr Hwf Hsnd Hseq Hp Hnd eq_refl ltac:(lia) ltac:(lia))
    as (hb' & HE' & Hlen & HR).
  cbn zeta in *. assert (hb' = hb) as -> by congruence. clear HE'.
  set (h1 := set_Length _ _) in *. set (h' := SetTimestampIfZero now h1) in *.
  rewrite decide_False in HR by tauto.
  assert (EL : to_uint64 (Z.of_nat (length payload)) = Z.of_nat (length payload)).
  { apply payload_length_fits. lia. }
  destruct (SetTimestampIfZero_other now h1) as (E1&E2&E3&E4&E5&E6&E7&E8&E9).
  cbn zeta in *. fold h' in E1, E2, E3, E4, E5, E6, E7, E8, E9.
  eexists u', h', _, (on_wire h'), (udp_with_addr from r).
  split_and!; [exact HW| |  |exact HR|reflexivity|reflexivity| | | | | | | | | ].
  - unfold udp_last_sent. rewrite Hsent. by rewrite last_snoc.
  - cbn [length]. rewrite !length_app, Hlen.
    change (length (BigEndian.bytes32 _)) with 4%nat. lia.
  - change (Sender (on_wire h')) with (Sender h'). by rewrite E2.
  - change (Protocol (on_wire h')) with (Protocol h'). by rewrite E6.
  - unfold on_wire. header_fields. rewrite E6, E5. by rewrite decide_True by done.
  - change (Length (on_wire h')) with (Length h'). by rewrite E4.
  - change (ID (on_wire h')) with (ID h'). by rewrite E1.
  - change (Flags (on_wire h')) with (Flags h'). by rewrite E7.
  - change (MessageType_ (on_wire h')) with (MessageType_ h'). by rewrite E8.
  - change (Router (on_wire h')) with (Router h'). by rewrite E9.
  - unfold on_wire. rewrite IsBroadcast_decide. header_fields. rewrite E8, E3.
    change (MessageType_ h1) with (MessageType_ h). change (Receiver h1) with (Receiver h).
    destruct (decide (MessageType_ h = MessageTypeBroadcast)) as [Em|Em].
    + rewrite decide_True; [done|]. split; [done|]. intros ?. by apply Hnd.
    + rewrite decide_False; [done|]. tauto.
Qed.

Lemma udp_WriteFrame_then_ReadFrame_witness :
  let size := Z.of_nat (1 + (if IsBroadcast sample_header then 72 else 56)
                          + length check_string + 4) in
  ∃ u' h' datagram d r',
    udpConnWrapper.WriteFrame 0 sample_udp (Some sample_header) check_string
    = (u', Some h', Ok ()) ∧
    udp_last_sent u' = Some (udpConnWrapper.addr sample_udp, datagram) ∧
    Z.of_nat (length datagram) = size ∧
    udp_ReadFrame sample_receiver datagram (Some 7%nat) = (r', Done (d, check_string)) ∧
    udp_RemoteAddr r' = Some 7%nat ∧
    d = on_wire h' ∧
    Sender d = udpConnWrapper.sender sample_udp ∧ Protocol d = ProtocolUDP ∧
    Sequence d = udpConnWrapper.sequence sample_udp ∧
    Length d = Z.of_nat (length check_string) ∧
    ID d = ID sample_header ∧ Flags d = Flags sample_header ∧
    MessageType_ d = MessageType_ sample_header ∧
    Router d = Router sample_header ∧
    Receiver d
    = (if decide (MessageType_ sample_header = MessageTypeBroadcast)
       then Receiver sample_header else uuid_Nil).
Proof.
  apply (udp_WriteFrame_then_ReadFrame 0 sample_udp sample_receiver sample_header
           check_string (Some 7%nat)).
  - reflexivity.
  - reflexivity.
  - compute_done.
  - compute_done.
  - compute_done.
  - compute_done.
  - compute_done.
  - vm_compute. discriminate.
  - vm_compute. split; discriminate.
Defined.

(** X16: the datagram written for a well-formed header that is not a
    broadcast with the zero Receiver, with one payload byte replaced by a
    different byte, is refused with the checksum error by a reader whose
    buffer holds the datagram. *)
Theorem udp_payload_corruption_detected now u r h payload from i a b :
  pclosed (udpConnWrapper.pc u) = false →
  pclosed (udpConnWrapper.pc r) = false →
  wf_header h → wf_uuid (udpConnWrapper.sender u) →
  is_uint32 (udpConnWrapper.sequence u) → wf_bytes payload →
  ¬ (MessageType_ h = MessageTypeBroadcast ∧ Receiver h = uuid_Nil) →
  let size := Z.of_nat (1 + (if IsBroadcast h then 72 else 56) + length payload + 4) in
  size ≤ udpConnWrapper.maxMessageSize u →
  size ≤ udpConnWrapper.maxMessageSize r ≤ maxAlloc →
  payload !! i = Some a → is_byte b → a ≠ b →
  ∃ u' h' datagram,
    udpConnWrapper.WriteFrame now u (Some h) payload = (u', Some h', Ok ()) ∧
    udp_last_sent u' = Some (udpConnWrapper.addr u, datagram) ∧
    datagram !! (payload_start datagram + i)%nat = Some a ∧
    (udp_ReadFrame r (<[(payload_start datagram + i)%nat := b]> datagram) from).2
    = Failed ErrUDPChecksumMismatch.
Proof.
  intros Hu Hr Hwf Hsnd Hseq Hp Hnd size Hsu Hsr Hi Hb Hab. subst size.
  rewrite <- (HeaderSize_stamped now u h payload) in Hsu, Hsr.
  destruct (udp_WriteFrame_sends now u h payload Hu Hsu)
    as (hb & u' & HE & HW & Hsent & _).
  destruct (udp_read_written now u r h payload (<[i:=b]> payload) from
              Hr Hwf Hsnd Hseq Hp Hnd ltac:(by rewrite length_insert) ltac:(lia) ltac:(lia))
    as (hb' & HE' & Hlen & HR).
  cbn zeta in *. assert (hb' = hb) as -> by congruence. clear HE'.
  set (h1 := set_Length _ _) in *. set (h' := SetTimestampIfZero now h1) in *.
  assert (Hhb : (52 ≤ length hb ≤ 72)%nat).
  { rewrite Hlen. subst h' h1. rewrite HeaderSize_stamped.
    destruct (IsBroadcast h); lia. }
  assert (Ex : Z.to_nat (to_byte (Z.of_nat (length hb))) = length hb).
  { unfold to_byte. rewrite Z.mod_small by lia. lia. }
  pose proof (lookup_lt_Some _ _ _ Hi) as Hilt.
  eexists u', h', _. split; [exact HW|]. split.
  { unfold udp_last_sent. rewrite Hsent. by rewrite last_snoc. }
  set (x := to_byte _) in *. set (crc := BigEndian.bytes32 _) in *.
  change (payload_start (x :: hb ++ payload ++ crc)) with (1 + Z.to_nat x)%nat.
  rewrite Ex. cbn [Nat.add].
  split.
  { change ((x :: hb ++ payload ++ crc) !! S (length hb + i))
      with ((hb ++ payload ++ crc) !! (length hb + i)%nat).
    rewrite lookup_app_r by lia.
    replace (length hb + i - length hb)%nat with i by lia.
    rewrite lookup_app_l by exact Hilt. exact Hi. }
  change (<[S (length hb + i):=b]> (x :: hb ++ payload ++ crc))
    with (x :: <[(length hb + i)%nat:=b]> (hb ++ payload ++ crc)).
  rewrite insert_app_r. rewrite insert_app_l by exact Hilt.
  apply (f_equal snd) in HR. cbn [snd] in HR. etrans; [exact HR|].
  rewrite decide_True; [done|].
  intros Heq. by apply (Checksum_flip payload i a b).
Qed.

Lemma udp_payload_corruption_detected_witness :
  ∃ u' h' datagram,
    udpConnWrapper.WriteFrame 0 sample_udp (Some sample_header) check_string
    = (u', Some h', Ok ()) ∧
    udp_last_sent u' = Some (udpConnWrapper.addr sample_udp, datagram) ∧
    datagram !! (payload_start datagram + 2)%nat = Some 51 ∧
    (udp_ReadFrame sample_receiver
       (<[(payload_start datagram + 2)%nat := 0]> datagram) None).2
    = Failed ErrUDPChecksumMismatch.
Proof.
  apply (udp_payload_corruption_detected 0 sample_udp sample_receiver sample_header
           check_string None 2 51 0).
  - reflexivity.
  - reflexivity.
  - compute_done.
  - compute_done.
  - compute_done.
  - compute_done.
  - compute_done.
  - vm_compute. discriminate.
  - vm_compute. split; discriminate.
  - reflexivity.
  - compute_done.
  - discriminate.
Defined.

(** X17: a datagram of 256 bytes or more whose first byte is 255 makes the
    reader panic: the end of the header slice, 1 + headerSize, is computed
    in uint8 and wraps to 0, below the start 1. *)
Theorem udp_ReadFrame_prefix_255 u (rest : list byte) from :
  pclosed (udpConnWrapper.pc u) = false →
  256 ≤ udpConnWrapper.maxMessageSize u ≤ maxAlloc →
  (255 ≤ length rest)%nat →
  udp_ReadFrame u (255 :: rest) from = (udp_with_addr from u, Crashed PanicSliceBounds).
Proof.
  intros Hopen HM Hrest. unfold udp_ReadFrame.
  rewrite decide_False by lia.
  unfold pc_ReadFrom. rewrite Hopen. unfold make. rewrite length_replicate.
  set (M := Z.to_nat (udpConnWrapper.maxMessageSize u)).
  assert (256 ≤ M)%nat by lia.
  match goal with |- context [Nat.min ?a ?b] => set (n := Nat.min a b) end.
  assert (Hn : (256 ≤ n)%nat) by (subst n; cbn [length]; lia).
  rewrite decide_False by lia.
  destruct n as [|n]; [lia|]. cbn [take app lookup list_lookup].
  rewrite decide_False by lia.
  unfold reslice. rewrite decide_False; [reflexivity|].
  change (Z.to_nat (to_byte (1 + 255))) with 0%nat. lia.
Qed.

Lemma udp_ReadFrame_prefix_255_witness :
  udp_ReadFrame sample_receiver (255 :: replicate 255 0) None
  = (udp_with_addr None sample_receiver, Crashed PanicSliceBounds).
Proof.
  apply (udp_ReadFrame_prefix_255 sample_receiver (replicate 255 0) None).
  - reflexivity.
  - vm_compute. split; discriminate.
  - vm_compute. lia.
Defined.

(** X18: the reader takes the source of whatever datagram arrives as its
    peer before it looks at the datagram: also when the datagram is then
    refused as empty or as shorter than its size prefix says, and the next
    frame written goes to that source. Only a failed read leaves the peer
    as it was. *)
Theorem udp_ReadFrame_records_peer now u datagram from h payload :
  0 ≤ udpConnWrapper.maxMessageSize u ≤ maxAlloc →
  (pclosed (udpConnWrapper.pc u) = true →
   udp_ReadFrame u datagram from = (u, Failed (ErrUDPRead ErrIO))) ∧
  (pclosed (udpConnWrapper.pc u) = false →
   let u' := (udp_ReadFrame u datagram from).1 in
   u' = udp_with_addr from u ∧
   udp_RemoteAddr u' = from ∧
   (datagram = [] → (udp_ReadFrame u datagram from).2 = Failed ErrUDPNoPrefix) ∧
   (∀ x rest, datagram = x :: rest → 1 ≤ udpConnWrapper.maxMessageSize u →
              (length rest < Z.to_nat x)%nat →
              (udp_ReadFrame u datagram from).2 = Failed ErrUDPShortHeader) ∧
   (∀ w g, udpConnWrapper.WriteFrame now u' (Some h) payload = (w, g, Ok ()) →
           ∃ m, udp_last_sent w = Some (from, m))).
Proof.
  intros HM. split.
  { intros Hc. unfold udp_ReadFrame. rewrite decide_False by lia.
    unfold pc_ReadFrom. by rewrite Hc. }
  intros Hopen.
  assert (Hu : (udp_ReadFrame u datagram from).1 = udp_with_addr from u).
  { unfold udp_ReadFrame. rewrite decide_False by lia.
    unfold pc_ReadFrom. rewrite Hopen.
    repeat case_match; reflexivity. }
  cbn zeta. rewrite Hu. split_and!; [done|done| | |].
  - intros ->. unfold udp_ReadFrame. rewrite decide_False by lia.
    unfold pc_ReadFrom. rewrite Hopen. cbn [length].
    rewrite Nat.min_0_r. by rewrite decide_True by lia.
  - intros x rest -> HM1 Hshort. unfold udp_ReadFrame. rewrite decide_False by lia.
    unfold pc_ReadFrom. rewrite Hopen. unfold make. rewrite length_replicate.
    set (M := Z.to_nat (udpConnWrapper.maxMessageSize u)).
    match goal with |- context [Nat.min ?a ?b] => set (n := Nat.min a b) end.
    assert (Hn : (1 ≤ n ≤ 1 + length rest)%nat) by (subst n; cbn [length]; lia).
    rewrite decide_False by lia.
    destruct n as [|n]; [lia|]. cbn [take app lookup list_lookup].
    by rewrite decide_True by lia.
  - intros w g HW.
    destruct (udp_WriteFrame_spec now (udp_with_addr from u) h payload)
      as (hb & _ & _ & HW').
    cbn zeta in HW'. rewrite HW' in HW. clear HW'.
    destruct (decide _); [done|].
    unfold pc_WriteTo in HW. cbn [udp_with_addr udpConnWrapper.pc udpConnWrapper.addr] in HW.
    rewrite Hopen in HW. injection HW as <- _.
    eexists. unfold udp_last_sent. cbn. by rewrite last_snoc.
Qed.

Lemma udp_ReadFrame_records_peer_witness :
  (pclosed (udpConnWrapper.pc sample_receiver) = true →
   udp_ReadFrame sample_receiver [60; 1; 2] (Some 7%nat)
   = (sample_receiver, Failed (ErrUDPRead ErrIO))) ∧
  (pclosed (udpConnWrapper.pc sample_receiver) = false →
   let u' := (udp_ReadFrame sample_receiver [60; 1; 2] (Some 7%nat)).1 in
   u' = udp_with_addr (Some 7%nat) sample_receiver ∧
   udp_RemoteAddr u' = Some 7%nat ∧
   ([60; 1; 2] = [] →
    (udp_ReadFrame sample_receiver [60; 1; 2] (Some 7%nat)).2 = Failed ErrUDPNoPrefix) ∧
   (∀ x rest, [60; 1; 2] = x :: rest → 1 ≤ udpConnWrapper.maxMessageSize sample_receiver →
              (length rest < Z.to_nat x)%nat →
              (udp_ReadFrame sample_receiver [60; 1; 2] (Some 7%nat)).2
              = Failed ErrUDPShortHeader) ∧
   (∀ w g, udpConnWrapper.WriteFrame 0 u' (Some sample_header) check_string = (w, g, Ok ()) →
           ∃ m, udp_last_sent w = Some (Some 7%nat, m))).
Proof.
  apply (udp_ReadFrame_records_peer 0 sample_receiver [60; 1; 2] (Some 7%nat)
           sample_header check_string).
  vm_compute. split; discriminate.
Defined.

(** X19: the datagram reader trusts the Length field as well: when
    1 + headerSize + Length + 4 wraps around in uint64 the size check
    passes, and the reader panics in make (Length + 4 is above the largest
    allocation) or, when Length + 4 wraps too, on slicing the checksum off a
    buffer shorter than 4 bytes. *)
Theorem udp_ReadFrame_hostile_Length u x rest from h :
  pclosed (udpConnWrapper.pc u) = false →
  0 ≤ udpConnWrapper.maxMessageSize u ≤ maxAlloc →
  (1 + length rest ≤ Z.to_nat (udpConnWrapper.maxMessageSize u))%nat →
  0 ≤ x < 255 → (Z.to_nat x ≤ length rest)%nat →
  HeaderDecode
    (mkSlice (take (Z.to_nat x) rest)
       (drop (Z.to_nat x) rest
          ++ replicate (Z.to_nat (udpConnWrapper.maxMessageSize u) - (1 + length rest)) 0))
  = Ok h →
  2 ^ 64 - 5 - x ≤ Length h < 2 ^ 64 - 4
  ∨ (2 ^ 64 - 4 ≤ Length h < 2 ^ 64 ∧ x + (Length h + 4 - 2 ^ 64) ≤ Z.of_nat (length rest)) →
  udp_ReadFrame u (x :: rest) from
  = (udp_with_addr from u,
     Crashed (if decide (Length h < 2 ^ 64 - 4) then PanicMakeslice else PanicSliceBounds)).
Proof.
  intros Hopen HM Hfit Hx HL HD HLen.
  assert (HmaxA : maxAlloc = 2 ^ 48) by reflexivity.
  set (M := Z.to_nat (udpConnWrapper.maxMessageSize u)) in *.
  set (L := Z.to_nat x) in *.
  unfold udp_ReadFrame.
  rewrite decide_False by lia. fold M.
  rewrite pc_ReadFrom_fits by (cbn [length]; done || lia).
  cbn [length]. rewrite decide_False by lia.
  cbn [app lookup list_lookup]. fold L.
  rewrite decide_False by lia.
  assert (Ehi : Z.to_nat (to_byte (1 + x)) = S L).
  { unfold to_byte. rewrite Z.mod_small by lia. lia. }
  rewrite Ehi. unfold reslice.
  rewrite decide_True.
  2:{ unfold cap, slice_of. cbn [elems spare length]. rewrite length_app, length_replicate. lia. }
  unfold backing, slice_of. cbn [elems spare]. rewrite app_nil_r.
  cbn [drop]. rewrite drop_0.
  replace (S L - 1)%nat with L by lia.
  rewrite take_app_le by lia. rewrite drop_app_le by lia.
  replace (S (length rest)) with (1 + length rest)%nat by lia.
  rewrite HD.
  destruct HLen as [HLen|[HLen Hroom]].
  - assert (E1 : to_uint64 (Z.of_nat (1 + L) + Length h + 4)
                 = Z.of_nat (1 + L) + Length h + 4 - 2 ^ 64).
    { unfold to_uint64. symmetry. apply (Z.mod_unique _ _ 1); lia. }
    assert (E2 : to_uint64 (Length h + 4) = Length h + 4).
    { unfold to_uint64. apply Z.mod_small. lia. }
    rewrite E1, E2.
    rewrite decide_False.
    2:{ unfold to_uint64. rewrite Z.mod_small by lia. lia. }
    rewrite decide_True by lia. by rewrite decide_True by lia.
  - assert (E1 : to_uint64 (Z.of_nat (1 + L) + Length h + 4)
                 = Z.of_nat (1 + L) + Length h + 4 - 2 ^ 64).
    { unfold to_uint64. symmetry. apply (Z.mod_unique _ _ 1); lia. }
    assert (E2 : to_uint64 (Length h + 4) = Length h + 4 - 2 ^ 64).
    { unfold to_uint64. symmetry. apply (Z.mod_unique _ _ 1); lia. }
    rewrite E1, E2.
    rewrite decide_False.
    2:{ unfold to_uint64. rewrite Z.mod_small by lia. lia. }
    rewrite decide_False by lia.
    assert (Ei : to_int (Length h + 4 - 2 ^ 64) = Length h + 4 - 2 ^ 64).
    { unfold to_int. rewrite Z.mod_small by lia. by rewrite decide_True by lia. }
    rewrite Ei.
    rewrite decide_True.
    2:{ cbn [length]. rewrite length_app, length_replicate. lia. }
    rewrite (decide_False (P := Length h < 2 ^ 64 - 4)) by lia.
    rewrite decide_True; [reflexivity|].
    unfold copy. rewrite length_inserts. unfold make. rewrite length_replicate. lia.
Qed.

Lemma udp_ReadFrame_hostile_Length_witness :
  udp_ReadFrame sample_receiver hostile_stream None
  = (udp_with_addr None sample_receiver,
     Crashed (if decide (2 ^ 64 - 1 < 2 ^ 64 - 4) then PanicMakeslice else PanicSliceBounds)).
Proof.
  apply (udp_ReadFrame_hostile_Length sample_receiver 52
           (replicate 40 0 ++ replicate 8 255 ++ replicate 4 0 ++ [1; 2; 3]) None
           (mkHeader uuid_Nil uuid_Nil uuid_Nil 0 (2 ^ 64 - 1) 0 0 0 0 0)).
  - reflexivity.
  - vm_compute. split; discriminate.
  - vm_compute. lia.
  - lia.
  - vm_compute. lia.
  - vm_compute. reflexivity.
  - right. vm_compute. split; [split|]; (reflexivity || discriminate).
Defined.

(** ** Sender and sequence number *)

Lemma udp_WriteFrame_keeps now u hp payload :
  let u' := (udpConnWrapper.WriteFrame now u hp payload).1.1 in
  udpConnWrapper.sender u' = udpConnWrapper.sender u ∧
  udpConnWrapper.maxMessageSize u' = udpConnWrapper.maxMessageSize u ∧
  udpConnWrapper.addr u' = udpConnWrapper.addr u.
Proof.
  destruct hp as [h|]; [|done].
  destruct (udp_WriteFrame_spec now u h payload) as (hb & _ & _ & HW).
  cbn zeta in *. rewrite HW.
  destruct (decide _); [done|]. by destruct (pc_WriteTo _ _ _).
Qed.

Lemma write_calls_cons c calls u :
  write_calls (c :: calls) u
  = write_calls calls (udpConnWrapper.WriteFrame c.1.1 u c.1.2 c.2).1.1.
Proof. reflexivity. Qed.

(** X20: after any series of calls of the datagram WriteFrame on one
    transport, with whatever clock readings, headers and payloads, the
    counter has advanced by the number of calls whose header was not nil,
    modulo 2^32, whether or not those frames could be sent (a call with the
    nil header leaves it alone); the sender identifier and the size limit
    stay as they were, and the next frame carries that number and that
    sender. *)
Theorem udp_sequence_after_calls calls now u h payload :
  is_uint32 (udpConnWrapper.sequence u) →
  let un := write_calls calls u in
  let c := (udpConnWrapper.sequence u + Z.of_nat (calls_with_header calls)) mod 2 ^ 32 in
  udpConnWrapper.sequence un = c ∧
  udpConnWrapper.sender un = udpConnWrapper.sender u ∧
  udpConnWrapper.maxMessageSize un = udpConnWrapper.maxMessageSize u ∧
  udpConnWrapper.WriteFrame now un None payload = (un, None, Err ErrUDPNilHeader) ∧
  ∃ w g r,
    udpConnWrapper.WriteFrame now un (Some h) payload = (w, Some g, r) ∧
    Sequence g = c ∧
    Sender g = udpConnWrapper.sender u ∧
    udpConnWrapper.sequence w = (c + 1) mod 2 ^ 32.
Proof.
  intros Hseq un c.
  assert (Hinv : udpConnWrapper.sequence un = c
                 ∧ udpConnWrapper.sender un = udpConnWrapper.sender u
                 ∧ udpConnWrapper.maxMessageSize un = udpConnWrapper.maxMessageSize u).
  { subst un c. revert u Hseq.
    induction calls as [|[[t hp] p] calls IH]; intros u Hseq.
    - cbn. unfold is_uint32 in Hseq. rewrite Z.add_0_r, Z.mod_small by lia. done.
    - rewrite write_calls_cons. cbn [fst snd].
      destruct (udp_WriteFrame_keeps t u hp p) as (Es & Em & _). cbn zeta in Es, Em.
      destruct hp as [g|].
      + assert (Hs : is_uint32 (udpConnWrapper.sequence
                       (udpConnWrapper.WriteFrame t u (Some g) p).1.1)).
        { rewrite udp_WriteFrame_sequence. unfold to_uint32, is_uint32.
          apply Z.mod_pos_bound. lia. }
        destruct (IH _ Hs) as (-> & -> & ->).
        split_and!; [|done|done].
        rewrite udp_WriteFrame_sequence. unfold to_uint32, calls_with_header.
        rewrite filter_cons_True by (cbn; by eexists). cbn [length].
        rewrite Zplus_mod_idemp_l. f_equal. lia.
      + destruct (IH u Hseq) as (E1 & E2 & E3).
        change (udpConnWrapper.WriteFrame t u None p).1.1 with u.
        split_and!; [|done|done].
        rewrite E1. unfold calls_with_header.
        rewrite filter_cons_False; [done|]. cbn. by intros [? ?]. }
  destruct Hinv as (Hn & Hsnd & Hmax).
  split_and!; [done|done|done|reflexivity|].
  destruct (udp_WriteFrame_call now un h payload) as (w & r & HW & Hw & _).
  cbn zeta in HW. eexists w, _, r. split; [exact HW|].
  destruct (SetTimestampIfZero_other now
              (set_Length (to_uint64 (Z.of_nat (length payload)))
                 (set_Sequence (udpConnWrapper.sequence un)
                    (set_Protocol ProtocolUDP (set_Sender (udpConnWrapper.sender un) h)))))
    as (_&E2&_&_&E5&_).
  cbn zeta in *. rewrite E2, E5. cbn [Sequence Sender set_Length set_Sequence].
  rewrite Hw, Hn, Hsnd. done.
Qed.

Lemma udp_sequence_after_calls_witness :
  let calls := [(0, Some sample_header, check_string);
                (1, None, check_string);
                (2, Some broadcast_to_nobody, replicate 3000 0)] in
  let un := write_calls calls udp_at_limit in
  let c := (udpConnWrapper.sequence udp_at_limit
            + Z.of_nat (calls_with_header calls)) mod 2 ^ 32 in
  udpConnWrapper.sequence un = c ∧
  udpConnWrapper.sender un = udpConnWrapper.sender udp_at_limit ∧
  udpConnWrapper.maxMessageSize un = udpConnWrapper.maxMessageSize udp_at_limit ∧
  udpConnWrapper.WriteFrame 3 un None check_string = (un, None, Err ErrUDPNilHeader) ∧
  ∃ w g r,
    udpConnWrapper.WriteFrame 3 un (Some sample_header) check_string = (w, Some g, r) ∧
    Sequence g = c ∧
    Sender g = udpConnWrapper.sender udp_at_limit ∧
    udpConnWrapper.sequence w = (c + 1) mod 2 ^ 32.
Proof.
  apply (udp_sequence_after_calls
           [(0, Some sample_header, check_string);
            (1, None, check_string);
            (2, Some broadcast_to_nobody, replicate 3000 0)]
           3 udp_at_limit sample_header check_string).
  compute_done.
Defined.

(** X21: a frame the datagram WriteFrame refuses as too large, or fails to send
    on a closed connection, has still used up a sequence number and has
    already replaced Sender, Protocol, Sequence and Length in the caller's
    header; nothing is sent. Only the nil header is refused before
    anything changes. *)
Theorem udp_failed_frame_consumes_sequence now u h payload :
  let size := Z.of_nat (1 + (if IsBroadcast h then 72 else 56) + length payload + 4) in
  udpConnWrapper.maxMessageSize u < size ∨ pclosed (udpConnWrapper.pc u) = true →
  udpConnWrapper.WriteFrame now u None payload = (u, None, Err ErrUDPNilHeader) ∧
  ∃ u' g,
    udpConnWrapper.WriteFrame now u (Some h) payload
    = (u', Some g,
       Err (if decide (udpConnWrapper.maxMessageSize u < size)
            then ErrUDPMessageTooLarge size (udpConnWrapper.maxMessageSize u)
            else ErrUDPWrite ErrIO)) ∧
    sent (udpConnWrapper.pc u') = sent (udpConnWrapper.pc u) ∧
    udpConnWrapper.sequence u' = to_uint32 (udpConnWrapper.sequence u + 1) ∧
    Sender g = udpConnWrapper.sender u ∧ Protocol g = ProtocolUDP ∧
    Sequence g = udpConnWrapper.sequence u ∧
    Length g = to_uint64 (Z.of_nat (length payload)).
Proof.
  intros size Hfail. split; [reflexivity|]. subst size.
  rewrite <- (HeaderSize_stamped now u h payload) in Hfail |- *.
  destruct (udp_WriteFrame_spec now u h payload) as (hb & HE & Hlen & HW).
  cbn zeta in *.
  set (h' := SetTimestampIfZero now _) in *.
  destruct (SetTimestampIfZero_other now
              (set_Length (to_uint64 (Z.of_nat (length payload)))
                 (set_Sequence (udpConnWrapper.sequence u)
                    (set_Protocol ProtocolUDP (set_Sender (udpConnWrapper.sender u) h)))))
    as (_&E2&_&E4&E5&E6&_).
  cbn zeta in *. fold h' in E2, E4, E5, E6.
  rewrite Hlen in HW. rewrite HW. clear HW.
  destruct (decide (udpConnWrapper.maxMessageSize u < _)) as [Hbig|Hbig].
  - eexists _, h'. split; [reflexivity|]. by split_and!.
  - destruct Hfail as [?|Hc]; [done|].
    unfold pc_WriteTo. rewrite Hc. cbn [wrap_err].
    eexists _, h'. split; [reflexivity|]. by split_and!.
Qed.

Lemma udp_failed_frame_consumes_sequence_witness :
  let u := udpConnWrapper.New (mkPacketConn [] false) None 64 (sample_uuid 3) in
  let size := Z.of_nat (1 + (if IsBroadcast sample_header then 72 else 56)
                          + length check_string + 4) in
  udpConnWrapper.WriteFrame 0 u None check_string = (u, None, Err ErrUDPNilHeader) ∧
  ∃ u' g,
    udpConnWrapper.WriteFrame 0 u (Some sample_header) check_string
    = (u', Some g,
       Err (if decide (udpConnWrapper.maxMessageSize u < size)
            then ErrUDPMessageTooLarge size (udpConnWrapper.maxMessageSize u)
            else ErrUDPWrite ErrIO)) ∧
    sent (udpConnWrapper.pc u') = sent (udpConnWrapper.pc u) ∧
    udpConnWrapper.sequence u' = to_uint32 (udpConnWrapper.sequence u + 1) ∧
    Sender g = udpConnWrapper.sender u ∧ Protocol g = ProtocolUDP ∧
    Sequence g = udpConnWrapper.sequence u ∧
    Length g = to_uint64 (Z.of_nat (length check_string)).
Proof.
  apply (udp_failed_frame_consumes_sequence 0
           (udpConnWrapper.New (mkPacketConn [] false) None 64 (sample_uuid 3))
           sample_header check_string).
  left. vm_compute. reflexivity.
Defined.

(** X22: SetSender and GetSender: the identifier set is the one read back on
    both transports. The datagram transport stamps it on every frame it
    writes from then on and keeps it; the stream transport never puts it in
    a frame, so its frames are the same whatever identifier was set. *)
Theorem SetSender_effect now id w u h payload :
  tcp_GetSender (tcp_SetSender id w) = id ∧
  udp_GetSender (udp_SetSender id u) = id ∧
  tcpConnWrapper.WriteFrame now (tcp_SetSender id w) (Some h) payload
  = (let '(w', g, r) := tcpConnWrapper.WriteFrame now w (Some h) payload in
     (tcp_SetSender id w', g, r)) ∧
  tcpConnWrapper.ReadFrame (tcp_SetSender id w)
  = (let '(w', r) := tcpConnWrapper.ReadFrame w in (tcp_SetSender id w', r)) ∧
  ∃ u' g r,
    udpConnWrapper.WriteFrame now (udp_SetSender id u) (Some h) payload = (u', Some g, r) ∧
    Sender g = id ∧ udp_GetSender u' = id.
Proof.
  split_and!; [reflexivity|reflexivity| | |].
  - destruct (tcp_WriteFrame_spec now w h payload) as (hb & HE & _ & ->).
    destruct (tcp_WriteFrame_spec now (tcp_SetSender id w) h payload) as (hb' & HE' & _ & ->).
    cbn zeta in *. assert (hb' = hb) as -> by congruence.
    cbn [tcp_SetSender tcpConnWrapper.conn].
    by destruct (conn_Write _ _).
  - unfold tcpConnWrapper.ReadFrame. cbn [tcp_SetSender tcpConnWrapper.conn].
    repeat (case_match; try reflexivity).
  - destruct (udp_WriteFrame_spec now (udp_SetSender id u) h payload) as (hb & _ & _ & HW).
    cbn zeta in HW.
    destruct (SetTimestampIfZero_other now
                (set_Length (to_uint64 (Z.of_nat (length payload)))
                   (set_Sequence (udpConnWrapper.sequence (udp_SetSender id u))
                      (set_Protocol ProtocolUDP
                         (set_Sender (udpConnWrapper.sender (udp_SetSender id u)) h)))))
      as (_&E2&_).
    rewrite HW. destruct (decide _).
    + eexists _, _, _. split; [reflexivity|]. split; [exact E2|reflexivity].
    + destruct (pc_WriteTo _ _ _) as [p r].
      eexists _, _, _. split; [reflexivity|]. split; [exact E2|reflexivity].
Qed.

(** ** Encoding again, and frames across transports *)

(** X23: HeaderEncode stamps the header once: encoding the header it left
    behind gives the same bytes and leaves the header alone, whatever the
    clock reads then. The exception is a clock that read 0 the first
    time and left the Timestamp zero. *)
Theorem HeaderEncode_again now1 now2 h :
  Timestamp h ≠ 0 ∨ to_uint64 now1 ≠ 0 →
  ∃ h' bytes,
    HeaderEncode now1 (Some h) = Ok (h', bytes) ∧
    Timestamp h' ≠ 0 ∧
    HeaderEncode now2 (Some h') = Ok (h', bytes).
Proof.
  intros Hts.
  destruct (HeaderEncode_Ok now1 h) as (bytes & HE & _).
  exists (SetTimestampIfZero now1 h), bytes. split; [done|].
  assert (Hnz : Timestamp (SetTimestampIfZero now1 h) ≠ 0).
  { unfold SetTimestampIfZero. destruct (decide (Timestamp h = 0)); [|done].
    cbn [Timestamp set_Timestamp]. tauto. }
  split; [done|].
  rewrite <- HE. unfold HeaderEncode.
  assert (Hid : SetTimestampIfZero now2 (SetTimestampIfZero now1 h)
                = SetTimestampIfZero now1 h).
  { unfold SetTimestampIfZero at 1. by rewrite decide_False. }
  cbn zeta. by rewrite Hid.
Qed.

Lemma HeaderEncode_again_witness :
  ∃ h' bytes,
    HeaderEncode 1700000000123 (Some (set_Timestamp 0 sample_header)) = Ok (h', bytes) ∧
    Timestamp h' ≠ 0 ∧
    HeaderEncode 1800000000000 (Some h') = Ok (h', bytes).
Proof.
  apply (HeaderEncode_again 1700000000123 1800000000000 (set_Timestamp 0 sample_header)).
  right. vm_compute. discriminate.
Defined.

(** X24: both transports put the same frame on the wire. For a
    well-formed header that is not a broadcast with the zero Receiver and a
    payload within both size limits, a datagram written by the datagram
    transport, arriving on a stream, is read by the stream reader, and the
    bytes the stream transport writes, arriving as one datagram, are read by
    the datagram reader: the payload as written, under the header the
    WriteFrame left behind as the wire carries it (the Receiver only for a
    broadcast, the Sequence only for UDP, zero otherwise). *)
Theorem frames_cross_transports now u r h payload rest out id from :
  pclosed (udpConnWrapper.pc u) = false →
  pclosed (udpConnWrapper.pc r) = false →
  wf_header h → wf_uuid (udpConnWrapper.sender u) →
  is_uint32 (udpConnWrapper.sequence u) → wf_bytes payload →
  ¬ (MessageType_ h = MessageTypeBroadcast ∧ Receiver h = uuid_Nil) →
  Z.of_nat (1 + 72 + length payload + 4) ≤ udpConnWrapper.maxMessageSize u →
  Z.of_nat (1 + 72 + length payload + 4) ≤ udpConnWrapper.maxMessageSize r ≤ maxAlloc →
  (∃ u' g datagram,
     udpConnWrapper.WriteFrame now u (Some h) payload = (u', Some g, Ok ()) ∧
     udp_last_sent u' = Some (udpConnWrapper.addr u, datagram) ∧
     tcpConnWrapper.ReadFrame
       (tcpConnWrapper.mk (mkConn (datagram ++ rest) out false) id)
     = (tcpConnWrapper.mk (mkConn rest out false) id, Ok (on_wire g, payload))) ∧
  (∃ w' g,
     tcpConnWrapper.WriteFrame now (reader []) (Some h) payload = (w', Some g, Ok ()) ∧
     outbound (tcpConnWrapper.conn w') = tcp_wire now h payload ∧
     udp_ReadFrame r (tcp_wire now h payload) from
     = (udp_with_addr from r, Done (on_wire g, payload))).
Proof.
  intros Hu Hr Hwf Hsnd Hseq Hp Hnd Hsu Hsr.
  assert (HmaxA : maxAlloc = 2 ^ 48) by reflexivity.
  assert (Hmax : Z.of_nat (length payload) + 4 ≤ maxAlloc) by lia.
  split.
  - pose proof (HeaderSize_stamped now u h payload) as Hsz.
    destruct (udp_WriteFrame_sends now u h payload Hu) as (hb & u' & HE & HW & Hsent & _).
    { cbn zeta. rewrite Hsz. destruct (IsBroadcast h); lia. }
    cbn zeta in *.
    set (h0 := set_Sequence (udpConnWrapper.sequence u)
                 (set_Protocol ProtocolUDP (set_Sender (udpConnWrapper.sender u) h))) in *.
    assert (Hwf0 : wf_header h0).
    { destruct Hwf as (?&?&?&?&?&?&?&?&?&?), Hsnd.
      unfold wf_header, h0. cbn. by split_and!. }
    destruct (tcp_WriteFrame_ReadFrame now h0 payload rest out id Hwf0 Hp Hmax Hnd)
      as (hb' & HE' & HR).
    cbn zeta in *. assert (hb' = hb) as -> by congruence.
    eexists u', _, _. split; [exact HW|]. split.
    { unfold udp_last_sent. rewrite Hsent. by rewrite last_snoc. }
    exact HR.
  - destruct (tcp_WriteFrame_wire now (reader []) h payload eq_refl)
      as (hb & HE & Hhb & Hwire & HW).
    cbn zeta in *.
    set (h1 := set_Length (to_uint64 (Z.of_nat (length payload))) h) in *.
    assert (Hwf1 : wf_header h1).
    { unfold h1. rewrite payload_length_fits by done.
      destruct Hwf as (?&?&?&?&?&?&?&?&?&?).
      unfold wf_header. cbn. split_and!; try done. unfold is_uint64. lia. }
    destruct (udp_read_encoded now r h1 payload payload from Hr Hwf1) as (hb' & HE' & Hlen & HR);
      try done.
    { by apply payload_length_fits. }
    { cbn zeta. rewrite HeaderSize_cases.
      destruct (IsBroadcast _), (decide _); lia. }
    { lia. }
    cbn zeta in *. assert (hb' = hb) as -> by congruence.
    rewrite decide_False in HR by tauto.
    eexists _, _. split; [exact HW|]. split; [reflexivity|].
    rewrite Hwire. exact HR.
Qed.

Lemma frames_cross_transports_witness :
  (∃ u' g datagram,
     udpConnWrapper.WriteFrame 0 sample_udp (Some sample_header) check_string
     = (u', Some g, Ok ()) ∧
     udp_last_sent u' = Some (udpConnWrapper.addr sample_udp, datagram) ∧
     tcpConnWrapper.ReadFrame
       (tcpConnWrapper.mk (mkConn (datagram ++ [9]) [] false) uuid_Nil)
     = (tcpConnWrapper.mk (mkConn [9] [] false) uuid_Nil, Ok (on_wire g, check_string))) ∧
  (∃ w' g,
     tcpConnWrapper.WriteFrame 0 (reader []) (Some sample_header) check_string
     = (w', Some g, Ok ()) ∧
     outbound (tcpConnWrapper.conn w') = tcp_wire 0 sample_header check_string ∧
     udp_ReadFrame sample_receiver (tcp_wire 0 sample_header check_string) None
     = (udp_with_addr None sample_receiver, Done (on_wire g, check_string))).
Proof.
  apply (frames_cross_transports 0 sample_udp sample_receiver sample_header check_string
           [9] [] uuid_Nil None).
  - reflexivity.
  - reflexivity.
  - compute_done.
  - compute_done.
  - compute_done.
  - compute_done.
  - compute_done.
  - vm_compute. discriminate.
  - vm_compute. split; discriminate.
Defined.

(** X25: the datagram written for a well-formed header that is not a
    broadcast with the zero Receiver, when it is larger than the reader's
    buffer, is cut to the buffer and refused with an error, not read as a
    frame and not a panic: no prefix when the buffer is empty, a short
    header when the buffer ends in the header, else a short payload. *)
Theorem udp_ReadFrame_small_buffer now u r h payload from :
  pclosed (udpConnWrapper.pc u) = false →
  pclosed (udpConnWrapper.pc r) = false →
  wf_header h → wf_uuid (udpConnWrapper.sender u) →
  is_uint32 (udpConnWrapper.sequence u) → wf_bytes payload →
  ¬ (MessageType_ h = MessageTypeBroadcast ∧ Receiver h = uuid_Nil) →
  let hs := (if IsBroadcast h then 72 else 56)%nat in
  let size := Z.of_nat (1 + hs + length payload + 4) in
  size ≤ udpConnWrapper.maxMessageSize u → size ≤ maxAlloc →
  0 ≤ udpConnWrapper.maxMessageSize r < size →
  ∃ u' g datagram,
    udpConnWrapper.WriteFrame now u (Some h) payload = (u', Some g, Ok ()) ∧
    udp_last_sent u' = Some (udpConnWrapper.addr u, datagram) ∧
    udp_ReadFrame r datagram from
    = (udp_with_addr from r,
       Failed (if decide (udpConnWrapper.maxMessageSize r = 0) then ErrUDPNoPrefix
               else if decide (udpConnWrapper.maxMessageSize r ≤ Z.of_nat hs)
                    then ErrUDPShortHeader
                    else ErrUDPShortPayload)).
Proof.
  intros Hu Hr Hwf Hsnd Hseq Hp Hnd hs size Hsu Hsa Hsr. subst hs size.
  assert (HmaxA : maxAlloc = 2 ^ 48) by reflexivity.
  rewrite <- (HeaderSize_stamped now u h payload) in *.
  destruct (udp_WriteFrame_sends now u h payload Hu Hsu)
    as (hb & u' & HE & HW & Hsent & _).
  cbn zeta in *.
  set (h1 := set_Length _ _) in *. set (h' := SetTimestampIfZero now h1) in *.
  assert (Hwf1 : wf_header h1).
  { apply wf_header_stamped; try done. lia. }
  destruct (HeaderEncode_Ok now h1) as (hb' & HE' & Hlen).
  fold h' in HE', Hlen. assert (hb' = hb) as -> by congruence. clear HE'.
  assert (Hhb : (52 ≤ length hb ≤ 72)%nat).
  { rewrite Hlen. subst h' h1. rewrite HeaderSize_stamped. destruct (IsBroadcast h); lia. }
  assert (Ex : Z.to_nat (to_byte (Z.of_nat (length hb))) = length hb).
  { unfold to_byte. rewrite Z.mod_small by lia. lia. }
  eexists u', h', _. split; [exact HW|]. split.
  { unfold udp_last_sent. rewrite Hsent. by rewrite last_snoc. }
  rewrite <- Hlen in *.
  set (x := to_byte _) in *. set (crc := BigEndian.bytes32 _) in *.
  assert (Hcrc : length crc = 4%nat) by reflexivity.
  set (M := Z.to_nat (udpConnWrapper.maxMessageSize r)).
  unfold udp_ReadFrame. rewrite decide_False by lia. fold M.
  unfold pc_ReadFrom. rewrite Hr. unfold make. rewrite length_replicate.
  cbn [length]. rewrite !length_app, Hcrc.
  rewrite Nat.min_l by lia. rewrite drop_replicate, Nat.sub_diag. cbn [replicate].
  rewrite app_nil_r.
  destruct (decide (udpConnWrapper.maxMessageSize r = 0)) as [HM0|HM0].
  { by rewrite decide_True by lia. }
  rewrite decide_False by lia.
  destruct M as [|M'] eqn:EM; [lia|]. cbn [take lookup list_lookup]. rewrite Ex.
  destruct (decide (udpConnWrapper.maxMessageSize r ≤ _)) as [Hsh|Hsh].
  { by rewrite decide_True by lia. }
  rewrite decide_False by lia.
  assert (Ehi : Z.to_nat (to_byte (1 + x)) = S (length hb)).
  { subst x. unfold to_byte. rewrite (Z.mod_small (Z.of_nat _)) by lia.
    rewrite Z.mod_small by lia. lia. }
  rewrite Ehi. unfold reslice.
  rewrite decide_True.
  2:{ unfold cap, slice_of. cbn [elems spare length].
      rewrite length_take, !length_app, Hcrc. lia. }
  unfold backing, slice_of. cbn [elems spare]. rewrite app_nil_r.
  cbn [drop]. rewrite drop_0.
  replace (S (length hb) - 1)%nat with (length hb) by lia.
  rewrite take_take, Nat.min_l by lia. rewrite take_app_length.
  destruct (HeaderDecode_HeaderEncode now h1
              (drop (length hb) (take M' (hb ++ payload ++ crc))) Hwf1 Hnd)
    as (hb' & HE' & HD).
  fold h' in HE', HD. assert (hb' = hb) as -> by congruence. clear HE'.
  rewrite HD.
  assert (ElenH : Length (on_wire h') = Z.of_nat (length payload)).
  { transitivity (Length h'); [reflexivity|]. unfold h'.
    destruct (SetTimestampIfZero_other now h1) as (_&_&_&->&_).
    apply payload_length_fits. lia. }
  rewrite ElenH.
  rewrite decide_True; [reflexivity|].
  unfold to_uint64. rewrite !Z.mod_small by lia. lia.
Qed.

Lemma udp_ReadFrame_small_buffer_witness :
  let r := udpConnWrapper.New (mkPacketConn [] false) None 80 (sample_uuid 9) in
  ∃ u' g datagram,
    udpConnWrapper.WriteFrame 0 sample_udp (Some sample_header) check_string
    = (u', Some g, Ok ()) ∧
    udp_last_sent u' = Some (udpConnWrapper.addr sample_udp, datagram) ∧
    udp_ReadFrame r datagram None
    = (udp_with_addr None r,
       Failed (if decide (udpConnWrapper.maxMessageSize r = 0) then ErrUDPNoPrefix
               else if decide (udpConnWrapper.maxMessageSize r
                               ≤ Z.of_nat (if IsBroadcast sample_header then 72 else 56))
                    then ErrUDPShortHeader
                    else ErrUDPShortPayload)).
Proof.
  apply (udp_ReadFrame_small_buffer 0 sample_udp
           (udpConnWrapper.New (mkPacketConn [] false) None 80 (sample_uuid 9))
           sample_header check_string None).
  - reflexivity.
  - reflexivity.
  - compute_done.
  - compute_done.
  - compute_done.
  - compute_done.
  - compute_done.
  - vm_compute. discriminate.
  - vm_compute. discriminate.
  - vm_compute. split; [discriminate|reflexivity].
Defined.

(** ** Reading a frame, then writing it *)

(** X26: a frame the stream reader accepts, written again with the header
    and payload it returned, gives the accepted bytes back: the stream read
    from is that frame followed by what the reader left. So the Length
    of an accepted header is the length of the payload, and the accepted
    bytes end in the checksum of the payload. It needs a decoded Timestamp
    other than zero and not a broadcast with the zero Receiver. *)
Theorem tcp_ReadFrame_then_WriteFrame now s out id w' h p :
  wf_bytes s →
  tcpConnWrapper.ReadFrame (tcpConnWrapper.mk (mkConn s out false) id) = (w', Ok (h, p)) →
  Timestamp h ≠ 0 →
  ¬ (MessageType_ h = MessageTypeBroadcast ∧ Receiver h = uuid_Nil) →
  wf_header h ∧ wf_bytes p ∧
  Length h = Z.of_nat (length p) ∧
  s = tcp_wire now h p ++ inbound (tcpConnWrapper.conn w') ∧
  outbound (tcpConnWrapper.conn w') = out ∧
  tcpConnWrapper.sender w' = id.
Proof.
  intros Hwf Hacc Hts Hnd.
  assert (HmaxA : maxAlloc = 2 ^ 48) by reflexivity.
  pose proof Hacc as Hinv.
  apply ReadFrame_Ok_inv in Hinv
    as (x & rest & _ & -> & HL & HD & Hmax & HN & Hp & HU).
  set (L := Z.to_nat x) in *.
  set (N := Z.to_nat (to_uint64 (Length h + 4))) in *.
  apply Forall_cons in Hwf as [Hx Hrest].
  pose proof (ReadFrame_eval x rest out id h (Checksum p)) as HEv.
  cbn zeta in HEv. fold L N in HEv. rewrite <- Hp in HEv.
  specialize (HEv HL HD Hmax HN HU).
  rewrite decide_False in HEv by tauto.
  pose proof (eq_trans (eq_sym Hacc) HEv) as Hw. injection Hw as ->.
  clear HEv Hacc.
  cbn [tcpConnWrapper.conn inbound outbound tcpConnWrapper.sender].
  assert (Hhb : wf_bytes (take L rest)) by (by apply Forall_take).
  destruct (HeaderDecode_canonical now (slice_of (take L rest)) h Hhb HD Hts Hnd)
    as [Hwfh HE].
  cbn [elems slice_of] in HE.
  pose proof (HeaderDecode_Ok_len _ _ HD) as Hlen.
  unfold len, slice_of in Hlen. cbn [elems] in Hlen.
  rewrite length_take_le in Hlen by done.
  assert (Hlh : is_uint64 (Length h)) by (destruct Hwfh as (_&_&_&_&?&_); done).
  unfold is_uint64 in Hlh.
  assert (EN : to_uint64 (Length h + 4) = Length h + 4).
  { destruct (decide (Length h + 4 < 2 ^ 64)) as [|Hw].
    - unfold to_uint64. apply Z.mod_small. lia.
    - exfalso.
      assert (to_uint64 (Length h + 4) = Length h + 4 - 2 ^ 64).
      { unfold to_uint64. symmetry. apply (Z.mod_unique _ _ 1); lia. }
      lia. }
  assert (Hplen : length p = (N - 4)%nat).
  { rewrite Hp, length_take, length_drop. rewrite length_drop in HN. lia. }
  assert (ELp : Length h = Z.of_nat (length p)) by lia.
  assert (Hwp : wf_bytes p) by (rewrite Hp; by apply Forall_take, Forall_drop).
  split_and!; [done|done|done| |done|done].
  destruct (tcp_WriteFrame_wire now (reader []) h p eq_refl) as (hb & HE' & _ & -> & _).
  cbn zeta in HE'. rewrite <- ELp in HE'.
  assert (Eto : to_uint64 (Length h) = Length h).
  { unfold to_uint64. apply Z.mod_small. lia. }
  rewrite Eto in HE'.
  replace (set_Length (Length h) h) with h in HE' by (by destruct h).
  assert (hb = take L rest) as -> by congruence.
  rewrite length_take_le by done.
  assert (Ex : to_byte (Z.of_nat L) = x).
  { unfold L, to_byte, is_byte in *. rewrite Z2Nat.id by lia. apply Z.mod_small. lia. }
  rewrite Ex. cbn [app]. f_equal.
  destruct (bytes32_Uint32 (take 4 (drop (N - 4) (drop L rest))) (Checksum p)) as [_ ->].
  - rewrite length_take, !length_drop. rewrite length_drop in HN. lia.
  - by apply Forall_take, Forall_drop, Forall_drop.
  - done.
  - rewrite <- !app_assoc.
    rewrite <- (take_drop L rest) at 1. f_equal.
    rewrite Hp. rewrite <- (take_drop (N - 4) (drop L rest)) at 1. f_equal.
    rewrite <- (take_drop 4 (drop (N - 4) (drop L rest))) at 1. f_equal.
    rewrite !drop_drop. f_equal. lia.
Qed.

Lemma tcp_ReadFrame_then_WriteFrame_witness :
  wf_header (on_wire (set_Length 9 sample_header)) ∧ wf_bytes check_string ∧
  Length (on_wire (set_Length 9 sample_header)) = Z.of_nat (length check_string) ∧
  sample_frame ++ [1; 2]
  = tcp_wire 5 (on_wire (set_Length 9 sample_header)) check_string
    ++ inbound (tcpConnWrapper.conn (tcpConnWrapper.mk (mkConn [1; 2] [] false) uuid_Nil)) ∧
  outbound (tcpConnWrapper.conn (tcpConnWrapper.mk (mkConn [1; 2] [] false) uuid_Nil)) = [] ∧
  tcpConnWrapper.sender (tcpConnWrapper.mk (mkConn [1; 2] [] false) uuid_Nil) = uuid_Nil.
Proof.
  apply (tcp_ReadFrame_then_WriteFrame 5 (sample_frame ++ [1; 2]) [] uuid_Nil
           (tcpConnWrapper.mk (mkConn [1; 2] [] false) uuid_Nil)
           (on_wire (set_Length 9 sample_header)) check_string).
  - compute_done.
  - vm_compute. reflexivity.
  - discriminate.
  - compute_done.
Defined.
